(** * Customer-Churn-System: the asynchronous job tracker of [backend/server.py]

  A shallow embedding of the FastAPI back end: the upload, status, listing
  and deletion end points, the background analyzer, and the pieces of the
  Python runtime they lean on (text methods, [json.loads], the document
  store, the uploads directory).

  Text is a sequence of Unicode code points, a document is a finite map
  from field names to Python values, and every function of the server
  that touches the store, the disk or the clock is a computation in a small
  state-and-exception monad over a [World]. *)

From Stdlib Require Import ZArith NArith List String Ascii Lia.
From stdpp Require Import base option list gmap strings sorting pretty.

Local Open Scope N_scope.

(** ** Python text *)

(** A Python [str]: its code points. *)
Abbreviation str := (list N).

(** An ASCII literal of the source, as text. *)
Definition py (s : string) : str := N_of_ascii <$> list_ascii_of_string s.

Module Str.

(** [c.isspace()] for one code point: the characters [str.strip()]
    removes when called without an argument. *)
Definition isspace (c : N) : bool :=
  ((9 <=? c) && (c <=? 13)) || ((28 <=? c) && (c <=? 32))
  || (c =? 133) || (c =? 160) || (c =? 5760)
  || ((8192 <=? c) && (c <=? 8202))
  || (c =? 8232) || (c =? 8233) || (c =? 8239) || (c =? 8287)
  || (c =? 12288).

Fixpoint lstrip (s : str) : str :=
  match s with
  | c :: s' => if isspace c then lstrip s' else s
  | [] => []
  end.

Fixpoint rstrip (s : str) : str :=
  match s with
  | [] => []
  | c :: s' =>
      match rstrip s' with
      | [] => if isspace c then [] else [c]
      | r => c :: r
      end
  end.

(** [s.strip()] *)
Definition strip (s : str) : str := lstrip (rstrip s).

(** [s.startswith(pre)] *)
Fixpoint startswith (pre s : str) : bool :=
  match pre, s with
  | [], _ => true
  | p :: pre', c :: s' => (p =? c) && startswith pre' s'
  | _ :: _, [] => false
  end.

(** [s.endswith(suf)] *)
Definition endswith (suf s : str) : bool :=
  startswith (rev suf) (rev s).

(** [sub in s] *)
Fixpoint contains (sub s : str) : bool :=
  startswith sub s ||
  match s with
  | [] => false
  | _ :: s' => contains sub s'
  end.

(** The scan of [s.replace(old, new)] for a non-empty [old]: left to
    right, without overlap. [skip] counts the characters of a match that
    are still to be dropped. *)
Fixpoint replace_scan (old new : str) (skip : nat) (s : str) : str :=
  match s with
  | [] => []
  | c :: s' =>
      match skip with
      | S k => replace_scan old new k s'
      | O =>
          if startswith old s
          then new ++ replace_scan old new (pred (length old)) s'
          else c :: replace_scan old new O s'
      end
  end.

(** [s.replace(old, new)]; an empty [old] matches between all
    characters. *)
Definition replace (old new s : str) : str :=
  match old with
  | [] => new ++ flat_map (fun c => c :: new) s
  | _ :: _ => replace_scan old new O s
  end.

(** [sep.join(parts)] *)
Fixpoint join (sep : str) (parts : list str) : str :=
  match parts with
  | [] => []
  | [p] => p
  | p :: ps => p ++ sep ++ join sep ps
  end.

(** [s.split(sep)] for a one-character separator. *)
Fixpoint split (sep : N) (s : str) : list str :=
  match s with
  | [] => [[]]
  | c :: s' =>
      if c =? sep then [] :: split sep s'
      else match split sep s' with
           | w :: ws => (c :: w) :: ws
           | [] => [[c]]
           end
  end.

(** [str(n)] for a natural number. *)
Definition of_N (n : N) : str := py (pretty n).

(** [str(z)] for an integer. *)
Definition of_Z (z : Z) : str := py (pretty z).

End Str.


(** ** Python values *)

(** The values that travel through the server: what [json.loads] builds,
    what the store keeps in a document, what an end point returns. A float
    is kept as the text of its literal (binary floating point is not
    modelled); a [dict] nested in a value is an association list in
    insertion order with distinct keys. *)
#[local] Unset Elimination Schemes.
Inductive pyval :=
| PNone
| PBool (b : bool)
| PInt (z : Z)
| PFloat (literal : str)
| PStr (s : str)
| PList (items : list pyval)
| PDict (pairs : list (str * pyval))
| PDatetime (t : Z)
| PObjectId (oid : N).
#[local] Set Elimination Schemes.

Module Dict.

(** [d[k] = v]: overwrite in place, or append a new key. *)
Fixpoint set (k : str) (v : pyval) (d : list (str * pyval)) : list (str * pyval) :=
  match d with
  | [] => [(k, v)]
  | (k', v') :: d' =>
      if decide (k' = k) then (k, v) :: d' else (k', v') :: set k v d'
  end.

(** [d.get(k)] as an option. *)
Fixpoint lookup (k : str) (d : list (str * pyval)) : option pyval :=
  match d with
  | [] => None
  | (k', v) :: d' => if decide (k' = k) then Some v else lookup k d'
  end.

(** [dict(pairs)]: later pairs overwrite earlier ones. *)
Definition of_pairs (pairs : list (str * pyval)) : list (str * pyval) :=
  fold_left (fun d kv => set kv.1 kv.2 d) pairs [].

End Dict.

(** ** [json.loads]

    The decoder of the standard library, as a one-pass machine over the
    code points of the text. It accepts what [json.loads] accepts with its
    default arguments: the JSON grammar with blanks, tabs, line feeds and
    carriage returns between tokens, the extra literals [NaN], [Infinity]
    and [-Infinity], surrogate pairs in [\u] escapes, and repeated keys (the
    last value wins). A rejected text gives the text of the
    [JSONDecodeError]: its message with the line, the column and the index
    of the character it points at. The limits of the interpreter (recursion
    depth, digits of an integer) are left out. *)
Module Json.

(** The white space of the JSON grammar. *)
Definition is_ws (c : N) : bool :=
  (c =? 32) || (c =? 9) || (c =? 10) || (c =? 13).

Definition is_digit (c : N) : bool := (48 <=? c) && (c <=? 57).

(** The value of a hexadecimal digit. *)
Definition hex_value (c : N) : option N :=
  if (48 <=? c) && (c <=? 57) then Some (c - 48)
  else if (97 <=? c) && (c <=? 102) then Some (c - 87)
  else if (65 <=? c) && (c <=? 70) then Some (c - 55)
  else None.

Definition is_high_surrogate (u : N) : bool := (55296 <=? u) && (u <=? 56319).
Definition is_low_surrogate (u : N) : bool := (56320 <=? u) && (u <=? 57343).

(** [0x10000 + (((hi - 0xd800) << 10) | (lo - 0xdc00))] *)
Definition combine_surrogates (hi lo : N) : N :=
  65536 + N.lor (N.shiftl (hi - 55296) 10) (lo - 56320).

(** The one-character escapes after a backslash. *)
Definition simple_escape (c : N) : option N :=
  if c =? 34 then Some 34          (* quote *)
  else if c =? 92 then Some 92     (* backslash *)
  else if c =? 47 then Some 47     (* slash *)
  else if c =? 98 then Some 8      (* b *)
  else if c =? 102 then Some 12    (* f *)
  else if c =? 110 then Some 10    (* n *)
  else if c =? 114 then Some 13    (* r *)
  else if c =? 116 then Some 9     (* t *)
  else None.

(** Where the scan of a string literal stands. *)
Inductive sstate :=
| SChars                              (* between characters *)
| SAfterHex                           (* right after a complete backslash-u escape *)
| SEsc                                (* after a backslash *)
| SHex (ds : list N)                  (* after backslash-u, the digits read *)
| SHigh (hi : N)                      (* right after the escape of a high surrogate *)
| SHighEsc (hi : N)                   (* ... and a backslash *)
| SHighHex (hi : N) (ds : list N).    (* ... and backslash-u, the digits read *)

(** Where the scan of a number stands: after the sign, after a leading
    zero, in the integer digits, after the dot, in the fraction digits,
    after the exponent mark, after its sign, in the exponent digits. *)
Inductive nstate :=
| NMinus | NZero | NInt | NDot | NFrac | NE | NESign | NExp.

(** An open container: the items of an array read so far (last first), or
    the pairs of an object read so far (last first) and the key whose value
    is being read. *)
Inductive frame :=
| FArr (items : list pyval)
| FObj (pairs : list (str * pyval)) (key : str).

(** The literals that are spelled out in letters. *)
Inductive literal :=
| LNull | LTrue | LFalse | LNaN | LInfinity | LNegInfinity.

(** The letters of a literal after its first character (after the sign
    and the first letter for [-Infinity]). *)
Definition literal_tail (l : literal) : str :=
  match l with
  | LNull => py "ull"
  | LTrue => py "rue"
  | LFalse => py "alse"
  | LNaN => py "aN"
  | LInfinity | LNegInfinity => py "nfinity"
  end.

Definition literal_value (l : literal) : pyval :=
  match l with
  | LNull => PNone
  | LTrue => PBool true
  | LFalse => PBool false
  | LNaN => PFloat (py "NaN")
  | LInfinity => PFloat (py "Infinity")
  | LNegInfinity => PFloat (py "-Infinity")
  end.

(** The number of characters of a literal read when [k] letters of its
    tail have been. *)
Definition literal_read (l : literal) (k : nat) : nat :=
  match l with
  | LNegInfinity => k + 2
  | _ => k + 1
  end.

Inductive mode :=
| MValue                                    (* a value must follow *)
| MArrFirst                                 (* after an opening bracket *)
| MObjFirst                                 (* after an opening brace *)
| MObjKey                                   (* after a comma in an object *)
| MColon                                    (* after a key *)
| MStr (is_key : bool) (begin : nat) (acc : str) (st : sstate)
    (* in a string that opened at index [begin], characters last first *)
| MNum (lit : str) (st : nstate)            (* in a number, characters last first *)
| MLit (l : literal) (k : nat)              (* in a literal, [k] letters of its tail read *)
| MAfter                                    (* after a value in a container *)
| MDone (v : pyval)                         (* after the top-level value *)
| MErr (msg : string) (pos : nat).          (* rejected, at the index [pos] *)

Definition state : Type := mode * list frame.

(** The integer a literal [-?digits] denotes. *)
Definition int_of_literal (lit : str) : Z :=
  let digits (ds : str) : Z :=
    fold_left (fun acc c => (10 * acc + Z.of_N (c - 48))%Z) ds 0%Z in
  match lit with
  | 45 :: ds => (- digits ds)%Z
  | ds => digits ds
  end.

(** The value of a number whose scan ended in [st], if the literal is
    complete there. *)
Definition number_value (lit : str) (st : nstate) : option pyval :=
  match st with
  | NZero | NInt => Some (PInt (int_of_literal (rev lit)))
  | NFrac | NExp => Some (PFloat (rev lit))
  | NMinus | NDot | NE | NESign => None
  end.

(** A finished value goes to the innermost open container. *)
Definition deliver (v : pyval) (stack : list frame) : state :=
  match stack with
  | [] => (MDone v, [])
  | FArr items :: stack' => (MAfter, FArr (v :: items) :: stack')
  | FObj pairs key :: stack' => (MAfter, FObj ((key, v) :: pairs) key :: stack')
  end.

(** A finished string is a value, or the key of the innermost object. *)
Definition deliver_string (is_key : bool) (s : str) (i : nat) (stack : list frame) : state :=
  if is_key then
    match stack with
    | FObj pairs _ :: stack' => (MColon, FObj pairs s :: stack')
    | _ => (MErr "Expecting property name enclosed in double quotes" i, stack)
    end
  else deliver (PStr s) stack.

(** The first character of a value, at index [i]. *)
Definition step_value (i : nat) (c : N) (stack : list frame) : state :=
  if c =? 34 then (MStr false i [] SChars, stack)
  else if c =? 123 then (MObjFirst, FObj [] [] :: stack)
  else if c =? 91 then (MArrFirst, FArr [] :: stack)
  else if c =? 110 then (MLit LNull 0, stack)
  else if c =? 116 then (MLit LTrue 0, stack)
  else if c =? 102 then (MLit LFalse 0, stack)
  else if c =? 78 then (MLit LNaN 0, stack)
  else if c =? 73 then (MLit LInfinity 0, stack)
  else if c =? 45 then (MNum [45] NMinus, stack)
  else if c =? 48 then (MNum [48] NZero, stack)
  else if is_digit c then (MNum [c] NInt, stack)
  else (MErr "Expecting value" i, stack).

(** What is missing when a value is followed by something else. *)
Definition after_error (i : nat) (stack : list frame) : state :=
  match stack with
  | [] => (MErr "Extra data" i, stack)
  | _ :: _ => (MErr "Expecting ',' delimiter" i, stack)
  end.

(** A character after a value, at index [i]. *)
Definition step_after (i : nat) (c : N) (stack : list frame) : state :=
  match stack with
  | [] => after_error i stack
  | FArr items :: stack' =>
      if c =? 44 then (MValue, stack)
      else if c =? 93 then deliver (PList (rev items)) stack'
      else after_error i stack
  | FObj pairs _ :: stack' =>
      if c =? 44 then (MObjKey, stack)
      else if c =? 125 then deliver (PDict (Dict.of_pairs (rev pairs))) stack'
      else after_error i stack
  end.

(** A character after a complete value, blanks skipped. *)
Definition step_tail (st : state) (i : nat) (c : N) : state :=
  if is_ws c then st
  else match st with
       | (MDone _, _) => (MErr "Extra data" i, st.2)
       | (_, stack) => step_after i c stack
       end.

(** A complete [\uXXXX] escape: a high surrogate waits for its partner. *)
Definition emit_escape (is_key : bool) (begin : nat) (acc : str) (u : N)
    (stack : list frame) : state :=
  if is_high_surrogate u then (MStr is_key begin acc (SHigh u), stack)
  else (MStr is_key begin (u :: acc) SAfterHex, stack).

(** The value of four hexadecimal digits. *)
Definition hex4 (ds : list N) : N :=
  fold_left (fun acc d => 16 * acc + d) ds 0.

(** A character between the characters of a string. *)
Definition step_chars (is_key : bool) (begin : nat) (acc : str) (i : nat) (c : N)
    (stack : list frame) : state :=
  if c =? 34 then deliver_string is_key (rev acc) i stack
  else if c =? 92 then (MStr is_key begin acc SEsc, stack)
  else if c <? 32 then (MErr "Invalid control character at" i, stack)
  else (MStr is_key begin (c :: acc) SChars, stack).

(** A character after the backslash at index [i - 1]. *)
Definition step_esc (is_key : bool) (begin : nat) (acc : str) (i : nat) (c : N)
    (stack : list frame) : state :=
  if c =? 117 then (MStr is_key begin acc (SHex []), stack)
  else match simple_escape c with
       | Some u => (MStr is_key begin (u :: acc) SChars, stack)
       | None => (MErr "Invalid \escape" (i - 1), stack)
       end.

(** A character inside a string literal. A bad [\u] escape is reported at
    its letter [u]. *)
Definition step_string (is_key : bool) (begin : nat) (acc : str) (st : sstate)
    (i : nat) (c : N) (stack : list frame) : state :=
  match st with
  | SChars | SAfterHex => step_chars is_key begin acc i c stack
  | SEsc => step_esc is_key begin acc i c stack
  | SHex ds =>
      match hex_value c with
      | None => (MErr "Invalid \uXXXX escape" (i - 1 - length ds), stack)
      | Some d =>
          if decide (length ds = 3%nat)
          then emit_escape is_key begin acc (hex4 (ds ++ [d])) stack
          else (MStr is_key begin acc (SHex (ds ++ [d])), stack)
      end
  | SHigh hi =>
      if c =? 92 then (MStr is_key begin acc (SHighEsc hi), stack)
      else step_chars is_key begin (hi :: acc) i c stack
  | SHighEsc hi =>
      if c =? 117 then (MStr is_key begin acc (SHighHex hi []), stack)
      else step_esc is_key begin (hi :: acc) i c stack
  | SHighHex hi ds =>
      match hex_value c with
      | None => (MErr "Invalid \uXXXX escape" (i - 1 - length ds), stack)
      | Some d =>
          if decide (length ds = 3%nat)
          then let lo := hex4 (ds ++ [d]) in
               if is_low_surrogate lo
               then (MStr is_key begin (combine_surrogates hi lo :: acc) SAfterHex,
                     stack)
               else emit_escape is_key begin (hi :: acc) lo stack
          else (MStr is_key begin acc (SHighHex hi (ds ++ [d])), stack)
      end
  end.

(** A number that stops after a sign is no value; one that stops after a
    dot, an exponent mark or the sign of an exponent is the number before
    that mark, and the mark is what follows the value. [i] is the index
    after the characters read. *)
Definition broken_number (lit : str) (st : nstate) (i : nat) (stack : list frame) : state :=
  match st with
  | NMinus => (MErr "Expecting value" (i - length lit), stack)
  | NESign => after_error (i - 2) stack
  | _ => after_error (i - 1) stack
  end.

(** A number ends before the character [c] at index [i]: its value is
    delivered and [c] is read as the character after a value. *)
Definition end_number (lit : str) (st : nstate) (i : nat) (c : N)
    (stack : list frame) : state :=
  match number_value lit st with
  | Some v => step_tail (deliver v stack) i c
  | None => broken_number lit st i stack
  end.

(** A character inside a number. *)
Definition step_number (lit : str) (st : nstate) (i : nat) (c : N)
    (stack : list frame) : state :=
  let continue st' := (MNum (c :: lit) st', stack) in
  let is_e := (c =? 101) || (c =? 69) in
  match st with
  | NMinus =>
      if c =? 48 then continue NZero
      else if is_digit c then continue NInt
      else if c =? 73 then (MLit LNegInfinity 0, stack)
      else end_number lit st i c stack
  | NZero =>
      if c =? 46 then continue NDot
      else if is_e then continue NE
      else end_number lit st i c stack
  | NInt =>
      if is_digit c then continue NInt
      else if c =? 46 then continue NDot
      else if is_e then continue NE
      else end_number lit st i c stack
  | NDot =>
      if is_digit c then continue NFrac else end_number lit st i c stack
  | NFrac =>
      if is_digit c then continue NFrac
      else if is_e then continue NE
      else end_number lit st i c stack
  | NE =>
      if is_digit c then continue NExp
      else if (c =? 43) || (c =? 45) then continue NESign
      else end_number lit st i c stack
  | NESign =>
      if is_digit c then continue NExp else end_number lit st i c stack
  | NExp =>
      if is_digit c then continue NExp else end_number lit st i c stack
  end.

(** The character [c] at index [i] of the text. *)
Definition step (st : state) (i : nat) (c : N) : state :=
  let (m, stack) := st in
  match m with
  | MErr _ _ => st
  | MValue => if is_ws c then st else step_value i c stack
  | MArrFirst =>
      if is_ws c then st
      else if c =? 93 then
        match stack with
        | FArr _ :: stack' => deliver (PList []) stack'
        | _ => (MErr "Expecting value" i, stack)
        end
      else step_value i c stack
  | MObjFirst =>
      if is_ws c then st
      else if c =? 34 then (MStr true i [] SChars, stack)
      else if c =? 125 then
        match stack with
        | FObj _ _ :: stack' => deliver (PDict []) stack'
        | _ => (MErr "Expecting value" i, stack)
        end
      else (MErr "Expecting property name enclosed in double quotes" i, stack)
  | MObjKey =>
      if is_ws c then st
      else if c =? 34 then (MStr true i [] SChars, stack)
      else (MErr "Expecting property name enclosed in double quotes" i, stack)
  | MColon =>
      if is_ws c then st
      else if c =? 58 then (MValue, stack)
      else (MErr "Expecting ':' delimiter" i, stack)
  | MStr is_key begin acc sst => step_string is_key begin acc sst i c stack
  | MNum lit nst => step_number lit nst i c stack
  | MLit l k =>
      match literal_tail l !! k with
      | Some r =>
          if c =? r then
            if decide (S k = length (literal_tail l))
            then deliver (literal_value l) stack
            else (MLit l (S k), stack)
          else (MErr "Expecting value" (i - literal_read l k), stack)
      | None => (MErr "Expecting value" (i - literal_read l k), stack)
      end
  | MAfter | MDone _ => step_tail st i c
  end.

(** What the machine has made of a whole text. *)
Inductive outcome :=
| Value (v : pyval)
| Rejected (msg : string) (pos : nat).

(** The end of a text of [n] characters. *)
Definition finish (st : state) (n : nat) : outcome :=
  match st with
  | (MDone v, _) => Value v
  | (MErr msg pos, _) => Rejected msg pos
  | (MNum lit nst, stack) =>
      match number_value lit nst, stack with
      | Some v, [] => Value v
      | Some _, _ :: _ => Rejected "Expecting ',' delimiter" n
      | None, _ =>
          match (broken_number lit nst n stack).1 with
          | MErr msg pos => Rejected msg pos
          | _ => Rejected "Expecting value" n
          end
      end
  | (MStr _ _ _ (SHex ds), _) | (MStr _ _ _ (SHighHex _ ds), _) =>
      Rejected "Invalid \uXXXX escape" (n - 1 - length ds)
  | (MStr _ _ _ SAfterHex, _) | (MStr _ _ _ (SHigh _), _) =>
      Rejected "Invalid \uXXXX escape" (n - 5)
  | (MStr _ begin _ _, _) => Rejected "Unterminated string starting at" begin
  | (MAfter, _) => Rejected "Expecting ',' delimiter" n
  | (MColon, _) => Rejected "Expecting ':' delimiter" n
  | (MObjFirst, _) | (MObjKey, _) =>
      Rejected "Expecting property name enclosed in double quotes" n
  | (MValue, _) | (MArrFirst, _) => Rejected "Expecting value" n
  | (MLit l k, _) => Rejected "Expecting value" (n - literal_read l k)
  end.



Definition start : state := (MValue, []).

(** The machine run from a state over the text that starts at index [i]. *)
Fixpoint run (st : state) (i : nat) (s : str) : state :=
  match s with
  | [] => st
  | c :: s' => run (step st i c) (S i) s'
  end.

(** [str(e)] for the [JSONDecodeError] with the message [msg] at the
    index [pos] of [doc]: the line is one more than the line feeds before
    [pos], the column counts from the last of them. *)
Definition error_text (msg : string) (doc : str) (pos : nat) : str :=
  let before := take pos doc in
  let lineno := S (length (filter (fun c => c = 10) before)) in
  let colno := S (fold_left (fun col c => if c =? 10 then O else S col) before O) in
  py msg ++ py ": line " ++ py (pretty lineno) ++ py " column " ++ py (pretty colno)
  ++ py " (char " ++ py (pretty pos) ++ py ")".

(** The outcome of [json.loads]: the value, or the text of the
    [JSONDecodeError]. *)
Inductive decoded :=
| Parsed (v : pyval)
| DecodeError (text : str).

(** [json.loads(s)] for a [str]. *)
Definition loads (s : str) : decoded :=
  if Str.startswith [65279] s
  then DecodeError (error_text "Unexpected UTF-8 BOM (decode using utf-8-sig)" s 0)
  else match finish (run start 0 s) (length s) with
       | Value v => Parsed v
       | Rejected msg pos => DecodeError (error_text msg s pos)
       end.

End Json.

(** ** The world of the server *)

(** What a path of the disk holds. *)
Inductive node :=
| File (contents : list Byte.byte)
| Directory.

(** A document of the store: field names to values. *)
Abbreviation document := (gmap string pyval).

(** What Python raises: the [HTTPException] of FastAPI, the
    [json.JSONDecodeError], and every other exception by the name of its
    class and its text [str(e)]. *)
Inductive exn :=
| HTTPException (status_code : Z) (detail : str)
| JSONDecodeError (msg : str)
| Exception (class : string) (text : str).

(** [str(e)] *)
Definition exn_text (e : exn) : str :=
  match e with
  | HTTPException c d => Str.of_Z c ++ py ": " ++ d
  | JSONDecodeError m => m
  | Exception _ t => t
  end.

(** The arguments of one [analyze_churn_data] task handed to
    [asyncio.create_task]. *)
Record task := Task {
  task_analysis_id : str;
  task_file_path : str;
  task_filename : str
}.

(** What [chat.send_message] is given: the key and session of the
    [LlmChat], the model chosen by [with_model], the text of the
    [UserMessage] and its one attachment. The fixed system prompt of the
    source is the same in every request and is not a field. *)
Record ChatRequest := {
  api_key : str;
  session_id : str;
  provider : str;
  model_name : str;
  text : str;
  attachment_path : str;
  attachment_mime_type : str
}.

(** A task suspended at [await chat.send_message(user_message)]: its
    arguments, the row count it has computed and the request in flight. *)
Record suspended := Suspended {
  susp_task : task;
  susp_total_customers : N;
  susp_request : ChatRequest
}.

(** Everything the server reads or writes: the disk, the collection
    [db.churn_analyses] in insertion order, [os.environ], the clock read by
    [datetime.now()], the counter behind the [ObjectId]s of the store, the
    tasks created and not yet started, and the tasks waiting for the
    language model. *)
Record World := mkWorld {
  fs : gmap str node;
  churn_analyses : list document;
  environ : gmap string str;
  clock : Z;
  next_oid : N;
  scheduled : list task;
  awaiting : list suspended
}.

Definition set_fs (f : gmap str node → gmap str node) (w : World) : World :=
  mkWorld (f (fs w)) (churn_analyses w) (environ w) (clock w) (next_oid w)
          (scheduled w) (awaiting w).

Definition set_churn_analyses (f : list document → list document) (w : World) : World :=
  mkWorld (fs w) (f (churn_analyses w)) (environ w) (clock w) (next_oid w)
          (scheduled w) (awaiting w).

Definition set_next_oid (n : N) (w : World) : World :=
  mkWorld (fs w) (churn_analyses w) (environ w) (clock w) n
          (scheduled w) (awaiting w).

Definition set_scheduled (f : list task → list task) (w : World) : World :=
  mkWorld (fs w) (churn_analyses w) (environ w) (clock w) (next_oid w)
          (f (scheduled w)) (awaiting w).

Definition set_awaiting (f : list suspended → list suspended) (w : World) : World :=
  mkWorld (fs w) (churn_analyses w) (environ w) (clock w) (next_oid w)
          (scheduled w) (f (awaiting w)).

Definition set_clock (t : Z) (w : World) : World :=
  mkWorld (fs w) (churn_analyses w) (environ w) t (next_oid w)
          (scheduled w) (awaiting w).

(** ** Computations: state and exceptions *)

Inductive result (A : Type) :=
| Ok (a : A)
| Raise (e : exn).
Arguments Ok {A} a.
Arguments Raise {A} e.

(** A computation of the server: from a world to a value or a raised
    exception, and the world it leaves. *)
Definition M (A : Type) : Type := World → result A * World.

Definition ret {A} (a : A) : M A := fun w => (Ok a, w).

Definition raise {A} (e : exn) : M A := fun w => (Raise e, w).

Definition bind {A B} (m : M A) (k : A → M B) : M B :=
  fun w =>
    match m w with
    | (Ok a, w') => k a w'
    | (Raise e, w') => (Raise e, w')
    end.

Notation "'let*' x ':=' m 'in' k" := (bind m (fun x => k))
  (at level 10, x pattern, m at level 100, k at level 200).

(** [try: body except ...: handler]: [handler e] is [None] when no
    [except] clause matches [e]. *)
Definition try_except {A} (body : M A) (handler : exn → option (M A)) : M A :=
  fun w =>
    match body w with
    | (Ok a, w') => (Ok a, w')
    | (Raise e, w') =>
        match handler e with
        | Some h => h w'
        | None => (Raise e, w')
        end
    end.

(** [except Exception as e]: every exception above is one. *)
Definition except_Exception {A} (h : exn → M A) : exn → option (M A) :=
  fun e => Some (h e).

(** [except json.JSONDecodeError as e] *)
Definition except_JSONDecodeError {A} (h : exn → M A) : exn → option (M A) :=
  fun e =>
    match e with
    | JSONDecodeError _ => Some (h e)
    | _ => None
    end.

(** A function that returns or raises, as a computation. *)
Definition lift {A} (r : exn + A) : M A :=
  match r with
  | inl e => raise e
  | inr a => ret a
  end.

(** ** The clock and the environment *)

(** [datetime.now()] *)
Definition datetime_now : M Z := fun w => (Ok (clock w), w).

(** [os.environ.get(name)] *)
Definition os_environ_get (name : string) : M (option str) :=
  fun w => (Ok (environ w !! name), w).

(** The truth value of what [os.environ.get] returns: [None] and the empty
    text are false. *)
Definition truthy (v : option str) : bool :=
  match v with
  | None | Some [] => false
  | Some (_ :: _) => true
  end.

(** ** The disk *)

(** The directory of a path: what stands before its last slash (nothing
    for a name without a directory, and for an entry of the root). *)
Fixpoint dirname (path : str) : str :=
  match path with
  | [] => []
  | c :: path' => if bool_decide (47 ∈ path') then c :: dirname path' else []
  end.

(** [with open(path, "wb") as f: f.write(contents)]: the directory of the
    path must be there, and the path must not be a directory itself. *)
Definition open_write (path : str) (contents : list Byte.byte) : M unit :=
  fun w =>
    let written := (Ok tt, set_fs (fun f => <[path := File contents]> f) w) in
    let refused (class : string) (reason : string) :=
      (Raise (Exception class (py reason ++ py ": '" ++ path ++ py "'")), w) in
    match dirname path, fs w !! dirname path with
    | _ :: _, None => refused "FileNotFoundError" "[Errno 2] No such file or directory"
    | _ :: _, Some (File _) => refused "NotADirectoryError" "[Errno 20] Not a directory"
    | _, _ =>
        match fs w !! path with
        | Some Directory => refused "IsADirectoryError" "[Errno 21] Is a directory"
        | _ => written
        end
    end.

(** [os.path.exists(path)] *)
Definition os_path_exists (path : str) : M bool :=
  fun w => (Ok (bool_decide (is_Some (fs w !! path))), w).

(** [os.remove(path)] *)
Definition os_remove (path : str) : M unit :=
  fun w =>
    match fs w !! path with
    | Some (File _) => (Ok tt, set_fs (fun f => delete path f) w)
    | Some Directory =>
        (Raise (Exception "IsADirectoryError"
                  (py "[Errno 21] Is a directory: '" ++ path ++ py "'")), w)
    | None =>
        (Raise (Exception "FileNotFoundError"
                  (py "[Errno 2] No such file or directory: '" ++ path ++ py "'")), w)
    end.

(** [UPLOAD_DIR = Path("/app/uploads")] *)
Definition UPLOAD_DIR : str := py "/app/uploads".

(** The components [pathlib] keeps of a name: the empty ones and the dots
    are dropped. *)
Definition path_parts (name : str) : list str :=
  filter (fun p => p ≠ [] ∧ p ≠ [46]) (Str.split 47 name).

(** [str(base / name)]: a relative name is appended component by
    component, an absolute one replaces the base (with the root of two
    slashes POSIX keeps apart when the name starts with exactly two). *)
Definition path_join (base name : str) : str :=
  if Str.startswith [47] name
  then
    let root :=
      if Str.startswith [47; 47] name && negb (Str.startswith [47; 47; 47] name)
      then [47; 47] else [47] in
    root ++ Str.join [47] (path_parts name)
  else base ++ flat_map (fun p => 47 :: p) (path_parts name).

(** ** The document store *)

(** The filter [{"analysis_id": analysis_id}] on a document. The field is
    a text in every document the server writes. *)
Definition matches (analysis_id : str) (d : document) : bool :=
  match d !! "analysis_id" with
  | Some (PStr s) => bool_decide (s = analysis_id)
  | _ => false
  end.

(** [db.churn_analyses.insert_one(doc)]: the store gives the document an
    [_id] when it has none. *)
Definition insert_one (doc : document) : M unit :=
  fun w =>
    match doc !! "_id" with
    | Some _ => (Ok tt, set_churn_analyses (fun c => c ++ [doc]) w)
    | None =>
        (Ok tt,
         set_next_oid (next_oid w + 1)
           (set_churn_analyses
              (fun c => c ++ [<["_id" := PObjectId (next_oid w)]> doc]) w))
    end.

(** The first document the filter matches. *)
Definition first_match (analysis_id : str) (c : list document) : option document :=
  head (filter (fun d => matches analysis_id d = true) c).

(** [db.churn_analyses.find_one({"analysis_id": analysis_id})] *)
Definition find_one (analysis_id : str) : M (option document) :=
  fun w => (Ok (first_match analysis_id (churn_analyses w)), w).

(** The first matching document rewritten by [f]. *)
Fixpoint update_first (analysis_id : str) (f : document → document)
    (c : list document) : list document :=
  match c with
  | [] => []
  | d :: c' =>
      if matches analysis_id d then f d :: c'
      else d :: update_first analysis_id f c'
  end.

(** [db.churn_analyses.update_one({"analysis_id": analysis_id},
    {"$set": fields})]: the fields given replace or extend those of the
    first matching document; without a match nothing changes. *)
Definition update_one (analysis_id : str) (fields : document) : M unit :=
  fun w =>
    (Ok tt, set_churn_analyses (update_first analysis_id (fun d => fields ∪ d)) w).

(** The collection without its first matching document. *)
Fixpoint delete_first (analysis_id : str) (c : list document) : list document :=
  match c with
  | [] => []
  | d :: c' =>
      if matches analysis_id d then c' else d :: delete_first analysis_id c'
  end.

(** [db.churn_analyses.delete_one({"analysis_id": analysis_id})] *)
Definition delete_one (analysis_id : str) : M unit :=
  fun w => (Ok tt, set_churn_analyses (delete_first analysis_id) w).

(** The sort key of a document: its [created_at]. A document without a
    date there sorts as the store sorts a missing field, below every date. *)
Definition created_at (d : document) : option Z :=
  match d !! "created_at" with
  | Some (PDatetime t) => Some t
  | _ => None
  end.

(** The order of sort keys: nothing, then the dates in time order. *)
Definition key_le (a b : option Z) : Prop :=
  match a, b with
  | None, _ => True
  | Some _, None => False
  | Some x, Some y => (x ≤ y)%Z
  end.

(** [d1] may come before [d2] in a listing by [created_at] descending. *)
Definition newest_first (d1 d2 : document) : Prop :=
  key_le (created_at d2) (created_at d1).

#[global] Instance key_le_dec a b : Decision (key_le a b).
Proof. destruct a, b; simpl; apply _. Defined.

#[global] Instance newest_first_dec d1 d2 : Decision (newest_first d1 d2).
Proof. unfold newest_first. apply _. Defined.

(** [list(db.churn_analyses.find().sort("created_at", -1).limit(n))];
    records of the same date come in the order the merge sort leaves them
    in (the store promises none). *)
Definition find_sort_limit (n : nat) : M (list document) :=
  fun w => (Ok (take n (merge_sort newest_first (churn_analyses w))), w).

(** [if "_id" in analysis: del analysis["_id"]] *)
Definition strip_id (d : document) : document :=
  if bool_decide (is_Some (d !! "_id")) then delete "_id" d else d.

(** [asyncio.create_task(analyze_churn_data(analysis_id, file_path,
    filename))]: the task is queued, the caller goes on. *)
Definition create_task (t : task) : M unit :=
  fun w => (Ok tt, set_scheduled (fun q => q ++ [t]) w).

(** ** The server *)

(** The upload FastAPI hands to the end point. *)
Record UploadFile := {
  filename : str;
  file_contents : list Byte.byte
}.

(** [analysis_result.get(key, default)]: only a [dict] has the method. *)
Definition py_get (obj : pyval) (key : str) (otherwise : pyval) : M pyval :=
  let no_get (type_name : string) : M pyval :=
    raise (Exception "AttributeError"
             (py "'" ++ py type_name ++ py "' object has no attribute 'get'")) in
  match obj with
  | PDict pairs => ret (default otherwise (Dict.lookup key pairs))
  | PNone => no_get "NoneType"
  | PBool _ => no_get "bool"
  | PInt _ => no_get "int"
  | PFloat _ => no_get "float"
  | PStr _ => no_get "str"
  | PList _ => no_get "list"
  | PDatetime _ => no_get "datetime.datetime"
  | PObjectId _ => no_get "ObjectId"
  end.

(** [json.loads(text)] as a computation. *)
Definition json_loads (text : str) : M pyval :=
  match Json.loads text with
  | Json.Parsed v => ret v
  | Json.DecodeError text => raise (JSONDecodeError text)
  end.

(** Lines 190-194 of [analyze_churn_data]: the text handed to
    [json.loads]. *)
Definition extract_json (response : str) : str :=
  let response_text := Str.strip response in
  if Str.startswith (py "```json") response_text then
    Str.strip (Str.replace (py "```") []
                 (Str.replace (py "```json") [] response_text))
  else if Str.startswith (py "```") response_text then
    Str.strip (Str.replace (py "```") [] response_text)
  else response_text.

Section Server.

(** The two collaborators outside the repository. [pd_read_csv] is
    [len(pd.read_csv(path))] as a function of what the path holds: the
    number of rows, or the exception pandas raises. [send_message] is the
    answer of the language model to a request: its text, or the exception
    the client library raises. *)
Variable pd_read_csv : option node → exn + N.
Variable send_message : World → ChatRequest → exn + str.

(** [len(pd.read_csv(file_path))] *)
Definition read_csv_len (file_path : str) : M N :=
  fun w => lift (pd_read_csv (fs w !! file_path)) w.

(** [await chat.send_message(user_message)] *)
Definition chat_send_message (request : ChatRequest) : M str :=
  fun w => lift (send_message w request) w.

(** [upload_csv(file)], with the identifier [uuid.uuid4()] draws. *)
Definition upload_csv (uuid4 : str) (file : UploadFile) : M document :=
  if negb (Str.endswith (py ".csv") (filename file))
  then raise (HTTPException 400 (py "Only CSV files are allowed"))
  else
    try_except
      (let analysis_id := uuid4 in
       let file_path :=
         path_join UPLOAD_DIR (analysis_id ++ py "_" ++ filename file) in
       let contents := file_contents file in
       let* _ := open_write file_path contents in
       let* now := datetime_now in
       let analysis_record : document :=
         list_to_map
           [("analysis_id", PStr analysis_id);
            ("filename", PStr (filename file));
            ("file_path", PStr file_path);
            ("status", PStr (py "processing"));
            ("created_at", PDatetime now);
            ("total_customers", PNone);
            ("high_risk_customers", PNone);
            ("predictions", PNone);
            ("insights", PNone);
            ("recommendations", PNone)] in
       let* _ := insert_one analysis_record in
       let* _ := create_task (Task analysis_id file_path (filename file)) in
       ret (list_to_map
              [("analysis_id", PStr analysis_id);
               ("message", PStr (py "File uploaded successfully. Analysis started."));
               ("status", PStr (py "processing"))]))
      (except_Exception (fun e =>
         raise (HTTPException 500 (py "File upload failed: " ++ exn_text e)))).

(** The request of lines 134-182: the chat of the session of this
    analysis, and the message with the row count and the file. *)
Definition chat_request (gemini_api_key analysis_id : str) (total_customers : N)
    (file_path : str) : ChatRequest :=
  {| api_key := gemini_api_key;
     session_id := py "churn_analysis_" ++ analysis_id;
     provider := py "gemini";
     model_name := py "gemini-2.0-flash";
     text :=
       Str.join [10]
         [py "Please analyze this customer data CSV file for churn prediction. ";
          py "            The file contains " ++ Str.of_N total_customers
            ++ py " customer records. ";
          py "            ";
          py "            Provide comprehensive churn analysis including individual customer risk assessments, ";
          py "            key churn indicators, and strategic recommendations for customer retention.";
          py "            ";
          py "            Return the response in valid JSON format as specified in your system message."];
     attachment_path := file_path;
     attachment_mime_type := py "text/csv" |}.

(** Lines 126-182 of [analyze_churn_data]: the row count, the key, and
    the request for the model. *)
Definition analyze_prepare (analysis_id file_path : str) : M (N * ChatRequest) :=
  let* total_customers := read_csv_len file_path in
  let* gemini_api_key := os_environ_get "GEMINI_API_KEY" in
  if negb (truthy gemini_api_key)
  then raise (Exception "Exception"
                (py "GEMINI_API_KEY not found in environment variables"))
  else
    ret (total_customers,
         chat_request (default [] gemini_api_key) analysis_id total_customers
           file_path).

(** Lines 187-225: the answer of the model is parsed and the record
    updated. *)
Definition analyze_response (analysis_id : str) (total_customers : N)
    (response : str) : M unit :=
  try_except
    (let response_text := extract_json response in
     let* analysis_result := json_loads response_text in
     let* now := datetime_now in
     let* r_total :=
       py_get analysis_result (py "total_customers") (PInt (Z.of_N total_customers)) in
     let* r_high := py_get analysis_result (py "high_risk_customers") (PInt 0) in
     let* r_predictions := py_get analysis_result (py "predictions") (PList []) in
     let* r_insights := py_get analysis_result (py "insights") (PStr []) in
     let* r_recommendations :=
       py_get analysis_result (py "recommendations") (PStr []) in
     let update_data : document :=
       list_to_map
         [("status", PStr (py "completed"));
          ("completed_at", PDatetime now);
          ("total_customers", r_total);
          ("high_risk_customers", r_high);
          ("predictions", r_predictions);
          ("insights", r_insights);
          ("recommendations", r_recommendations)] in
     update_one analysis_id update_data)
    (except_JSONDecodeError (fun e =>
       let* now := datetime_now in
       update_one analysis_id
         (list_to_map
            [("status", PStr (py "completed_with_errors"));
             ("error", PStr (py "JSON parsing error: " ++ exn_text e));
             ("raw_response", PStr response);
             ("total_customers", PInt (Z.of_N total_customers));
             ("completed_at", PDatetime now)]))).

(** Lines 227-236: the handler of the outer [try]. *)
Definition analyze_failed (analysis_id : str) : exn → option (M unit) :=
  except_Exception (fun e =>
    let* now := datetime_now in
    update_one analysis_id
      (list_to_map
         [("status", PStr (py "failed"));
          ("error", PStr (exn_text e));
          ("completed_at", PDatetime now)])).

(** [analyze_churn_data(analysis_id, file_path, filename)], run without
    another task in between. *)
Definition analyze_churn_data (analysis_id file_path filename : str) : M unit :=
  try_except
    (let* prepared := analyze_prepare analysis_id file_path in
     let total_customers := prepared.1 in
     let request := prepared.2 in
     let* response := chat_send_message request in
     analyze_response analysis_id total_customers response)
    (analyze_failed analysis_id).

(** [get_analysis_status(analysis_id)]; [not analysis] holds of [None]
    and of an empty [dict]. *)
Definition get_analysis_status (analysis_id : str) : M document :=
  let* analysis := find_one analysis_id in
  match analysis with
  | None => raise (HTTPException 404 (py "Analysis not found"))
  | Some analysis =>
      if bool_decide (size analysis = 0%nat)
      then raise (HTTPException 404 (py "Analysis not found"))
      else ret (strip_id analysis)
  end.

(** [get_all_analyses()]: the list under the key [analyses]. *)
Definition get_all_analyses : M (list document) :=
  let* analyses := find_sort_limit 20 in
  ret (strip_id <$> analyses).

(** [delete_analysis(analysis_id)]: the message of the answer. *)
Definition delete_analysis (analysis_id : str) : M str :=
  let* analysis := find_one analysis_id in
  match analysis with
  | None => raise (HTTPException 404 (py "Analysis not found"))
  | Some analysis =>
      if bool_decide (size analysis = 0%nat)
      then raise (HTTPException 404 (py "Analysis not found"))
      else
        try_except
          (let* _ :=
             match analysis !! "file_path" with
             | Some (PStr file_path) =>
                 let* there := os_path_exists file_path in
                 if there then os_remove file_path else ret tt
             | Some _ =>
                 (* a value that is no path (the server always stores a
                    text here): the [TypeError] of [os.stat] *)
                 raise (Exception "TypeError"
                          (py "stat: path should be string, bytes, os.PathLike or integer"))
             | None => ret tt
             end in
           let* _ := delete_one analysis_id in
           ret (py "Analysis deleted successfully"))
          (except_Exception (fun e =>
             raise (HTTPException 500
                      (py "Failed to delete analysis: " ++ exn_text e))))
  end.

(** ** The tasks of the event loop

    [analyze_churn_data] gives up control once, at the [await]. A task is
    started, runs to the [await] (or to its end, when it fails before), and
    is resumed later with the answer of the model; end points and other
    tasks may run in between. *)

(** The task is parked at [await chat.send_message(user_message)]. *)
Definition suspend (s : suspended) : M unit :=
  fun w => (Ok tt, set_awaiting (fun q => q ++ [s]) w).

(** A task from its start to the [await]. *)
Definition task_start (t : task) : M unit :=
  try_except
    (let* prepared := analyze_prepare (task_analysis_id t) (task_file_path t) in
     suspend (Suspended t prepared.1 prepared.2))
    (analyze_failed (task_analysis_id t)).

(** A task from the [await] to its end, given what [send_message] did. *)
Definition task_resume (s : suspended) (answer : exn + str) : M unit :=
  try_except
    (let* response := lift answer in
     analyze_response (task_analysis_id (susp_task s))
       (susp_total_customers s) response)
    (analyze_failed (task_analysis_id (susp_task s))).

(** One move of the running server: a request served, a task started or
    resumed with any answer of the model, or time passing. *)
Inductive step : World → World → Prop :=
| step_upload w uuid4 file :
    step w (upload_csv uuid4 file w).2
| step_status w analysis_id :
    step w (get_analysis_status analysis_id w).2
| step_list w :
    step w (get_all_analyses w).2
| step_delete w analysis_id :
    step w (delete_analysis analysis_id w).2
| step_start w q1 t q2 :
    scheduled w = q1 ++ t :: q2 →
    step w (task_start t (set_scheduled (fun _ => q1 ++ q2) w)).2
| step_answer w q1 s q2 answer :
    awaiting w = q1 ++ s :: q2 →
    step w (task_resume s answer (set_awaiting (fun _ => q1 ++ q2) w)).2
| step_tick w t :
    (clock w ≤ t)%Z →
    step w (set_clock t w).

(** The server starts on an empty collection with no task. *)
Definition initial (w : World) : Prop :=
  churn_analyses w = [] ∧ scheduled w = [] ∧ awaiting w = [].

Inductive reachable : World → Prop :=
| reachable_initial w : initial w → reachable w
| reachable_step w w' : reachable w → step w w' → reachable w'.

End Server.

(** ** The states of a job record *)

Definition has_status (name : string) (d : document) : Prop :=
  d !! "status" = Some (PStr (py name)).

(** The three states a record never leaves. *)
Definition terminal (d : document) : Prop :=
  has_status "completed" d ∨ has_status "completed_with_errors" d
  ∨ has_status "failed" d.

(** A record is still [processing], or is terminal and carries the date
    of its completion. *)
Definition completion_recorded (d : document) : Prop :=
  has_status "processing" d
  ∨ (terminal d ∧ ∃ t, d !! "completed_at" = Some (PDatetime t)).

(** A record as [upload_csv] files it: its [file_path] is the path of the
    upload, made of its identifier and the name of the file. *)
Definition filed (d : document) : Prop :=
  ∃ analysis_id name,
    d !! "analysis_id" = Some (PStr analysis_id)
    ∧ d !! "filename" = Some (PStr name)
    ∧ d !! "file_path"
      = Some (PStr (path_join UPLOAD_DIR (analysis_id ++ py "_" ++ name))).

(** The fields of a [$set] that ends a job at time [now]: a terminal
    status and the date of completion, and none of the fields that
    identify the record and its upload. *)
Definition terminal_fields (now : Z) (fields : document) : Prop :=
  terminal fields
  ∧ fields !! "completed_at" = Some (PDatetime now)
  ∧ fields !! "analysis_id" = None
  ∧ fields !! "filename" = None
  ∧ fields !! "file_path" = None.

(** What one move of the server can do to the collection at time [now]:
    nothing, file a new [processing] record, end the job of the first
    record with some identifier, or delete that record. *)
Inductive store_change (now : Z) (c : list document) : list document → Prop :=
| store_unchanged :
    store_change now c c
| store_inserted r :
    has_status "processing" r → filed r →
    store_change now c (c ++ [r])
| store_finished analysis_id fields :
    terminal_fields now fields →
    store_change now c (update_first analysis_id (λ d, fields ∪ d) c)
| store_removed analysis_id :
    store_change now c (delete_first analysis_id c).

(** A text between code fences, as Markdown writes it: the opening fence
    with its language tag, a line feed, the text, a line feed, the closing
    fence. *)
Definition fenced (tag t : str) : str :=
  py "```" ++ tag ++ [10] ++ t ++ [10] ++ py "```".

(** A double-quoted literal of JSON text. *)
Definition quoted (s : string) : str := [34] ++ py s ++ [34].

(** ** Sample data

    The upload of the repository's own test, and worlds around it. *)

Definition sample_file : UploadFile :=
  {| filename := py "test_customers.csv"; file_contents := [] |}.

Definition sample_id : str := py "1b9d6bcd-bbfd-4b2d-9b5d-ab8dfbbd4bed".

Definition sample_path : str :=
  py "/app/uploads/1b9d6bcd-bbfd-4b2d-9b5d-ab8dfbbd4bed_test_customers.csv".

(** A reader of tables that finds five rows in every file. *)
Definition five_rows (n : option node) : exn + N :=
  match n with
  | Some (File _) => inr 5
  | Some Directory =>
      inl (Exception "IsADirectoryError" (py "[Errno 21] Is a directory"))
  | None =>
      inl (Exception "FileNotFoundError" (py "[Errno 2] No such file or directory"))
  end.

(** A model that answers every request with the same text. *)
Definition answers (response : str) : World → ChatRequest → exn + str :=
  fun _ _ => inr response.

(** A fresh server without credentials for the model. *)
Definition fresh_world : World :=
  mkWorld {[ UPLOAD_DIR := Directory ]} [] ∅ 1000 0 [] [].

(** A fresh server with a key for the model in its environment. *)
Definition keyed_world : World :=
  mkWorld {[ UPLOAD_DIR := Directory ]} []
          {[ "GEMINI_API_KEY" := py "secret" ]} 1000 0 [] [].

(** The server after the sample upload. *)
Definition uploaded_world : World := (upload_csv sample_id sample_file keyed_world).2.

(** The record of the sample upload, as stored. *)
Definition sample_record : document :=
  list_to_map
    [("_id", PObjectId 0);
     ("analysis_id", PStr sample_id);
     ("filename", PStr (py "test_customers.csv"));
     ("file_path", PStr sample_path);
     ("status", PStr (py "processing"));
     ("created_at", PDatetime 1000);
     ("total_customers", PNone);
     ("high_risk_customers", PNone);
     ("predictions", PNone);
     ("insights", PNone);
     ("recommendations", PNone)].

(** The same server once the path of the upload has become a directory:
    [os.remove] raises on it. *)
Definition blocked_world : World :=
  set_fs (fun f => <[sample_path := Directory]> f) uploaded_world.

(** An upload that is no table. *)
Definition text_file : UploadFile :=
  {| filename := py "test.txt"; file_contents := [] |}.

(** An answer of the model: a JSON object with two of the five fields. *)
Definition sample_json : str :=
  py "{" ++ quoted "total_customers" ++ py ": 5, "
  ++ quoted "high_risk_customers" ++ py ": 2}".

(** A JSON object with a fence marker inside a string. *)
Definition fence_inside : str :=
  py "{" ++ quoted "insights" ++ py ": " ++ quoted "use ```sql``` blocks" ++ py "}".

(** The task of the sample upload. *)
Definition sample_task : task :=
  Task sample_id sample_path (py "test_customers.csv").

(** The server once that task has reached its [await]. *)
Definition started_world : World :=
  (task_start five_rows sample_task
     (set_scheduled (fun _ => [] ++ []) uploaded_world)).2.

(** The task as it waits. *)
Definition sample_suspended : suspended :=
  Suspended sample_task 5 (chat_request (py "secret") sample_id 5 sample_path).

(** The server once the model has answered with the fenced sample. *)
Definition finished_world : World :=
  (task_resume sample_suspended (inr (fenced (py "json") sample_json))
     (set_awaiting (fun _ => [] ++ []) started_world)).2.

(** The server without a key once the task of the sample upload has run. *)
Definition unkeyed_failed_world : World :=
  (analyze_churn_data five_rows (answers []) sample_id sample_path
     (py "test_customers.csv")
     (upload_csv sample_id sample_file fresh_world).2).2.

(** A field of the record stored under an identifier. *)
Definition stored_field (k : string) (analysis_id : str) (w : World) : option pyval :=
  d ← first_match analysis_id (churn_analyses w); d !! k.

(** A field of the record an end point returned. *)
Definition returned_field (k : string) (r : result document) : option pyval :=
  match r with
  | Ok d => d !! k
  | Raise _ => None
  end.

(** ** The rest of the server: start-up and the plain end points *)

(** [path.mkdir(exist_ok=True)] of [pathlib], without [parents]: the
    directory of the path must be there; a directory already at the path
    is accepted, a file is not. *)
Definition mkdir_exist_ok (path : str) : M unit :=
  fun w =>
    let refused (class : string) (reason : string) :=
      (Raise (Exception class (py reason ++ py ": '" ++ path ++ py "'")), w) in
    match dirname path, fs w !! dirname path with
    | _ :: _, None => refused "FileNotFoundError" "[Errno 2] No such file or directory"
    | _ :: _, Some (File _) => refused "NotADirectoryError" "[Errno 20] Not a directory"
    | _, _ =>
        match fs w !! path with
        | Some Directory => (Ok tt, w)
        | Some (File _) => refused "FileExistsError" "[Errno 17] File exists"
        | None => (Ok tt, set_fs (fun f => <[path := Directory]> f) w)
        end
    end.

(** Line 59, run when the module is loaded:
    [UPLOAD_DIR.mkdir(exist_ok=True)]. *)
Definition startup : M unit := mkdir_exist_ok UPLOAD_DIR.

(** [root()] *)
Definition root : M document :=
  ret (list_to_map
         [("message", PStr (py "Customer Churn Prediction API is running!"))]).

(** [db.churn_analyses.find_one()] without a filter: the first document
    of the collection. *)
Definition find_any : M (option document) :=
  fun w => (Ok (head (churn_analyses w)), w).

(** [health_check()] *)
Definition health_check : M document :=
  try_except
    (let* _ := find_any in
     let* now := datetime_now in
     ret (list_to_map
            [("status", PStr (py "healthy")); ("timestamp", PDatetime now)]))
    (except_Exception (fun e =>
       raise (HTTPException 500 (py "Health check failed: " ++ exn_text e)))).

(** [type(v).__name__] *)
Definition type_name (v : pyval) : string :=
  match v with
  | PNone => "NoneType"
  | PBool _ => "bool"
  | PInt _ => "int"
  | PFloat _ => "float"
  | PStr _ => "str"
  | PList _ => "list"
  | PDict _ => "dict"
  | PDatetime _ => "datetime.datetime"
  | PObjectId _ => "ObjectId"
  end.

(** The record [upload_csv] files in the world [w] for the identifier it
    drew, as the store keeps it. *)
Definition upload_record (uuid4 : str) (file : UploadFile) (w : World) : document :=
  list_to_map
    [("_id", PObjectId (next_oid w));
     ("analysis_id", PStr uuid4);
     ("filename", PStr (filename file));
     ("file_path", PStr (path_join UPLOAD_DIR (uuid4 ++ py "_" ++ filename file)));
     ("status", PStr (py "processing"));
     ("created_at", PDatetime (clock w));
     ("total_customers", PNone);
     ("high_risk_customers", PNone);
     ("predictions", PNone);
     ("insights", PNone);
     ("recommendations", PNone)].

(** A disk with [/app] and nothing else, before the server is loaded. *)
Definition bare_world : World :=
  mkWorld {[ py "/app" := Directory ]} [] ∅ 1000 0 [] [].

(** The server after the sample upload and its deletion. *)
Definition deleted_world : World := (delete_analysis sample_id uploaded_world).2.

(** A model that cannot be reached. *)
Definition unreachable_model : World → ChatRequest → exn + str :=
  fun _ _ => inl (Exception "ConnectionError" (py "model unreachable")).

(** [download_sample_csv()]: the table of five customers, column by
    column. *)
Definition download_sample_csv : M document :=
  ret (list_to_map
         [("customer_id",
           PList (PStr <$> [py "CUST001"; py "CUST002"; py "CUST003"; py "CUST004";
                            py "CUST005"]));
          ("customer_name",
           PList (PStr <$> [py "John Smith"; py "Jane Doe"; py "Bob Johnson";
                            py "Alice Brown"; py "Charlie Wilson"]));
          ("age", PList (PInt <$> [35; 28; 45; 31; 52]%Z));
          ("monthly_charges",
           PList (PFloat <$> [py "65.5"; py "89.2"; py "120.0"; py "45.0"; py "95.5"]));
          ("total_charges",
           PList (PFloat <$> [py "1500.5"; py "2800.0"; py "5200.0"; py "800.0";
                              py "3500.0"]));
          ("contract_length", PList (PInt <$> [12; 24; 36; 6; 24]%Z));
          ("support_calls", PList (PInt <$> [2; 5; 1; 8; 3]%Z));
          ("payment_method",
           PList (PStr <$> [py "Credit Card"; py "Bank Transfer"; py "Credit Card";
                            py "Cash"; py "Bank Transfer"]));
          ("internet_service",
           PList (PStr <$> [py "Fiber"; py "DSL"; py "Fiber"; py "DSL"; py "Fiber"]));
          ("customer_satisfaction", PList (PInt <$> [8; 6; 9; 3; 7]%Z))]).

(** * The tester of [backend_test.py]

    [ChurnPredictionAPITester] talks to a running server through
    [requests] and reads the clock of its own machine. Both are outside the
    repository: a request is answered by whatever is on the other side.
    What is printed is left out; printing is taken to succeed. *)

(** The upload of a multipart request: the name of the file, its text and
    its MIME type, under the name of the form field. *)
Abbreviation Files := (list (str * (str * str * str))).

(** The four ways [run_test] calls [requests]. *)
Inductive Request :=
| requests_get (url : str) (headers : list (str * str))
| requests_post_files (url : str) (files : Files)
| requests_post_json (url : str) (json : pyval) (headers : list (str * str))
| requests_delete (url : str) (headers : list (str * str)).

(** What the tester reads of a response: its status, and the value of
    [response.json()] when the body is JSON. *)
Record Response := {
  status_code : Z;
  response_json : option pyval
}.

(** The machine the tester runs on and the network behind it: a state
    with a clock, counted in microseconds, that requests and [time.sleep]
    move on; the truth value of a float (binary floating point is not
    modelled); and the text an f-string gives for a value. *)
Record Outside := {
  Net : Type;
  time_time : Net → Z;
  time_sleep : Z → Net → Net;
  requests_send : Request → Net → (exn + Response) * Net;
  float_is_zero : str → bool;
  py_format : pyval → str
}.

(** The attributes of a [ChurnPredictionAPITester]. *)
Record Tester := mkTester {
  base_url : str;
  tests_run : nat;
  tests_passed : nat;
  self_analysis_id : pyval
}.

(** [ChurnPredictionAPITester()] *)
Definition new_tester : Tester :=
  mkTester (py "https://037f1af9-9dd9-4aec-ac50-d49e76119495.preview.emergentagent.com")
           0 0 PNone.

(** [item in container] for a text [item]. *)
Definition py_contains (item : str) (container : pyval) : exn + bool :=
  match container with
  | PDict pairs => inr (bool_decide (is_Some (Dict.lookup item pairs)))
  | PList items =>
      inr (existsb (fun v => match v with
                             | PStr s => bool_decide (s = item)
                             | _ => false
                             end) items)
  | PStr s => inr (Str.contains item s)
  | v => inl (Exception "TypeError"
                (py "argument of type '" ++ py (type_name v) ++ py "' is not iterable"))
  end.

(** [container[key]] for a text [key]. *)
Definition py_getitem (container : pyval) (key : str) : exn + pyval :=
  match container with
  | PDict pairs =>
      match Dict.lookup key pairs with
      | Some v => inr v
      | None => inl (Exception "KeyError" (py "'" ++ key ++ py "'"))
      end
  | PList _ =>
      inl (Exception "TypeError" (py "list indices must be integers or slices, not str"))
  | PStr _ =>
      inl (Exception "TypeError" (py "string indices must be integers, not 'str'"))
  | v => inl (Exception "TypeError"
                (py "'" ++ py (type_name v) ++ py "' object is not subscriptable"))
  end.

(** [len(v)] *)
Definition py_len (v : pyval) : exn + nat :=
  match v with
  | PStr s => inr (length s)
  | PList items => inr (length items)
  | PDict pairs => inr (length pairs)
  | v => inl (Exception "TypeError"
                (py "object of type '" ++ py (type_name v) ++ py "' has no len()"))
  end.

(** [response.get(key, default)] outside the server. *)
Definition dict_get (obj : pyval) (key : str) (otherwise : pyval) : exn + pyval :=
  match obj with
  | PDict pairs => inr (default otherwise (Dict.lookup key pairs))
  | v => inl (Exception "AttributeError"
                (py "'" ++ py (type_name v) ++ py "' object has no attribute 'get'"))
  end.

(** [all(field in response for field in fields)]: the first failing or
    raising test ends it. *)
Fixpoint all_in (fields : list str) (response : pyval) : exn + bool :=
  match fields with
  | [] => inr true
  | field :: fields' =>
      match py_contains field response with
      | inl e => inl e
      | inr false => inr false
      | inr true => all_in fields' response
      end
  end.

(** [create_test_csv_file().getvalue()] *)
Definition csv_content : str :=
  Str.join [10]
    [py "customer_id,customer_name,age,monthly_charges,total_charges,contract_length,support_calls,payment_method,internet_service,customer_satisfaction";
     py "CUST001,John Smith,35,65.5,1500.5,12,2,Credit Card,Fiber,8";
     py "CUST002,Jane Doe,28,89.2,2800.0,24,5,Bank Transfer,DSL,6";
     py "CUST003,Bob Johnson,45,120.0,5200.0,36,1,Credit Card,Fiber,9";
     py "CUST004,Alice Brown,31,45.0,800.0,6,8,Cash,DSL,3";
     py "CUST005,Charlie Wilson,52,95.5,3500.0,24,3,Bank Transfer,Fiber,7"].

Section Methods.

Variable o : Outside.

(** The truth value of a value: [None], [False], zero and the empty
    containers are false. *)
Definition py_bool (v : pyval) : bool :=
  match v with
  | PNone => false
  | PBool b => b
  | PInt z => negb (z =? 0)%Z
  | PFloat lit => negb (float_is_zero o lit)
  | PStr s => negb (bool_decide (s = []))
  | PList items => negb (bool_decide (items = []))
  | PDict pairs => negb (bool_decide (pairs = []))
  | PDatetime _ | PObjectId _ => true
  end.

(** [v == text] for a text of the source. *)
Definition is_text (v : pyval) (text : string) : bool :=
  match v with
  | PStr s => bool_decide (s = py text)
  | _ => false
  end.

(** A method of the tester: it reads and changes the attributes of the
    tester and the outside, and returns or raises. *)
Definition T (A : Type) : Type := Tester * Net o → result A * (Tester * Net o).

Definition tret {A} (a : A) : T A := fun s => (Ok a, s).

Definition traise {A} (e : exn) : T A := fun s => (Raise e, s).

Definition tbind {A B} (m : T A) (k : A → T B) : T B :=
  fun s =>
    match m s with
    | (Ok a, s') => k a s'
    | (Raise e, s') => (Raise e, s')
    end.

Notation "'let+' x ':=' m 'in' k" := (tbind m (fun x => k))
  (at level 10, x pattern, m at level 100, k at level 200).

Definition tlift {A} (r : exn + A) : T A :=
  match r with
  | inl e => traise e
  | inr a => tret a
  end.

(** The attributes of the tester, read and written. *)
Definition self : T Tester := fun s => (Ok s.1, s).

Definition set_self (t : Tester) : T unit := fun s => (Ok tt, (t, s.2)).

(** One call of [requests]. *)
Definition send (request : Request) : T Response :=
  fun s =>
    match requests_send o request s.2 with
    | (inl e, net') => (Raise e, (s.1, net'))
    | (inr response, net') => (Ok response, (s.1, net'))
    end.

(** [try: body except Exception: handler] in a method of the tester. *)
Definition ttry {A} (body : T A) (handler : exn → T A) : T A :=
  fun s =>
    match body s with
    | (Ok a, s') => (Ok a, s')
    | (Raise e, s') => handler e s'
    end.

(** The request [run_test] makes for a method: [None] for a method that
    is none of the three, for which it makes none. *)
Definition request_for (method url : str) (data : pyval) (files : Files)
    : option Request :=
  let headers : list (str * str) :=
    if py_bool data && negb (bool_decide (files ≠ []))
    then [(py "Content-Type", py "application/json")] else [] in
  if bool_decide (method = py "GET") then Some (requests_get url headers)
  else if bool_decide (method = py "POST") then
    if bool_decide (files ≠ []) then Some (requests_post_files url files)
    else Some (requests_post_json url data headers)
  else if bool_decide (method = py "DELETE") then Some (requests_delete url headers)
  else None.

(** [run_test(name, method, endpoint, expected_status, data, files)]:
    one request and its verdict. The counter of the tests goes up before
    the request; an unknown method leaves [response] unbound, and the
    [UnboundLocalError], like every exception of the request, is taken
    by the handler. *)
Definition run_test (name method endpoint : str) (expected_status : Z)
    (data : pyval) (files : Files) : T (bool * pyval) :=
  let+ t := self in
  let url := base_url t ++ py "/" ++ endpoint in
  let+ _ := set_self (mkTester (base_url t) (S (tests_run t)) (tests_passed t)
                        (self_analysis_id t)) in
  ttry
    (let+ response :=
       match request_for method url data files with
       | Some request => send request
       | None =>
           traise (Exception "UnboundLocalError"
                     (py "cannot access local variable 'response' where it is not associated with a value"))
       end in
     let success := (status_code response =? expected_status)%Z in
     if success then
       let+ t := self in
       let+ _ := set_self (mkTester (base_url t) (tests_run t) (S (tests_passed t))
                             (self_analysis_id t)) in
       tret (true, default (PDict []) (response_json response))
     else tret (false, PDict []))
    (fun _ => tret (false, PDict [])).

Definition test_health_check : T (bool * pyval) :=
  run_test (py "Health Check") (py "GET") (py "api/health") 200 PNone [].

Definition test_root_endpoint : T (bool * pyval) :=
  run_test (py "Root Endpoint") (py "GET") [] 200 PNone [].

Definition test_sample_csv_download : T (bool * pyval) :=
  let+ r := run_test (py "Sample CSV Download") (py "GET") (py "api/sample-csv")
              200 PNone [] in
  let success := r.1 in
  let response := r.2 in
  if success && py_bool response then
    let+ has_fields :=
      tlift (all_in [py "customer_id"; py "customer_name"; py "age";
                     py "monthly_charges"] response) in
    if has_fields then tret (true, response) else tret (false, response)
  else tret (success, response).

Definition test_csv_upload : T (bool * pyval) :=
  let files : Files :=
    [(py "file", (py "test_customers.csv", csv_content, py "text/csv"))] in
  let+ r := run_test (py "CSV Upload") (py "POST") (py "api/upload-csv") 200 PNone
              files in
  let success := r.1 in
  let response := r.2 in
  if success then
    let+ has_id := tlift (py_contains (py "analysis_id") response) in
    if has_id then
      let+ id := tlift (py_getitem response (py "analysis_id")) in
      let+ t := self in
      let+ _ := set_self (mkTester (base_url t) (tests_run t) (tests_passed t) id) in
      tret (true, response)
    else tret (success, response)
  else tret (success, response).

Definition test_invalid_file_upload : T (bool * pyval) :=
  let files : Files :=
    [(py "file", (py "test.txt", py "This is not a CSV file", py "text/plain"))] in
  run_test (py "Invalid File Upload") (py "POST") (py "api/upload-csv") 400 PNone
    files.

Definition test_analysis_status (analysis_id : pyval) : T (bool * pyval) :=
  if negb (py_bool analysis_id) then tret (false, PDict [])
  else run_test (py "Analysis Status") (py "GET")
         (py "api/analysis/" ++ py_format o analysis_id) 200 PNone [].

(** [time.time()] and [time.sleep(seconds)] *)
Definition now : T Z := fun s => (Ok (time_time o s.2), s).

Definition sleep (seconds : Z) : T unit :=
  fun s => (Ok tt, (s.1, time_sleep o (seconds * 1000000) s.2)).

(** The [while] loop of [test_analysis_completion], at most [fuel] times
    through its head; [None] when the fuel is used up. *)
Fixpoint poll (fuel : nat) (analysis_id : pyval) (start_time max_wait_time : Z)
    : T (option (bool * pyval)) :=
  match fuel with
  | O => tret None
  | S fuel' =>
      let+ t := now in
      if (t - start_time <? max_wait_time * 1000000)%Z then
        let+ r := test_analysis_status analysis_id in
        let success := r.1 in
        let response := r.2 in
        if success && py_bool response then
          let+ status := tlift (dict_get response (py "status") (PStr (py "unknown"))) in
          if is_text status "completed" then
            let+ has_required :=
              tlift (all_in [py "total_customers"; py "predictions"] response) in
            if has_required then
              let+ _ := tlift (dict_get response (py "total_customers") (PInt 0)) in
              let+ _ := tlift (dict_get response (py "high_risk_customers") (PInt 0)) in
              let+ predictions :=
                tlift (dict_get response (py "predictions") (PList [])) in
              let+ _ := tlift (py_len predictions) in
              let+ _ := tlift (dict_get response (py "insights") PNone) in
              let+ _ := tlift (dict_get response (py "recommendations") PNone) in
              tret (Some (true, response))
            else tret (Some (false, response))
          else if is_text status "failed" then
            let+ _ := tlift (dict_get response (py "error") (PStr (py "Unknown error"))) in
            tret (Some (false, response))
          else
            let+ _ := sleep 5 in
            poll fuel' analysis_id start_time max_wait_time
        else
          let+ _ := sleep 5 in
          poll fuel' analysis_id start_time max_wait_time
      else tret (Some (false, PDict []))
  end.

(** [test_analysis_completion(analysis_id, max_wait_time)]; every turn
    of the loop but the last sleeps five seconds, and so the loop is over
    within the fuel given here. *)
Definition test_analysis_completion (analysis_id : pyval) (max_wait_time : Z)
    : T (option (bool * pyval)) :=
  if negb (py_bool analysis_id) then tret (Some (false, PDict []))
  else
    let+ start_time := now in
    poll (Z.to_nat (max_wait_time / 5) + 2) analysis_id start_time max_wait_time.

Definition test_get_all_analyses : T (bool * pyval) :=
  run_test (py "Get All Analyses") (py "GET") (py "api/analyses") 200 PNone [].

Definition test_delete_analysis (analysis_id : pyval) : T (bool * pyval) :=
  if negb (py_bool analysis_id) then tret (false, PDict [])
  else run_test (py "Delete Analysis") (py "DELETE")
         (py "api/analysis/" ++ py_format o analysis_id) 200 PNone [].

Definition test_nonexistent_analysis : T (bool * pyval) :=
  run_test (py "Non-existent Analysis") (py "GET")
    (py "api/analysis/" ++ py "nonexistent-analysis-id") 404 PNone [].

(** The tests of [main()], on the tester it made; [None] when the
    polling ran out of fuel. *)
Definition run_all : T (option unit) :=
  let+ _ := test_root_endpoint in
  let+ _ := test_health_check in
  let+ _ := test_sample_csv_download in
  let+ _ := test_invalid_file_upload in
  let+ upload := test_csv_upload in
  let upload_success := upload.1 in
  let+ tester := self in
  let+ finished :=
    if upload_success && py_bool (self_analysis_id tester) then
      let+ completion := test_analysis_completion (self_analysis_id tester) 120 in
      match completion with
      | None => tret None
      | Some _ =>
          let+ _ := test_get_all_analyses in
          let+ _ := test_delete_analysis (self_analysis_id tester) in
          tret (Some tt)
      end
    else tret (Some tt) in
  match finished with
  | None => tret None
  | Some _ =>
      let+ _ := test_nonexistent_analysis in
      tret (Some tt)
  end.

(** [main()]: the exit status, 0 when every test that was run passed. *)
Definition main (net : Net o) : result (option Z) * (Tester * Net o) :=
  (let+ finished := run_all in
   match finished with
   | None => tret None
   | Some _ =>
       let+ tester := self in
       tret (Some (if bool_decide (tests_passed tester = tests_run tester)
                   then 0%Z else 1%Z))
   end) (new_tester, net).

End Methods.

(** Between two states of a tester: between [lo] and [hi] more tests
    were run, no more of them passed than were run, and the address of
    the server is the same. *)
Definition counted {N : Type} (lo hi : nat) (s s' : Tester * N) : Prop :=
  (tests_run s.1 + lo ≤ tests_run s'.1)%nat
  ∧ (tests_run s'.1 ≤ tests_run s.1 + hi)%nat
  ∧ (tests_passed s.1 ≤ tests_passed s'.1)%nat
  ∧ (tests_passed s'.1 + tests_run s.1 ≤ tests_passed s.1 + tests_run s'.1)%nat
  ∧ base_url s'.1 = base_url s.1.

(** A body [test_analysis_completion] accepts: an object with the status
    [completed], the two fields it asks for, and [predictions] that have a
    length. *)
Definition accepted_body (body : pyval) : Prop :=
  ∃ pairs predictions n,
    body = PDict pairs
    ∧ Dict.lookup (py "status") pairs = Some (PStr (py "completed"))
    ∧ is_Some (Dict.lookup (py "total_customers") pairs)
    ∧ Dict.lookup (py "predictions") pairs = Some predictions
    ∧ py_len predictions = inr n.

(** What the polling returns: a verdict, which is success only for an
    accepted body. *)
Definition polled (c : option (bool * pyval)) : Prop :=
  ∃ verdict body, c = Some (verdict, body) ∧ (verdict = true → accepted_body body).

(** What a method of the tester is shown to do, on every state: at most
    [hi] more tests are run; and when it returns (no exception leaves
    it), at least [lo] were, and the value satisfies [Q]. *)
Definition spec {N A : Type} (lo hi : nat) (Q : A → Prop)
    (m : Tester * N → result A * (Tester * N)) : Prop :=
  ∀ s r s', m s = (r, s') →
    counted 0 hi s s' ∧ ∀ a, r = Ok a → counted lo hi s s' ∧ Q a.

(** An outside where every request takes a microsecond and is answered
    with status 200 and an empty object. *)
Definition quiet_outside : Outside :=
  {| Net := Z;
     time_time := fun n => n;
     time_sleep := fun d n => (n + d)%Z;
     requests_send := fun _ n =>
       (inr {| status_code := 200; response_json := Some (PDict []) |}, (n + 1)%Z);
     float_is_zero := fun _ => false;
     py_format := fun v => match v with PStr s => s | _ => [] end |}.

(** An outside where every request is answered with a completed analysis
    whose [predictions] are [null]. *)
Definition null_outside : Outside :=
  {| Net := Z;
     time_time := fun n => n;
     time_sleep := fun d n => (n + d)%Z;
     requests_send := fun _ n =>
       (inr {| status_code := 200;
               response_json :=
                 Some (PDict [(py "status", PStr (py "completed"));
                              (py "total_customers", PInt 5);
                              (py "predictions", PNone)]) |}, (n + 1)%Z);
     float_is_zero := fun _ => false;
     py_format := fun v => match v with PStr s => s | _ => [] end |}.

(** * Identifiers drawn afresh

    [uuid.uuid4()] draws at random from 2^122 identifiers; the runs below
    are those in which no accepted upload draws an identifier that a
    stored record or a task not yet over already has. *)

(** The identifiers of the tasks not yet over: those not started and
    those waiting for the model. *)
Definition pending (w : World) : list str :=
  (task_analysis_id <$> scheduled w)
  ++ ((fun s => task_analysis_id (susp_task s)) <$> awaiting w).

Definition fresh (uuid4 : str) (w : World) : Prop :=
  first_match uuid4 (churn_analyses w) = None ∧ uuid4 ∉ pending w.

(** The records of the collection filed under an identifier. *)
Definition filed_under (analysis_id : str) (c : list document) : list document :=
  filter (fun d => matches analysis_id d = true) c.

(** What holds of the collection and the tasks when identifiers are drawn
    afresh: no two records and no two tasks share an identifier, the
    record of a task not yet over is [processing], and every
    [processing] record has its task. *)
Definition well_kept (w : World) : Prop :=
  (∀ analysis_id, (length (filed_under analysis_id (churn_analyses w)) ≤ 1)%nat)
  ∧ NoDup (pending w)
  ∧ (∀ analysis_id d,
       analysis_id ∈ pending w →
       first_match analysis_id (churn_analyses w) = Some d →
       has_status "processing" d)
  ∧ (∀ d, d ∈ churn_analyses w → has_status "processing" d →
          ∃ analysis_id,
            d !! "analysis_id" = Some (PStr analysis_id)
            ∧ analysis_id ∈ pending w).

Section FreshRuns.

Variable pd_read_csv : option node → exn + N.

(** A move of the server with identifiers drawn afresh: an upload whose
    identifier is fresh, or any move that files no record. *)
Inductive step_fresh : World → World → Prop :=
| fresh_upload w uuid4 file :
    fresh uuid4 w → step_fresh w (upload_csv uuid4 file w).2
| fresh_other w w' :
    step pd_read_csv w w' →
    (length (churn_analyses w') ≤ length (churn_analyses w))%nat →
    step_fresh w w'.

Inductive reachable_fresh : World → Prop :=
| reachable_fresh_initial w : initial w → reachable_fresh w
| reachable_fresh_step w w' :
    reachable_fresh w → step_fresh w w' → reachable_fresh w'.

End FreshRuns.

(** The three [$set]s of [analyze_churn_data], at the time [now]. *)
Definition analyzer_update (now : Z) (fields : document) : Prop :=
  (∃ e, fields = list_to_map
                   [("status", PStr (py "failed"));
                    ("error", PStr e);
                    ("completed_at", PDatetime now)])
  ∨ (∃ e raw n,
       fields = list_to_map
                  [("status", PStr (py "completed_with_errors"));
                   ("error", PStr e);
                   ("raw_response", PStr raw);
                   ("total_customers", PInt n);
                   ("completed_at", PDatetime now)])
  ∨ (∃ total high predictions insights recommendations,
       fields = list_to_map
                  [("status", PStr (py "completed"));
                   ("completed_at", PDatetime now);
                   ("total_customers", total);
                   ("high_risk_customers", high);
                   ("predictions", predictions);
                   ("insights", insights);
                   ("recommendations", recommendations)]).

(** The fields a record has in each of its states: a [processing] record
    has no result, no diagnosis and no date of completion; a [failed] one
    has the text of the error and no result; a [completed_with_errors] one
    has the text of the error, the raw answer and the row count and no
    other result; a [completed] one has the five results and no
    diagnosis. *)
Definition shaped (d : document) : Prop :=
  (has_status "processing" d
   ∧ Forall (λ k, d !! k = Some PNone)
       ["total_customers"; "high_risk_customers"; "predictions"; "insights";
        "recommendations"]
   ∧ Forall (λ k, d !! k = None) ["error"; "raw_response"; "completed_at"])
  ∨ (has_status "failed" d
     ∧ Forall (λ k, d !! k = Some PNone)
         ["total_customers"; "high_risk_customers"; "predictions"; "insights";
          "recommendations"]
     ∧ (∃ e, d !! "error" = Some (PStr e))
     ∧ d !! "raw_response" = None
     ∧ ∃ t, d !! "completed_at" = Some (PDatetime t))
  ∨ (has_status "completed_with_errors" d
     ∧ (∃ n, d !! "total_customers" = Some (PInt n))
     ∧ Forall (λ k, d !! k = Some PNone)
         ["high_risk_customers"; "predictions"; "insights"; "recommendations"]
     ∧ (∃ e, d !! "error" = Some (PStr e))
     ∧ (∃ raw, d !! "raw_response" = Some (PStr raw))
     ∧ ∃ t, d !! "completed_at" = Some (PDatetime t))
  ∨ (has_status "completed" d
     ∧ Forall (λ k, is_Some (d !! k))
         ["total_customers"; "high_risk_customers"; "predictions"; "insights";
          "recommendations"]
     ∧ d !! "error" = None
     ∧ d !! "raw_response" = None
     ∧ ∃ t, d !! "completed_at" = Some (PDatetime t)).

(** The record of the sample upload once its job has ended on the fenced
    sample answer. *)
Definition completed_record : document :=
  list_to_map
    [("status", PStr (py "completed"));
     ("completed_at", PDatetime 1000);
     ("total_customers", PInt 5);
     ("high_risk_customers", PInt 2);
     ("predictions", PList []);
     ("insights", PStr []);
     ("recommendations", PStr [])] ∪ sample_record.

(** * Properties *)

(** ** Text *)

Lemma startswith_app (pre rest : str) : Str.startswith pre (pre ++ rest) = true.
Proof.
  induction pre as [|p pre IH]; simpl; [done|].
  by rewrite N.eqb_refl, IH.
Qed.

Lemma startswith_prefix (pre s : str) :
  Str.startswith pre s = true ↔ pre `prefix_of` s.
Proof.
  revert s. induction pre as [|p pre IH]; intros s; simpl.
  - split; [intros _; apply prefix_nil | done].
  - destruct s as [|c s].
    + split; [done | intros [k Hk]; discriminate].
    + rewrite andb_true_iff, N.eqb_eq, IH. split.
      * intros [-> H]. by apply prefix_cons.
      * intros [k Hk]. injection Hk as -> ->. split; [done | by exists k].
Qed.


(** ** The store *)

Lemma matches_spec (analysis_id : str) (d : document) :
  matches analysis_id d = true ↔ d !! "analysis_id" = Some (PStr analysis_id).
Proof.
  unfold matches. destruct (d !! "analysis_id") as [[]|]; try (split; congruence).
  rewrite bool_decide_eq_true. split; congruence.
Qed.

Lemma first_match_None (analysis_id : str) (c : list document) :
  first_match analysis_id c = None
  ↔ ∀ d, d ∈ c → d !! "analysis_id" ≠ Some (PStr analysis_id).
Proof.
  unfold first_match. induction c as [|d c IH]; simpl.
  - split; [intros _ d Hd; by apply elem_of_nil in Hd | done].
  - rewrite filter_cons. destruct (decide (matches analysis_id d = true)) as [Hm|Hm].
    + simpl. split; [discriminate|]. intros H. exfalso.
      apply (H d); [left | by apply matches_spec].
    + rewrite IH. split.
      * intros H d' Hd'. apply elem_of_cons in Hd' as [->|Hd']; [|by apply H].
        by rewrite <- matches_spec.
      * intros H d' Hd'. apply H. by right.
Qed.

Lemma first_match_Some (analysis_id : str) (c : list document) (d : document) :
  first_match analysis_id c = Some d →
  d ∈ c ∧ d !! "analysis_id" = Some (PStr analysis_id).
Proof.
  unfold first_match. intros H. apply head_Some in H as [l Hl].
  assert (d ∈ filter (λ d, matches analysis_id d = true) c) as Hin
    by (rewrite Hl; left).
  apply list_elem_of_filter in Hin as [Hm Hin]. split; [done | by apply matches_spec].
Qed.

(** A document found by the filter is not the empty [dict]. *)
Lemma found_not_empty (analysis_id : str) (c : list document) (d : document) :
  first_match analysis_id c = Some d → bool_decide (size d = 0%nat) = false.
Proof.
  intros [_ H]%first_match_Some. apply bool_decide_eq_false.
  intros ->%map_size_empty_iff. by rewrite lookup_empty in H.
Qed.

Lemma strip_id_delete (d : document) : strip_id d = delete "_id" d.
Proof.
  unfold strip_id. case_bool_decide as H; [done|].
  symmetry. apply delete_id. by apply eq_None_not_Some.
Qed.

(** Only [_id] goes: every other field of the document is returned as
    stored. *)
Lemma strip_id_lookup (d : document) (k : string) :
  k ≠ "_id" → strip_id d !! k = d !! k.
Proof. intros H. rewrite strip_id_delete. by apply lookup_delete_ne. Qed.

Lemma strip_id_no_id (d : document) : strip_id d !! "_id" = None.
Proof. rewrite strip_id_delete. apply lookup_delete_eq. Qed.

(** ** Submit *)

(** C5. An upload whose file name does not end in [.csv] is answered with
    status 400, and the world is left as it was: no file is written, no
    record is inserted, no task is created. *)
Theorem upload_rejects_other_extensions (uuid4 : str) (file : UploadFile) (w : World) :
  Str.endswith (py ".csv") (filename file) = false →
  upload_csv uuid4 file w
  = (Raise (HTTPException 400 (py "Only CSV files are allowed")), w).
Proof. intros H. unfold upload_csv. by rewrite H. Qed.

(** ** GetStatus *)

Lemma get_analysis_status_eq (analysis_id : str) (w : World) :
  get_analysis_status analysis_id w
  = match first_match analysis_id (churn_analyses w) with
    | Some d => (Ok (strip_id d), w)
    | None => (Raise (HTTPException 404 (py "Analysis not found")), w)
    end.
Proof.
  unfold get_analysis_status, bind, find_one.
  destruct (first_match _ _) as [d|] eqn:Hd; [|done].
  by rewrite (found_not_empty _ _ _ Hd).
Qed.

(** C7. [get_analysis_status] answers 404 exactly when no document of the
    store has the identifier; otherwise it returns the stored document
    with the field [_id] taken out and every other field as stored. It
    leaves the world as it was. *)
Theorem get_status_found_or_404 (analysis_id : str) (w : World) :
  ((get_analysis_status analysis_id w).1
     = Raise (HTTPException 404 (py "Analysis not found"))
   ↔ ∀ d, d ∈ churn_analyses w → d !! "analysis_id" ≠ Some (PStr analysis_id))
  ∧ (∀ d, first_match analysis_id (churn_analyses w) = Some d →
       d ∈ churn_analyses w
       ∧ d !! "analysis_id" = Some (PStr analysis_id)
       ∧ (get_analysis_status analysis_id w).1 = Ok (delete "_id" d)
       ∧ ∀ k, k ≠ "_id" → delete "_id" d !! k = d !! k)
  ∧ (get_analysis_status analysis_id w).2 = w.
Proof.
  rewrite get_analysis_status_eq. split; [|split].
  - rewrite <- first_match_None. by destruct (first_match _ _).
  - intros d Hd. rewrite Hd. destruct (first_match_Some _ _ _ Hd) as [Hin Hid].
    repeat split; try done.
    + simpl. by rewrite strip_id_delete.
    + intros k Hk. by apply lookup_delete_ne.
  - by destruct (first_match _ _).
Qed.

(** ** Delete *)

(** C1, as the code has it. For a record that exists and names the path
    [p] of its upload: when nothing is stored at [p], or a file that
    [os.remove] removes, the record is deleted and the call succeeds; when
    [os.remove] raises on what is stored at [p], the call is answered with
    status 500 and neither the record nor the disk changes. *)
Theorem delete_unless_removal_fails (analysis_id p : str) (d : document) (w : World) :
  first_match analysis_id (churn_analyses w) = Some d →
  d !! "file_path" = Some (PStr p) →
  ((fs w !! p = None ∨ (os_remove p w).1 = Ok tt) →
     delete_analysis analysis_id w
     = (Ok (py "Analysis deleted successfully"),
        set_churn_analyses (delete_first analysis_id)
          (set_fs (fun f => delete p f) w)))
  ∧ (∀ e, fs w !! p ≠ None → (os_remove p w).1 = Raise e →
       delete_analysis analysis_id w
       = (Raise (HTTPException 500
                   (py "Failed to delete analysis: " ++ exn_text e)), w)).
Proof.
  intros Hd Hp.
  unfold delete_analysis, bind, find_one. rewrite Hd.
  rewrite (found_not_empty _ _ _ Hd).
  unfold try_except, bind, os_path_exists, os_remove, delete_one, ret, raise,
    except_Exception. rewrite Hp. split.
  - intros [Hnone|Hok].
    + rewrite Hnone. rewrite bool_decide_eq_false_2 by (by intros [? ?]).
      destruct w; unfold set_churn_analyses, set_fs; simpl in *.
      by rewrite (delete_id _ _ Hnone).
    + unfold os_remove in Hok. destruct (fs w !! p) as [[c|]|] eqn:Hfs; try done.
      rewrite bool_decide_eq_true_2 by eauto. by rewrite Hfs.
  - intros e Hsome Hraise. unfold os_remove in Hraise.
    destruct (fs w !! p) as [[c|]|] eqn:Hfs; try done.
    rewrite bool_decide_eq_true_2 by eauto. rewrite Hfs. simpl in *.
    by injection Hraise as <-.
Qed.

(** ** The analyzer *)

Lemma first_match_update_first (analysis_id : str) (f : document → document)
    (c : list document) (d : document) :
  first_match analysis_id c = Some d →
  f d !! "analysis_id" = d !! "analysis_id" →
  first_match analysis_id (update_first analysis_id f c) = Some (f d).
Proof.
  unfold first_match. intros Hd Hf.
  induction c as [|d0 c IH]; simpl in *; [done|].
  rewrite filter_cons in Hd.
  destruct (matches analysis_id d0) eqn:Hm.
  - rewrite decide_True in Hd by done. injection Hd as ->.
    rewrite filter_cons, decide_True; [done|].
    apply matches_spec. rewrite Hf. by apply matches_spec.
  - rewrite decide_False in Hd by congruence.
    rewrite filter_cons, decide_False by congruence. by apply IH.
Qed.

Lemma update_first_no_match (analysis_id : str) (f : document → document)
    (c : list document) :
  first_match analysis_id c = None → update_first analysis_id f c = c.
Proof.
  unfold first_match. induction c as [|d0 c IH]; simpl; [done|].
  rewrite filter_cons. destruct (matches analysis_id d0) eqn:Hm.
  - by rewrite decide_True.
  - rewrite decide_False by congruence. intros H. by rewrite IH.
Qed.

(** The record after a [$set] of [fields]: found again under its
    identifier when the fields leave the identifier alone. *)
Lemma first_match_set (analysis_id : str) (fields d : document) (c : list document) :
  first_match analysis_id c = Some d →
  fields !! "analysis_id" = None →
  first_match analysis_id (update_first analysis_id (λ d, fields ∪ d) c)
  = Some (fields ∪ d).
Proof.
  intros Hd Hf. apply first_match_update_first; [done|].
  by apply lookup_union_r.
Qed.

Section AnalyzerFacts.

Variable pd_read_csv : option node → exn + N.
Variable send_message : World → ChatRequest → exn + str.

Lemma analyze_prepare_csv_fails (analysis_id file_path : str) (w : World) (e : exn) :
  pd_read_csv (fs w !! file_path) = inl e →
  analyze_prepare pd_read_csv analysis_id file_path w = (Raise e, w).
Proof.
  intros H. unfold analyze_prepare, bind, read_csv_len. by rewrite H.
Qed.

Lemma analyze_prepare_no_key (analysis_id file_path : str) (w : World) (n : N) :
  pd_read_csv (fs w !! file_path) = inr n →
  truthy (environ w !! "GEMINI_API_KEY") = false →
  analyze_prepare pd_read_csv analysis_id file_path w
  = (Raise (Exception "Exception"
              (py "GEMINI_API_KEY not found in environment variables")), w).
Proof.
  intros H Hk. unfold analyze_prepare, bind, read_csv_len, os_environ_get.
  rewrite H. simpl. by rewrite Hk.
Qed.

Lemma analyze_prepare_ok (analysis_id file_path key : str) (w : World) (n : N) :
  pd_read_csv (fs w !! file_path) = inr n →
  environ w !! "GEMINI_API_KEY" = Some key →
  key ≠ [] →
  analyze_prepare pd_read_csv analysis_id file_path w
  = (Ok (n, chat_request key analysis_id n file_path), w).
Proof.
  intros H Hk Hne. unfold analyze_prepare, bind, read_csv_len, os_environ_get.
  rewrite H. simpl. rewrite Hk. by destruct key.
Qed.

Lemma analyze_response_unparsable (analysis_id response : str) (n : N)
    (text : str) (w : World) :
  Json.loads (extract_json response) = Json.DecodeError text →
  analyze_response analysis_id n response w
  = (Ok tt,
     set_churn_analyses
       (update_first analysis_id (λ d,
          list_to_map
            [("status", PStr (py "completed_with_errors"));
             ("error", PStr (py "JSON parsing error: " ++ text));
             ("raw_response", PStr response);
             ("total_customers", PInt (Z.of_N n));
             ("completed_at", PDatetime (clock w))] ∪ d)) w).
Proof.
  intros H. unfold analyze_response, try_except, bind, json_loads. by rewrite H.
Qed.

Lemma analyze_response_object (analysis_id response : str) (n : N)
    (pairs : list (str * pyval)) (w : World) :
  Json.loads (extract_json response) = Json.Parsed (PDict pairs) →
  analyze_response analysis_id n response w
  = (Ok tt,
     set_churn_analyses
       (update_first analysis_id (λ d,
          list_to_map
            [("status", PStr (py "completed"));
             ("completed_at", PDatetime (clock w));
             ("total_customers",
              default (PInt (Z.of_N n)) (Dict.lookup (py "total_customers") pairs));
             ("high_risk_customers",
              default (PInt 0) (Dict.lookup (py "high_risk_customers") pairs));
             ("predictions",
              default (PList []) (Dict.lookup (py "predictions") pairs));
             ("insights", default (PStr []) (Dict.lookup (py "insights") pairs));
             ("recommendations",
              default (PStr []) (Dict.lookup (py "recommendations") pairs))] ∪ d)) w).
Proof.
  intros H. unfold analyze_response, try_except, bind, json_loads. by rewrite H.
Qed.

End AnalyzerFacts.

(** ** Submit, when the upload is accepted *)

(** Writing a file changes the disk at its path only, or raises and
    changes nothing. *)
Lemma open_write_cases (path : str) (contents : list Byte.byte) (w : World) :
  open_write path contents w
    = (Ok tt, set_fs (fun f => <[path := File contents]> f) w)
  ∨ ∃ e, open_write path contents w = (Raise e, w).
Proof.
  unfold open_write.
  destruct (dirname path) as [|a l], (fs w !! path) as [[c|]|];
    try destruct (fs w !! (a :: l)) as [[c'|]|]; eauto.
Qed.

Lemma open_write_ok (path : str) (contents : list Byte.byte) (w : World) :
  (open_write path contents w).1 = Ok tt →
  open_write path contents w
  = (Ok tt, set_fs (fun f => <[path := File contents]> f) w).
Proof.
  destruct (open_write_cases path contents w) as [H | [e H]]; rewrite H; done.
Qed.

(** The record [upload_csv] stores and the answer it gives when the disk
    takes the file. *)
Lemma upload_csv_ok (uuid4 : str) (file : UploadFile) (w : World) :
  let file_path := path_join UPLOAD_DIR (uuid4 ++ py "_" ++ filename file) in
  let record : document :=
    list_to_map
      [("_id", PObjectId (next_oid w));
       ("analysis_id", PStr uuid4);
       ("filename", PStr (filename file));
       ("file_path", PStr file_path);
       ("status", PStr (py "processing"));
       ("created_at", PDatetime (clock w));
       ("total_customers", PNone);
       ("high_risk_customers", PNone);
       ("predictions", PNone);
       ("insights", PNone);
       ("recommendations", PNone)] in
  Str.endswith (py ".csv") (filename file) = true →
  (open_write file_path (file_contents file) w).1 = Ok tt →
  upload_csv uuid4 file w
  = (Ok (list_to_map
           [("analysis_id", PStr uuid4);
            ("message", PStr (py "File uploaded successfully. Analysis started."));
            ("status", PStr (py "processing"))]),
     mkWorld (<[file_path := File (file_contents file)]> (fs w))
             (churn_analyses w ++ [record])
             (environ w) (clock w) (next_oid w + 1)
             (scheduled w ++ [Task uuid4 file_path (filename file)])
             (awaiting w)).
Proof.
  intros file_path record Hcsv Hfs. unfold upload_csv. rewrite Hcsv.
  cbn [negb]. unfold try_except, bind. cbv zeta. fold file_path.
  rewrite (open_write_ok _ _ _ Hfs). reflexivity.
Qed.

(** An upload that is not accepted leaves the collection and the tasks as
    they were. *)
Lemma upload_csv_refused (uuid4 : str) (file : UploadFile) (w : World) (e : exn) :
  (upload_csv uuid4 file w).1 = Raise e →
  (upload_csv uuid4 file w).2 = w.
Proof.
  unfold upload_csv. destruct (Str.endswith _ _); cbn [negb]; [|done].
  unfold try_except, bind. cbv zeta.
  destruct (open_write_cases (path_join UPLOAD_DIR (uuid4 ++ py "_" ++ filename file))
              (file_contents file) w) as [-> | [e' ->]]; done.
Qed.

(** ** The analyzer, end to end *)

(** A field a [$set] writes. *)
Lemma set_field (fields d : document) (k : string) (v : pyval) :
  fields !! k = Some v → (fields ∪ d) !! k = Some v.
Proof. apply lookup_union_Some_l. Qed.

(** A field a [$set] does not mention keeps its value. *)
Lemma set_other_field (l : list (string * pyval)) (d : document) (k : string) :
  k ∉ l.*1 → ((list_to_map l : document) ∪ d) !! k = d !! k.
Proof. intros H. apply lookup_union_r. by apply not_elem_of_list_to_map_1. Qed.

Section Analyzer.

Variable pd_read_csv : option node → exn + N.
Variable send_message : World → ChatRequest → exn + str.

(** The analyzer when the model has answered with [response]. *)
Lemma analyze_churn_data_answered (analysis_id file_path name key response : str)
    (n : N) (w : World) :
  pd_read_csv (fs w !! file_path) = inr n →
  environ w !! "GEMINI_API_KEY" = Some key →
  truthy (Some key) = true →
  send_message w (chat_request key analysis_id n file_path) = inr response →
  analyze_churn_data pd_read_csv send_message analysis_id file_path name w
  = try_except (analyze_response analysis_id n response)
      (analyze_failed analysis_id) w.
Proof.
  intros Hcsv Hkey Ht Hsend. unfold analyze_churn_data, try_except, bind.
  rewrite (analyze_prepare_ok _ _ _ key _ n Hcsv Hkey) by (by destruct key).
  unfold chat_send_message. cbn [fst snd]. by rewrite Hsend.
Qed.



(** As embedded here the analyzer never raises: the handler of its outer
    [try] takes every exception of its body. *)
Lemma analyze_churn_data_returns (analysis_id file_path name : str) (w : World) :
  (analyze_churn_data pd_read_csv send_message analysis_id file_path name w).1
  = Ok tt.
Proof.
  unfold analyze_churn_data, try_except.
  destruct (bind _ _ w) as [[[]|e] w']; [done|].
  reflexivity.
Qed.

(** The analyzer without a key: the record is [failed] with the text of
    the exception, that of the reader of the table when it raised first. *)
Lemma analyze_churn_data_no_key (analysis_id file_path name : str) (w : World) :
  truthy (environ w !! "GEMINI_API_KEY") = false →
  analyze_churn_data pd_read_csv send_message analysis_id file_path name w
  = (Ok tt,
     set_churn_analyses
       (update_first analysis_id (λ d,
          list_to_map
            [("status", PStr (py "failed"));
             ("error",
              PStr (match pd_read_csv (fs w !! file_path) with
                    | inl e => exn_text e
                    | inr _ => py "GEMINI_API_KEY not found in environment variables"
                    end));
             ("completed_at", PDatetime (clock w))] ∪ d)) w).
Proof.
  intros Hk. unfold analyze_churn_data, try_except, bind.
  destruct (pd_read_csv (fs w !! file_path)) as [e|n] eqn:Hcsv.
  - by rewrite (analyze_prepare_csv_fails _ _ _ _ e Hcsv).
  - by rewrite (analyze_prepare_no_key _ _ _ _ n Hcsv Hk).
Qed.

Lemma first_match_app_last (analysis_id : str) (c : list document) (d : document) :
  d !! "analysis_id" = Some (PStr analysis_id) →
  is_Some (first_match analysis_id (c ++ [d])).
Proof.
  intros Hd%matches_spec. unfold first_match. rewrite filter_app.
  destruct (filter _ c) as [|d0 l]; simpl; [|by eexists].
  rewrite filter_cons, decide_True by done. by eexists.
Qed.

(** C9. An upload with a [.csv] name whose file the disk takes is answered
    with success and status [processing], whatever the environment holds;
    its task is queued and its record stored. Whenever that task then runs
    in a world without [GEMINI_API_KEY] in which the record is still
    stored, the analyzer returns normally (no exception leaves the task)
    and the record is [failed], with the text of the exception in [error]
    and the time of completion. *)
Theorem missing_key_fails_job (uuid4 : str) (file : UploadFile) (w : World) :
  let file_path := path_join UPLOAD_DIR (uuid4 ++ py "_" ++ filename file) in
  Str.endswith (py ".csv") (filename file) = true →
  (open_write file_path (file_contents file) w).1 = Ok tt →
  ∃ answer w1,
    upload_csv uuid4 file w = (Ok answer, w1)
    ∧ answer !! "status" = Some (PStr (py "processing"))
    ∧ Task uuid4 file_path (filename file) ∈ scheduled w1
    ∧ is_Some (first_match uuid4 (churn_analyses w1))
    ∧ ∀ w' d,
        truthy (environ w' !! "GEMINI_API_KEY") = false →
        first_match uuid4 (churn_analyses w') = Some d →
        ∃ w2 d',
          analyze_churn_data pd_read_csv send_message uuid4 file_path
            (filename file) w' = (Ok tt, w2)
          ∧ first_match uuid4 (churn_analyses w2) = Some d'
          ∧ d' !! "status" = Some (PStr (py "failed"))
          ∧ d' !! "error"
            = Some (PStr (match pd_read_csv (fs w' !! file_path) with
                          | inl e => exn_text e
                          | inr _ =>
                              py "GEMINI_API_KEY not found in environment variables"
                          end))
          ∧ d' !! "completed_at" = Some (PDatetime (clock w')).
Proof.
  intros file_path Hcsv Hfs.
  eexists _, _. split; [by apply upload_csv_ok|].
  split; [reflexivity|]. split; [apply elem_of_app; right; left|].
  split; [by apply first_match_app_last|].
  intros w' d Hk Hd. rewrite analyze_churn_data_no_key by done.
  eexists _, _. split; [reflexivity|]. split.
  { apply first_match_set; [done | reflexivity]. }
  repeat split; apply set_field; reflexivity.
Qed.

End Analyzer.

(** ** What the moves of the server do to the collection *)

Create HintDb store discriminated.

Lemma terminal_completed (fields : document) :
  fields !! "status" = Some (PStr (py "completed")) → terminal fields.
Proof. intros H. by left. Qed.

Lemma terminal_completed_with_errors (fields : document) :
  fields !! "status" = Some (PStr (py "completed_with_errors")) → terminal fields.
Proof. intros H. right. by left. Qed.

Lemma terminal_failed (fields : document) :
  fields !! "status" = Some (PStr (py "failed")) → terminal fields.
Proof. intros H. right. by right. Qed.

#[local] Hint Resolve terminal_completed terminal_completed_with_errors
  terminal_failed : store.
#[local] Hint Constructors store_change : store.

(** The three [$set]s of the analyzer end the job. *)
Ltac solve_terminal_fields :=
  unfold terminal_fields; repeat split;
  first [ reflexivity | eauto with store ].

Lemma analyze_failed_store (analysis_id : str) (e : exn) (w : World) :
  ∃ h, analyze_failed analysis_id e = Some h
       ∧ (h w).1 = Ok tt
       ∧ store_change (clock w) (churn_analyses w) (churn_analyses (h w).2)
       ∧ clock (h w).2 = clock w.
Proof.
  eexists. split; [reflexivity|]. split; [reflexivity|]. split; [|reflexivity].
  unfold bind, datetime_now, update_one. cbn [snd churn_analyses set_churn_analyses].
  apply store_finished. solve_terminal_fields.
Qed.

Lemma py_get_cases (obj : pyval) (key : str) (otherwise : pyval) (w : World) :
  (∃ pairs, obj = PDict pairs
            ∧ py_get obj key otherwise w
              = (Ok (default otherwise (Dict.lookup key pairs)), w))
  ∨ (∃ e, (∀ k o w', py_get obj k o w' = (Raise e, w'))
          ∧ except_JSONDecodeError (A := unit) (λ _, ret tt) e = None).
Proof.
  destruct obj; try (right; eexists; split; [intros; reflexivity | reflexivity]).
  left. by eexists.
Qed.

(** The second half of the analyzer ends the job, or raises and leaves the
    world as it was. *)
Lemma analyze_response_store (analysis_id response : str) (n : N) (w : World) :
  let out := analyze_response analysis_id n response w in
  (out.1 = Ok tt
   ∧ ∃ fields, terminal_fields (clock w) fields
       ∧ out.2 = set_churn_analyses
                   (update_first analysis_id (λ d, fields ∪ d)) w)
  ∨ (∃ e, out = (Raise e, w)).
Proof.
  intros out. subst out.
  destruct (Json.loads (extract_json response)) as [v|text] eqn:Hparse.
  - destruct v;
      try (right; unfold analyze_response, try_except, bind, json_loads;
           rewrite Hparse; eexists; reflexivity).
    left. rewrite (analyze_response_object _ _ _ pairs) by done.
    split; [done|]. eexists. split; [|reflexivity]. solve_terminal_fields.
  - left. rewrite (analyze_response_unparsable _ _ _ text) by done.
    split; [done|]. eexists. split; [|reflexivity]. solve_terminal_fields.
Qed.

Lemma elem_of_update_first (analysis_id : str) (f : document → document)
    (c : list document) (d' : document) :
  d' ∈ update_first analysis_id f c → d' ∈ c ∨ ∃ d, d ∈ c ∧ d' = f d.
Proof.
  induction c as [|d0 c IH]; simpl; [by left|].
  destruct (matches analysis_id d0).
  - intros [->|H]%elem_of_cons.
    + right. exists d0. split; [left | done].
    + left. by right.
  - intros [->|H]%elem_of_cons; [left; left|].
    destruct (IH H) as [?|(d & ? & ?)]; [left; by right|].
    right. exists d. split; [by right | done].
Qed.

Lemma elem_of_delete_first (analysis_id : str) (c : list document) (d : document) :
  d ∈ delete_first analysis_id c → d ∈ c.
Proof.
  induction c as [|d0 c IH]; simpl; [done|].
  destruct (matches analysis_id d0).
  - intros H. by right.
  - intros [->|H]%elem_of_cons; [left | right; by apply IH].
Qed.

Section Moves.

Variable pd_read_csv : option node → exn + N.

Lemma analyze_prepare_world (analysis_id file_path : str) (w : World) :
  (analyze_prepare pd_read_csv analysis_id file_path w).2 = w.
Proof.
  unfold analyze_prepare, bind, read_csv_len, os_environ_get.
  destruct (pd_read_csv _); simpl; [done|]. by destruct (truthy _).
Qed.

Lemma task_start_store (t : task) (w : World) :
  store_change (clock w) (churn_analyses w)
    (churn_analyses (task_start pd_read_csv t w).2).
Proof.
  unfold task_start, try_except, bind.
  pose proof (analyze_prepare_world (task_analysis_id t) (task_file_path t) w) as Hw.
  destruct (analyze_prepare _ _ _ w) as [[a|e] w']; simpl in Hw; subst w'.
  - apply store_unchanged.
  - destruct (analyze_failed_store (task_analysis_id t) e w) as (h & -> & _ & H & _).
    exact H.
Qed.

Lemma task_resume_store (s : suspended) (answer : exn + str) (w : World) :
  store_change (clock w) (churn_analyses w)
    (churn_analyses (task_resume s answer w).2).
Proof.
  unfold task_resume, try_except, bind.
  destruct answer as [e|response]; unfold lift, raise, ret.
  - destruct (analyze_failed_store (task_analysis_id (susp_task s)) e w)
      as (h & -> & _ & H & _). exact H.
  - destruct (analyze_response_store (task_analysis_id (susp_task s)) response
                (susp_total_customers s) w) as [[Hok (fields & Hf & Hw)]|[e He]].
    + destruct (analyze_response _ _ _ w) as [[[]|e] w']; simpl in *; [|done].
      subst w'. by apply store_finished.
    + rewrite He.
      destruct (analyze_failed_store (task_analysis_id (susp_task s)) e w)
        as (h & -> & _ & H & _). exact H.
Qed.

Lemma upload_csv_store (uuid4 : str) (file : UploadFile) (w : World) :
  store_change (clock w) (churn_analyses w)
    (churn_analyses (upload_csv uuid4 file w).2).
Proof.
  destruct (upload_csv uuid4 file w).1 as [a|e] eqn:Hr.
  - destruct (Str.endswith (py ".csv") (filename file)) eqn:Hcsv.
    2: { unfold upload_csv in Hr. by rewrite Hcsv in Hr. }
    assert ((open_write (path_join UPLOAD_DIR (uuid4 ++ py "_" ++ filename file))
               (file_contents file) w).1 = Ok tt) as Hdisk.
    { unfold upload_csv in Hr. rewrite Hcsv in Hr. cbn [negb] in Hr.
      unfold try_except, bind in Hr. cbv zeta in Hr.
      destruct (open_write_cases
                  (path_join UPLOAD_DIR (uuid4 ++ py "_" ++ filename file))
                  (file_contents file) w) as [H | [e H]]; rewrite H in *; done. }
    rewrite upload_csv_ok by done. cbn [snd churn_analyses].
    apply store_inserted; [reflexivity|].
    eexists _, _. repeat split; reflexivity.
  - rewrite (upload_csv_refused _ _ _ e Hr). apply store_unchanged.
Qed.

Lemma delete_analysis_store (analysis_id : str) (w : World) :
  store_change (clock w) (churn_analyses w)
    (churn_analyses (delete_analysis analysis_id w).2).
Proof.
  unfold delete_analysis, bind, find_one.
  destruct (first_match _ _) as [d|]; [|apply store_unchanged].
  destruct (bool_decide _); [apply store_unchanged|].
  unfold try_except, bind, os_path_exists, os_remove, delete_one, ret, raise,
    except_Exception.
  destruct (d !! "file_path") as [[]|]; try apply store_unchanged;
    try apply store_removed.
  destruct (bool_decide _); [|apply store_removed].
  destruct (fs w !! s) as [[]|]; first [apply store_removed | apply store_unchanged].
Qed.

(** Every move of the server changes the collection in one of the four
    ways. *)
Lemma step_store_change (w w' : World) :
  step pd_read_csv w w' →
  store_change (clock w) (churn_analyses w) (churn_analyses w').
Proof.
  intros [w0 uuid4 file|w0 id|w0|w0 id|w0 q1 t q2 Hq|w0 q1 s q2 answer Hq|w0 t Ht].
  - apply upload_csv_store.
  - rewrite get_analysis_status_eq.
    destruct (first_match _ _); apply store_unchanged.
  - apply store_unchanged.
  - apply delete_analysis_store.
  - apply (task_start_store t (set_scheduled _ w0)).
  - apply (task_resume_store s answer (set_awaiting _ w0)).
  - apply store_unchanged.
Qed.

End Moves.

(** ** Invariants of the collection *)

Lemma store_change_Forall (P : document → Prop) (now : Z) (c c' : list document) :
  (∀ r, has_status "processing" r → filed r → P r) →
  (∀ fields d, terminal_fields now fields → P d → P (fields ∪ d)) →
  store_change now c c' → Forall P c → Forall P c'.
Proof.
  intros Hnew Hset Hch Hc. rewrite Forall_forall in *.
  destruct Hch as [|r Hr1 Hr2|id fields Hf|id]; intros d' Hd'.
  - by apply Hc.
  - apply elem_of_app in Hd' as [?|Hd']; [by apply Hc|].
    apply list_elem_of_singleton in Hd' as ->. by apply Hnew.
  - apply elem_of_update_first in Hd' as [?|(d & Hd & ->)]; [by apply Hc|].
    apply Hset; [done | by apply Hc].
  - apply Hc. by eapply elem_of_delete_first.
Qed.

Lemma terminal_set (fields d : document) : terminal fields → terminal (fields ∪ d).
Proof.
  unfold terminal, has_status. intros [H|[H|H]];
    [left | right; left | right; right]; by apply lookup_union_Some_l.
Qed.

(** A record whose job has been ended is terminal and dated. *)
Lemma finished_record (now : Z) (fields d : document) :
  terminal_fields now fields →
  terminal (fields ∪ d) ∧ (fields ∪ d) !! "completed_at" = Some (PDatetime now).
Proof.
  intros (Ht & Hc & _). split; [by apply terminal_set | by apply lookup_union_Some_l].
Qed.



Section Invariants.

Variable pd_read_csv : option node → exn + N.

Lemma reachable_Forall (P : document → Prop) (w : World) :
  (∀ r, has_status "processing" r → filed r → P r) →
  (∀ now fields d, terminal_fields now fields → P d → P (fields ∪ d)) →
  reachable pd_read_csv w → Forall P (churn_analyses w).
Proof.
  intros Hnew Hset. induction 1 as [w (-> & _ & _)|w w' _ IH Hstep]; [constructor|].
  eapply store_change_Forall; [exact Hnew | apply Hset | | exact IH].
  by apply (step_store_change pd_read_csv).
Qed.

(** C6. In every state the server can reach, each record is still
    [processing] or is terminal and carries [completed_at]. And every move
    of the server leaves each record of the collection as it was, files it
    as a new [processing] record, or makes it terminal with [completed_at]
    set to the time of the move. *)
Theorem completion_always_recorded (w : World) :
  reachable pd_read_csv w →
  Forall completion_recorded (churn_analyses w)
  ∧ ∀ w', step pd_read_csv w w' →
      ∀ d', d' ∈ churn_analyses w' →
        d' ∈ churn_analyses w
        ∨ has_status "processing" d'
        ∨ (terminal d' ∧ d' !! "completed_at" = Some (PDatetime (clock w))).
Proof.
  intros Hw. split.
  - apply reachable_Forall; [by left | | done].
    intros now fields d Hf _. right.
    destruct (finished_record now fields d Hf) as [Ht Hc]. eauto.
  - intros w' Hstep d' Hd'.
    destruct (step_store_change _ _ _ Hstep) as [|r Hr1 Hr2|id fields Hf|id].
    + by left.
    + apply elem_of_app in Hd' as [?|Hd']; [by left|].
      apply list_elem_of_singleton in Hd' as ->. right. by left.
    + apply elem_of_update_first in Hd' as [?|(d & Hd & ->)]; [by left|].
      right. right. by apply (finished_record _ _ _ Hf).
    + left. by eapply elem_of_delete_first.
Qed.


End Invariants.

(** ** ListRecent *)

#[local] Instance key_le_transitive : Transitive key_le.
Proof. intros [x|] [y|] [z|]; simpl; try done. lia. Qed.

#[local] Instance key_le_total : Total key_le.
Proof. intros [x|] [y|]; simpl; auto. lia. Qed.

#[local] Instance newest_first_transitive : Transitive newest_first.
Proof. intros x y z Hxy Hyz. unfold newest_first in *. by etrans. Qed.

#[local] Instance newest_first_total : Total newest_first.
Proof. intros x y. unfold newest_first. apply key_le_total. Qed.

Lemma created_at_strip_id (d : document) : created_at (strip_id d) = created_at d.
Proof. unfold created_at. by rewrite strip_id_lookup. Qed.

(** C8. [get_all_analyses] always succeeds and leaves the world as it
    was. Its list is the first twenty of the stored records put in order
    of [created_at], newest first, each without its [_id]: at most twenty
    records, no more than are stored (none for an empty collection),
    sorted by [created_at] descending, and no record left out is newer
    than one that is listed. *)
Theorem list_recent_bounded_sorted (w : World) :
  ∃ rs sorted,
    get_all_analyses w = (Ok rs, w)
    ∧ sorted ≡ₚ churn_analyses w
    ∧ StronglySorted newest_first sorted
    ∧ rs = strip_id <$> take 20 sorted
    ∧ (length rs ≤ 20)%nat
    ∧ (length rs ≤ length (churn_analyses w))%nat
    ∧ StronglySorted newest_first rs
    ∧ ∀ d1 d2, d1 ∈ take 20 sorted → d2 ∈ drop 20 sorted → newest_first d1 d2.
Proof.
  exists (strip_id <$> take 20 (merge_sort newest_first (churn_analyses w))),
    (merge_sort newest_first (churn_analyses w)).
  pose proof (merge_sort_Permutation newest_first (churn_analyses w)) as Hperm.
  pose proof (StronglySorted_merge_sort newest_first (churn_analyses w)) as Hsorted.
  repeat split; try done.
  - rewrite length_fmap, length_take. lia.
  - rewrite length_fmap, length_take, <- (Permutation_length Hperm). lia.
  - apply (StronglySorted_fmap _ newest_first).
    + intros x y. unfold newest_first. by rewrite !created_at_strip_id.
    + rewrite <- (take_drop 20 (merge_sort _ _)) in Hsorted.
      by apply StronglySorted_app_1_l in Hsorted.
  - intros d1 d2 H1 H2. rewrite <- (take_drop 20 (merge_sort _ _)) in Hsorted.
    by eapply StronglySorted_app_1_elem_of.
Qed.

(** ** Stripping and replacing *)














(** ** The fences *)


(** ** White space around a JSON text *)

Section WhiteSpace.

Import Json.

Lemma run_cons (st : state) (i : nat) (c : N) (s : str) :
  run st i (c :: s) = run (step st i c) (S i) s.
Proof. reflexivity. Qed.

Lemma run_rejected (msg : string) (pos : nat) (stack : list frame) (i : nat) (s : str) :
  run (MErr msg pos, stack) i s = (MErr msg pos, stack).
Proof. revert i. induction s as [|c s IH]; intros i; [done|]. by rewrite run_cons. Qed.


Lemma ws_is_space (c : N) : is_ws c = true → Str.isspace c = true.
Proof.
  unfold is_ws. rewrite !orb_true_iff, !N.eqb_eq.
  intros [[[->| ->]| ->]| ->]; reflexivity.
Qed.








































End WhiteSpace.


(** ** The analyzer as two moves of the event loop *)

Section TwoMoves.

Variable pd_read_csv : option node → exn + N.
Variable send_message : World → ChatRequest → exn + str.

(** [analyze_churn_data] run in one piece is its task started and, when
    it reaches the [await], resumed at once with the answer of the model;
    a task that fails before the [await] is over when started. *)
Lemma analyze_churn_data_in_two_moves (analysis_id file_path name : str) (w : World) :
  let t := Task analysis_id file_path name in
  match (analyze_prepare pd_read_csv analysis_id file_path w).1 with
  | Ok (n, request) =>
      task_start pd_read_csv t w
        = (Ok tt, set_awaiting (fun q => q ++ [Suspended t n request]) w)
      ∧ analyze_churn_data pd_read_csv send_message analysis_id file_path name w
        = task_resume (Suspended t n request) (send_message w request) w
  | Raise e =>
      analyze_churn_data pd_read_csv send_message analysis_id file_path name w
      = task_start pd_read_csv t w
  end.
Proof.
  intros t. unfold analyze_churn_data, task_start, task_resume, try_except, bind.
  pose proof (analyze_prepare_world pd_read_csv analysis_id file_path w) as Hw.
  cbn [task_analysis_id task_file_path susp_task susp_total_customers t].
  destruct (analyze_prepare _ _ _ w) as [[[n request]|e] w']; simpl in Hw; subst w';
    cbn [fst snd]; [|done].
  split; [done|]. unfold chat_send_message.
  by destruct (send_message w request).
Qed.

End TwoMoves.

(** ** Delete, then GetStatus *)

Lemma filter_delete_first (analysis_id : str) (c : list document) :
  filter (λ d, matches analysis_id d = true) (delete_first analysis_id c)
  = tail (filter (λ d, matches analysis_id d = true) c).
Proof.
  induction c as [|d c IH]; [done|]. simpl.
  destruct (matches analysis_id d) eqn:Hm.
  - by rewrite filter_cons, decide_True.
  - by rewrite !filter_cons, !decide_False by congruence.
Qed.

Lemma delete_analysis_ok (analysis_id m : str) (w w' : World) :
  delete_analysis analysis_id w = (Ok m, w') →
  churn_analyses w' = delete_first analysis_id (churn_analyses w).
Proof.
  unfold delete_analysis, bind, find_one.
  destruct (first_match _ _) as [d|]; [|done].
  destruct (bool_decide _); [done|].
  unfold try_except, bind, os_path_exists, os_remove, delete_one, ret, raise,
    except_Exception.
  destruct (d !! "file_path") as [[]|]; try done; try (by intros [= _ <-]).
  destruct (bool_decide _); [|by intros [= _ <-]].
  destruct (fs w !! s) as [[]|]; try done. by intros [= _ <-].
Qed.

(** Once the only record with an identifier is deleted, the identifier is
    answered with 404. *)
Lemma status_after_delete (analysis_id m : str) (d : document) (w w' : World) :
  filter (λ d, matches analysis_id d = true) (churn_analyses w) = [d] →
  delete_analysis analysis_id w = (Ok m, w') →
  (get_analysis_status analysis_id w').1
  = Raise (HTTPException 404 (py "Analysis not found")).
Proof.
  intros Hone Hdel. rewrite get_analysis_status_eq.
  unfold first_match. rewrite (delete_analysis_ok _ _ _ _ Hdel).
  by rewrite filter_delete_first, Hone.
Qed.

(** A name with a directory that is not there: the disk refuses the file
    and the upload is answered with 500. *)
Example upload_into_missing_directory :
  (upload_csv sample_id {| filename := py "reports/q1.csv"; file_contents := [] |}
     fresh_world).1
  = Raise (HTTPException 500
             (py "File upload failed: [Errno 2] No such file or directory: '/app/uploads/1b9d6bcd-bbfd-4b2d-9b5d-ab8dfbbd4bed_reports/q1.csv'")).
Proof. reflexivity. Qed.

(** ** The claims on the sample data *)

Example strip_example : Str.strip (py "  ab c ") = py "ab c".
Proof. reflexivity. Qed.

Example replace_example : Str.replace (py "``") (py "-") (py "a`````b") = py "a--`b".
Proof. reflexivity. Qed.

Example endswith_example :
  Str.endswith (py ".csv") (py "test_customers.csv") = true
  ∧ Str.endswith (py ".csv") (py "test.txt") = false
  ∧ Str.endswith (py ".csv") (py "DATA.CSV") = false.
Proof. repeat split; reflexivity. Qed.

Example path_join_example :
  path_join UPLOAD_DIR (sample_id ++ py "_" ++ py "test_customers.csv") = sample_path
  ∧ path_join UPLOAD_DIR (py "id_a//b/./c.csv") = py "/app/uploads/id_a/b/c.csv".
Proof. split; reflexivity. Qed.

Example loads_example :
  Json.loads sample_json
  = Json.Parsed (PDict [(py "total_customers", PInt 5);
                        (py "high_risk_customers", PInt 2)]).
Proof. reflexivity. Qed.

Example loads_nested_example :
  Json.loads (py " [1, -2.5e3, true, null, {}, [NaN]] ")
  = Json.Parsed (PList [PInt 1; PFloat (py "-2.5e3"); PBool true; PNone;
                        PDict []; PList [PFloat (py "NaN")]]).
Proof. reflexivity. Qed.

Example loads_rejects_example :
  Json.loads (py "[1,]")
  = Json.DecodeError (py "Expecting value: line 1 column 4 (char 3)")
  ∧ Json.loads (py "[1 2]")
    = Json.DecodeError (py "Expecting ',' delimiter: line 1 column 4 (char 3)")
  ∧ Json.loads (py "{} x")
    = Json.DecodeError (py "Extra data: line 1 column 4 (char 3)")
  ∧ Json.loads (py "01")
    = Json.DecodeError (py "Extra data: line 1 column 2 (char 1)")
  ∧ Json.loads ([123; 10] ++ py "  'a': 1}")
    = Json.DecodeError
        (py "Expecting property name enclosed in double quotes: line 2 column 3 (char 4)").
Proof. repeat split; reflexivity. Qed.

Example uploaded_world_store : churn_analyses uploaded_world = [sample_record].
Proof. reflexivity. Qed.

(** The sample upload, followed to its end: five customers, two of them
    at high risk, no predictions. *)
Example finished_world_record :
  stored_field "status" sample_id finished_world = Some (PStr (py "completed"))
  ∧ stored_field "total_customers" sample_id finished_world = Some (PInt 5)
  ∧ stored_field "high_risk_customers" sample_id finished_world = Some (PInt 2)
  ∧ stored_field "predictions" sample_id finished_world = Some (PList [])
  ∧ stored_field "completed_at" sample_id finished_world = Some (PDatetime 1000)
  ∧ stored_field "file_path" sample_id finished_world = Some (PStr sample_path).
Proof. repeat split; reflexivity. Qed.

Lemma uploaded_world_reachable : reachable five_rows uploaded_world.
Proof.
  eapply reachable_step; [|apply (step_upload five_rows keyed_world sample_id sample_file)].
  by apply reachable_initial.
Qed.

Lemma finished_world_reachable : reachable five_rows finished_world.
Proof.
  eapply reachable_step;
    [|apply (step_answer five_rows started_world [] sample_suspended []); reflexivity].
  eapply reachable_step;
    [|apply (step_start five_rows uploaded_world [] sample_task []); reflexivity].
  apply uploaded_world_reachable.
Qed.

(** C1 fails where [os.remove] raises: the record of the sample is found,
    the removal of its file raises, and [delete_analysis] answers 500 and
    leaves the record in the store. *)
Lemma delete_blocked_by_failed_removal :
  first_match sample_id (churn_analyses blocked_world) = Some sample_record
  ∧ (os_remove sample_path blocked_world).1
    = Raise (Exception "IsADirectoryError"
               (py "[Errno 21] Is a directory: '" ++ sample_path ++ py "'"))
  ∧ (delete_analysis sample_id blocked_world).1
    = Raise (HTTPException 500
               (py "Failed to delete analysis: [Errno 21] Is a directory: '"
                ++ sample_path ++ py "'"))
  ∧ first_match sample_id
      (churn_analyses (delete_analysis sample_id blocked_world).2)
    = Some sample_record.
Proof. repeat split; reflexivity. Qed.

Lemma delete_unless_removal_fails_witness :
  ((fs uploaded_world !! sample_path = None
    ∨ (os_remove sample_path uploaded_world).1 = Ok tt) →
     delete_analysis sample_id uploaded_world
     = (Ok (py "Analysis deleted successfully"),
        set_churn_analyses (delete_first sample_id)
          (set_fs (fun f => delete sample_path f) uploaded_world)))
  ∧ (∀ e, fs uploaded_world !! sample_path ≠ None →
       (os_remove sample_path uploaded_world).1 = Raise e →
       delete_analysis sample_id uploaded_world
       = (Raise (HTTPException 500
                   (py "Failed to delete analysis: " ++ exn_text e)),
          uploaded_world)).
Proof.
  apply (delete_unless_removal_fails sample_id sample_path sample_record
           uploaded_world); reflexivity.
Defined.





Lemma upload_rejects_other_extensions_witness :
  upload_csv sample_id text_file fresh_world
  = (Raise (HTTPException 400 (py "Only CSV files are allowed")), fresh_world).
Proof.
  apply (upload_rejects_other_extensions sample_id text_file fresh_world).
  reflexivity.
Defined.

Lemma completion_always_recorded_witness :
  Forall completion_recorded (churn_analyses finished_world)
  ∧ ∀ w', step five_rows finished_world w' →
      ∀ d', d' ∈ churn_analyses w' →
        d' ∈ churn_analyses finished_world
        ∨ has_status "processing" d'
        ∨ (terminal d'
           ∧ d' !! "completed_at" = Some (PDatetime (clock finished_world))).
Proof.
  apply (completion_always_recorded five_rows finished_world).
  apply finished_world_reachable.
Defined.

Lemma missing_key_fails_job_witness :
  ∃ answer w1,
    upload_csv sample_id sample_file fresh_world = (Ok answer, w1)
    ∧ answer !! "status" = Some (PStr (py "processing"))
    ∧ Task sample_id sample_path (filename sample_file) ∈ scheduled w1
    ∧ is_Some (first_match sample_id (churn_analyses w1))
    ∧ ∀ w' d,
        truthy (environ w' !! "GEMINI_API_KEY") = false →
        first_match sample_id (churn_analyses w') = Some d →
        ∃ w2 d',
          analyze_churn_data five_rows (answers []) sample_id sample_path
            (filename sample_file) w' = (Ok tt, w2)
          ∧ first_match sample_id (churn_analyses w2) = Some d'
          ∧ d' !! "status" = Some (PStr (py "failed"))
          ∧ d' !! "error"
            = Some (PStr (match five_rows (fs w' !! sample_path) with
                          | inl e => exn_text e
                          | inr _ =>
                              py "GEMINI_API_KEY not found in environment variables"
                          end))
          ∧ d' !! "completed_at" = Some (PDatetime (clock w')).
Proof.
  apply (missing_key_fails_job five_rows (answers []) sample_id sample_file
           fresh_world); reflexivity.
Defined.

(** The sample upload on a server without the key: the job fails with the
    message of the missing key. *)
Example missing_key_example :
  stored_field "status" sample_id unkeyed_failed_world = Some (PStr (py "failed"))
  ∧ stored_field "error" sample_id unkeyed_failed_world
    = Some (PStr (py "GEMINI_API_KEY not found in environment variables"))
  ∧ stored_field "completed_at" sample_id unkeyed_failed_world
    = Some (PDatetime 1000).
Proof. repeat split; reflexivity. Qed.


(** What a client sees of the sample record once its job is done: the
    path of the upload on the server, and no [_id]. *)
Example finished_world_status :
  returned_field "file_path" (get_analysis_status sample_id finished_world).1
    = Some (PStr sample_path)
  ∧ returned_field "status" (get_analysis_status sample_id finished_world).1
    = Some (PStr (py "completed"))
  ∧ returned_field "_id" (get_analysis_status sample_id finished_world).1 = None.
Proof. repeat split; reflexivity. Qed.

Example finished_world_listing :
  (λ rs, (length rs, head rs ≫= (.!! "file_path"), head rs ≫= (.!! "_id")))
    <$> (match (get_all_analyses finished_world).1 with
         | Ok rs => Some rs
         | Raise _ => None
         end)
  = Some (1%nat, Some (PStr sample_path), None).
Proof. reflexivity. Qed.

(** After a successful delete the identifier is answered with 404. *)
Example deleted_then_404 :
  (delete_analysis sample_id uploaded_world).1
    = Ok (py "Analysis deleted successfully")
  ∧ (get_analysis_status sample_id (delete_analysis sample_id uploaded_world).2).1
    = Raise (HTTPException 404 (py "Analysis not found")).
Proof. split; reflexivity. Qed.

(** * More of the server *)

(** ** What a task does to the world *)

Lemma analyze_failed_world (analysis_id : str) (e : exn) (w : World) :
  ∃ h, analyze_failed analysis_id e = Some h
       ∧ h w = (Ok tt,
                set_churn_analyses
                  (update_first analysis_id (λ d,
                     list_to_map
                       [("status", PStr (py "failed"));
                        ("error", PStr (exn_text e));
                        ("completed_at", PDatetime (clock w))] ∪ d)) w).
Proof. eexists. split; reflexivity. Qed.

Section TaskWorld.

Variable pd_read_csv : option node → exn + N.
Variable send_message : World → ChatRequest → exn + str.

Lemma task_resume_world (s : suspended) (answer : exn + str) (w : World) :
  ∃ fields,
    terminal_fields (clock w) fields
    ∧ task_resume s answer w
      = (Ok tt,
         set_churn_analyses
           (update_first (task_analysis_id (susp_task s)) (λ d, fields ∪ d)) w).
Proof.
  unfold task_resume, try_except, bind.
  destruct answer as [e|response]; unfold lift, raise, ret.
  - destruct (analyze_failed_world (task_analysis_id (susp_task s)) e w)
      as (h & -> & ->). eexists; split; [|reflexivity]; solve_terminal_fields.
  - destruct (analyze_response_store (task_analysis_id (susp_task s)) response
                (susp_total_customers s) w) as [[Hok (fields & Hf & Hw)]|[e He]].
    + destruct (analyze_response _ _ _ w) as [[[]|e] w']; simpl in *; [|done].
      subst w'. by eexists.
    + rewrite He.
      destruct (analyze_failed_world (task_analysis_id (susp_task s)) e w)
        as (h & -> & ->). eexists; split; [|reflexivity]; solve_terminal_fields.
Qed.

Lemma task_start_world (t : task) (w : World) :
  (∃ s, susp_task s = t
        ∧ task_start pd_read_csv t w = (Ok tt, set_awaiting (λ q, q ++ [s]) w))
  ∨ (∃ fields,
       terminal_fields (clock w) fields
       ∧ task_start pd_read_csv t w
         = (Ok tt,
            set_churn_analyses
              (update_first (task_analysis_id t) (λ d, fields ∪ d)) w)).
Proof.
  unfold task_start, try_except, bind.
  pose proof (analyze_prepare_world pd_read_csv (task_analysis_id t)
                (task_file_path t) w) as Hw.
  destruct (analyze_prepare _ _ _ w) as [[a|e] w']; simpl in Hw; subst w'.
  - left. by eexists (Suspended t a.1 a.2).
  - right. destruct (analyze_failed_world (task_analysis_id t) e w) as (h & -> & ->).
    eexists; split; [|reflexivity]; solve_terminal_fields.
Qed.

Lemma analyze_churn_data_world (analysis_id file_path name : str) (w : World) :
  ∃ fields,
    terminal_fields (clock w) fields
    ∧ analyze_churn_data pd_read_csv send_message analysis_id file_path name w
      = (Ok tt,
         set_churn_analyses (update_first analysis_id (λ d, fields ∪ d)) w).
Proof.
  unfold analyze_churn_data, try_except, bind.
  pose proof (analyze_prepare_world pd_read_csv analysis_id file_path w) as Hw.
  destruct (analyze_prepare _ _ _ w) as [[a|e] w']; simpl in Hw; subst w'.
  - unfold chat_send_message, lift.
    destruct (send_message w a.2) as [e|response]; unfold raise, ret.
    + destruct (analyze_failed_world analysis_id e w) as (h & -> & ->). eexists; split; [|reflexivity]; solve_terminal_fields.
    + destruct (analyze_response_store analysis_id response a.1 w)
        as [[Hok (fields & Hf & Hw)]|[e He]].
      * destruct (analyze_response _ _ _ w) as [[[]|e] w']; simpl in *; [|done].
        subst w'. by eexists.
      * rewrite He.
        destruct (analyze_failed_world analysis_id e w) as (h & -> & ->).
        eexists; split; [|reflexivity]; solve_terminal_fields.
  - destruct (analyze_failed_world analysis_id e w) as (h & -> & ->). eexists; split; [|reflexivity]; solve_terminal_fields.
Qed.

End TaskWorld.
(** ** One record at a time *)

Lemma length_update_first (analysis_id : str) (f : document → document)
    (c : list document) :
  length (update_first analysis_id f c) = length c.
Proof.
  induction c as [|d c IH]; [done|]. simpl.
  destruct (matches analysis_id d); simpl; by rewrite ?IH.
Qed.

Lemma update_first_lookup_other (analysis_id : str) (f : document → document)
    (c : list document) (i : nat) (d : document) :
  c !! i = Some d → matches analysis_id d = false →
  update_first analysis_id f c !! i = Some d.
Proof.
  revert i. induction c as [|d0 c IH]; intros i Hi Hm; [done|]. simpl.
  destruct i as [|i]; simpl in Hi.
  - injection Hi as ->. by rewrite Hm.
  - destruct (matches analysis_id d0); [done|]. by apply IH.
Qed.

Lemma matches_set (other : str) (fields d : document) :
  fields !! "analysis_id" = None → matches other (fields ∪ d) = matches other d.
Proof. intros H. unfold matches. by rewrite lookup_union_r. Qed.

Lemma matches_two (a b : str) (d : document) :
  matches a d = true → matches b d = true → a = b.
Proof. intros Ha%matches_spec Hb%matches_spec. congruence. Qed.

(** A [$set] under one identifier is not seen under another. *)
Lemma first_match_set_other (analysis_id other : str) (fields : document)
    (c : list document) :
  fields !! "analysis_id" = None → other ≠ analysis_id →
  first_match other (update_first analysis_id (λ d, fields ∪ d) c)
  = first_match other c.
Proof.
  intros Hf Hne. unfold first_match. f_equal.
  induction c as [|d c IH]; [done|]. simpl.
  destruct (matches analysis_id d) eqn:Hm.
  - rewrite !filter_cons.
    assert (matches other d = false) as Ho.
    { destruct (matches other d) eqn:Ho; [|done].
      destruct Hne. by apply (matches_two _ _ d). }
    rewrite !decide_False; [done|by rewrite Ho|by rewrite matches_set, Ho].
  - rewrite !filter_cons. by rewrite IH.
Qed.

Lemma first_match_delete_other (analysis_id other : str) (c : list document) :
  other ≠ analysis_id →
  first_match other (delete_first analysis_id c) = first_match other c.
Proof.
  intros Hne. unfold first_match. f_equal.
  induction c as [|d c IH]; [done|]. simpl.
  destruct (matches analysis_id d) eqn:Hm.
  - rewrite filter_cons, decide_False; [done|].
    intros Ho. destruct Hne. by apply (matches_two _ _ d).
  - rewrite !filter_cons. by rewrite IH.
Qed.

Lemma length_delete_first (analysis_id : str) (c : list document) (d : document) :
  first_match analysis_id c = Some d →
  S (length (delete_first analysis_id c)) = length c.
Proof.
  unfold first_match. induction c as [|d0 c IH]; [done|]. simpl.
  rewrite filter_cons. destruct (matches analysis_id d0) eqn:Hm; [done|].
  rewrite decide_False by congruence. intros H. simpl. by rewrite IH.
Qed.

Section OneRecord.

Variable pd_read_csv : option node → exn + N.
Variable send_message : World → ChatRequest → exn + str.

(** X1. Whatever the reader of the table and the model do,
    [analyze_churn_data] returns normally and changes nothing but the
    first record with its identifier: the disk (the uploaded file stays),
    the environment and the task queues are as before, the collection
    keeps its length, every record with another identifier keeps its
    place and its fields, and when no record has the identifier (it was
    deleted in the meantime) the world is left exactly as it was: the job
    is not created again. *)
Theorem analyzer_touches_only_its_record (analysis_id file_path name : str)
    (w : World) :
  ∃ w',
    analyze_churn_data pd_read_csv send_message analysis_id file_path name w
    = (Ok tt, w')
    ∧ fs w' = fs w ∧ environ w' = environ w
    ∧ scheduled w' = scheduled w ∧ awaiting w' = awaiting w
    ∧ length (churn_analyses w') = length (churn_analyses w)
    ∧ (∀ i d, churn_analyses w !! i = Some d → matches analysis_id d = false →
              churn_analyses w' !! i = Some d)
    ∧ (∀ other, other ≠ analysis_id →
         first_match other (churn_analyses w')
         = first_match other (churn_analyses w))
    ∧ (first_match analysis_id (churn_analyses w) = None → w' = w).
Proof.
  destruct (analyze_churn_data_world pd_read_csv send_message analysis_id
              file_path name w) as (fields & Hf & ->).
  eexists. split; [reflexivity|]. repeat split.
  - apply length_update_first.
  - intros i d. apply update_first_lookup_other.
  - intros other Hne. apply first_match_set_other; [apply Hf | done].
  - intros Hnone. destruct w. unfold set_churn_analyses. simpl in *.
    by rewrite update_first_no_match.
Qed.

End OneRecord.
(** ** Delete, one job at a time *)

(** What a successful [delete_analysis] leaves: the collection without
    the first record of the identifier, and the disk without the file of
    that record. *)
Lemma delete_analysis_world (analysis_id m : str) (w w' : World) :
  delete_analysis analysis_id w = (Ok m, w') →
  m = py "Analysis deleted successfully"
  ∧ ∃ d, first_match analysis_id (churn_analyses w) = Some d
         ∧ ((w' = set_churn_analyses (delete_first analysis_id) w
             ∧ ∀ p, d !! "file_path" = Some (PStr p) → fs w !! p = None)
            ∨ ∃ p c, d !! "file_path" = Some (PStr p)
                     ∧ fs w !! p = Some (File c)
                     ∧ w' = set_churn_analyses (delete_first analysis_id)
                              (set_fs (λ f, delete p f) w)).
Proof.
  unfold delete_analysis, bind, find_one.
  destruct (first_match _ _) as [d|]; [|done].
  destruct (bool_decide _); [done|].
  unfold try_except, bind, os_path_exists, os_remove, delete_one, ret, raise,
    except_Exception.
  destruct (d !! "file_path") as [[| | | |p| | | |]|] eqn:Hp; try done.
  - destruct (bool_decide (is_Some (fs w !! p))) eqn:Hthere.
    + apply bool_decide_eq_true in Hthere as [[c|] Hfs]; rewrite Hfs; [|done].
      intros [= <- <-]. split; [done|]. exists d. split; [done|]. right.
      by exists p, c.
    + apply bool_decide_eq_false in Hthere.
      intros [= <- <-]. split; [done|]. exists d. split; [done|]. left.
      split; [done|]. intros p' Hp'. assert (p' = p) as -> by congruence.
      destruct (fs w !! p) eqn:Hfs; [|done]. destruct Hthere. by eexists.
  - intros [= <- <-]. split; [done|]. exists d. split; [done|]. left.
    split; [done|]. intros p' Hp'. congruence.
Qed.

(** X2. A [delete_analysis] that succeeds removes one record and the file
    that record names, and nothing else: the collection is one record
    shorter, every other identifier is answered as before, the path of the
    record holds nothing afterwards and every other path holds what it
    held, and the task queues are untouched (the analysis still running is
    not cancelled). *)
Theorem delete_affects_one_job (analysis_id m : str) (w w' : World) :
  delete_analysis analysis_id w = (Ok m, w') →
  m = py "Analysis deleted successfully"
  ∧ S (length (churn_analyses w')) = length (churn_analyses w)
  ∧ (∀ other, other ≠ analysis_id →
       first_match other (churn_analyses w')
       = first_match other (churn_analyses w))
  ∧ (∀ d p, first_match analysis_id (churn_analyses w) = Some d →
            d !! "file_path" = Some (PStr p) →
            fs w' !! p = None ∧ ∀ q, q ≠ p → fs w' !! q = fs w !! q)
  ∧ scheduled w' = scheduled w ∧ awaiting w' = awaiting w.
Proof.
  intros H. apply delete_analysis_world in H as (-> & d & Hd & H).
  split; [done|].
  assert (churn_analyses w' = delete_first analysis_id (churn_analyses w)) as Hc.
  { by destruct H as [[-> _]|(p & c & _ & _ & ->)]. }
  rewrite Hc. split; [by apply (length_delete_first _ _ d)|].
  split; [intros other Hne; by apply first_match_delete_other|].
  split.
  - intros d' p Hd' Hp. rewrite Hd in Hd'. injection Hd' as <-.
    destruct H as [[-> Hnone]|(p' & c & Hp' & Hfs & ->)]; simpl.
    + split; [by apply Hnone | done].
    + rewrite Hp in Hp'. injection Hp' as <-.
      split; [apply lookup_delete_eq|]. intros q Hq. by apply lookup_delete_ne.
  - by destruct H as [[-> _]|(p & c & _ & _ & ->)].
Qed.

(** X3. Once the only record of an identifier is deleted, the identifier
    is unknown: [get_analysis_status] and a second [delete_analysis] are
    both answered with 404, and the second delete changes nothing. *)
Theorem deleted_job_is_unknown (analysis_id m : str) (d : document) (w w' : World) :
  filter (λ d, matches analysis_id d = true) (churn_analyses w) = [d] →
  delete_analysis analysis_id w = (Ok m, w') →
  get_analysis_status analysis_id w'
  = (Raise (HTTPException 404 (py "Analysis not found")), w')
  ∧ delete_analysis analysis_id w'
    = (Raise (HTTPException 404 (py "Analysis not found")), w').
Proof.
  intros Hone Hdel.
  assert (first_match analysis_id (churn_analyses w') = None) as Hnone.
  { unfold first_match. rewrite (delete_analysis_ok _ _ _ _ Hdel).
    by rewrite filter_delete_first, Hone. }
  split.
  - rewrite get_analysis_status_eq. by rewrite Hnone.
  - unfold delete_analysis, bind, find_one. by rewrite Hnone.
Qed.
(** ** The moves of the server, on the disk and on the collection *)

Lemma open_write_not_directory (path : str) (contents : list Byte.byte) (w : World) :
  (open_write path contents w).1 = Ok tt → fs w !! path ≠ Some Directory.
Proof.
  unfold open_write. intros H Hd. rewrite Hd in H.
  destruct (dirname path) as [|a l]; [done|].
  by destruct (fs w !! (a :: l)) as [[c|]|].
Qed.

(** An upload is accepted, and then files its record, queues its task and
    writes its file where no directory stands, or it is refused and
    nothing changes. *)
Lemma upload_csv_cases (uuid4 : str) (file : UploadFile) (w : World) :
  let file_path := path_join UPLOAD_DIR (uuid4 ++ py "_" ++ filename file) in
  (Str.endswith (py ".csv") (filename file) = true
   ∧ (open_write file_path (file_contents file) w).1 = Ok tt
   ∧ upload_csv uuid4 file w
     = (Ok (list_to_map
              [("analysis_id", PStr uuid4);
               ("message", PStr (py "File uploaded successfully. Analysis started."));
               ("status", PStr (py "processing"))]),
        mkWorld (<[file_path := File (file_contents file)]> (fs w))
                (churn_analyses w ++ [upload_record uuid4 file w])
                (environ w) (clock w) (next_oid w + 1)
                (scheduled w ++ [Task uuid4 file_path (filename file)])
                (awaiting w)))
  ∨ ∃ e, upload_csv uuid4 file w = (Raise e, w).
Proof.
  intros file_path.
  destruct (upload_csv uuid4 file w) as [[a|e] w'] eqn:Hr.
  - left. destruct (Str.endswith (py ".csv") (filename file)) eqn:Hcsv.
    2: { unfold upload_csv in Hr. by rewrite Hcsv in Hr. }
    assert ((open_write file_path (file_contents file) w).1 = Ok tt) as Hdisk.
    { unfold upload_csv in Hr. rewrite Hcsv in Hr. cbn [negb] in Hr.
      unfold try_except, bind in Hr. cbv zeta in Hr. fold file_path in Hr.
      destruct (open_write_cases file_path (file_contents file) w)
        as [H | [e H]]; rewrite H in *; done. }
    split; [done|]. split; [done|]. rewrite <- Hr. by apply upload_csv_ok.
  - right. exists e. f_equal.
    change w' with (Raise (A := document) e, w').2. rewrite <- Hr.
    apply (upload_csv_refused _ _ _ e). by rewrite Hr.
Qed.

(** A [delete_analysis] that is refused changes nothing. *)
Lemma delete_analysis_refused (analysis_id : str) (e : exn) (w w' : World) :
  delete_analysis analysis_id w = (Raise e, w') → w' = w.
Proof.
  unfold delete_analysis, bind, find_one.
  destruct (first_match _ _) as [d|]; [|by intros [= _ <-]].
  destruct (bool_decide _); [by intros [= _ <-]|].
  unfold try_except, bind, os_path_exists, os_remove, delete_one, ret, raise,
    except_Exception.
  destruct (d !! "file_path") as [[| | | |p| | | |]|]; try by intros [= _ <-].
  destruct (bool_decide _); [|done].
  destruct (fs w !! p) as [[c|]|]; try done; by intros [= _ <-].
Qed.

Section MovesOnDisk.

Variable pd_read_csv : option node → exn + N.

(** One move writes one file where no directory stands, removes one
    file, or leaves the disk alone. *)
Lemma step_fs (w w' : World) :
  step pd_read_csv w w' →
  fs w' = fs w
  ∨ (∃ p c, fs w !! p ≠ Some Directory ∧ fs w' = <[p := File c]> (fs w))
  ∨ (∃ p c, fs w !! p = Some (File c) ∧ fs w' = delete p (fs w)).
Proof.
  intros [w0 uuid4 file|w0 id|w0|w0 id|w0 q1 t q2 Hq|w0 q1 s q2 answer Hq|w0 t Ht].
  - destruct (upload_csv_cases uuid4 file w0) as [(_ & Hd & ->)|[e ->]]; [|by left].
    right. left. eexists _, _. split; [|reflexivity].
    by apply (open_write_not_directory _ (file_contents file)).
  - left. by rewrite get_analysis_status_eq; destruct (first_match _ _).
  - by left.
  - destruct (delete_analysis id w0) as [[m|e] w1] eqn:Hdel.
    + apply delete_analysis_world in Hdel
        as (_ & d & _ & [[-> _]|(p & c & _ & Hfs & ->)]); [by left|].
      right. right. by exists p, c.
    + left. by rewrite (delete_analysis_refused _ _ _ _ Hdel).
  - left. destruct (task_start_world pd_read_csv t (set_scheduled (λ _, q1 ++ q2) w0))
      as [(s & _ & ->)|(fields & _ & ->)]; done.
  - left. destruct (task_resume_world s answer (set_awaiting (λ _, q1 ++ q2) w0))
      as (fields & _ & ->). done.
  - by left.
Qed.



(** X4. The running server never makes, removes or replaces a directory:
    after any number of moves (requests served, tasks started and resumed
    with any answer, in any order) a path holds a directory exactly when
    it did before. An upload is never written over a directory, and a
    delete never removes one. *)
Theorem directories_stay (w w' : World) (p : str) :
  rtc (step pd_read_csv) w w' →
  fs w' !! p = Some Directory ↔ fs w !! p = Some Directory.
Proof.
  induction 1 as [w|w w1 w' Hstep _ IH]; [done|]. rewrite IH.
  apply step_fs in Hstep as [->|[(q & c & Hq & ->)|(q & c & Hq & ->)]]; [done| |].
  - destruct (decide (p = q)) as [->|Hne]; [|by rewrite lookup_insert_ne].
    rewrite lookup_insert_eq. split; [done|]. intros H. by destruct Hq.
  - destruct (decide (p = q)) as [->|Hne]; [|by rewrite lookup_delete_ne].
    rewrite lookup_delete_eq, Hq. split; done.
Qed.

(** X5. A record appears under an identifier only through an upload that
    drew it: when no record has the identifier, after any move none has
    it, unless the move is an accepted upload with that identifier. A job
    deleted while its analysis runs is therefore never created again by
    its task. *)
Theorem records_appear_by_upload_only (analysis_id : str) (w w' : World) :
  step pd_read_csv w w' →
  first_match analysis_id (churn_analyses w) = None →
  first_match analysis_id (churn_analyses w') = None
  ∨ ∃ file answer, upload_csv analysis_id file w = (Ok answer, w').
Proof.
  intros [w0 uuid4 file|w0 id|w0|w0 id|w0 q1 t q2 Hq|w0 q1 s q2 answer Hq|w0 t Ht]
    Hnone.
  - destruct (upload_csv_cases uuid4 file w0) as [(_ & _ & Hup)|[e ->]]; [|by left].
    destruct (decide (uuid4 = analysis_id)) as [->|Hne].
    + right. rewrite Hup. by eexists _, _.
    + left. rewrite Hup. cbn [snd churn_analyses].
      apply first_match_None. intros d [Hd| ->%list_elem_of_singleton]%elem_of_app.
      * by apply (first_match_None analysis_id (churn_analyses w0)).
      * unfold upload_record. intros [= H]. by destruct Hne.
  - left. rewrite get_analysis_status_eq.
    destruct (first_match id _); exact Hnone.
  - by left.
  - left. destruct (delete_analysis id w0) as [[m|e] w1] eqn:Hdel; cbn [snd].
    + rewrite (delete_analysis_ok _ _ _ _ Hdel).
      apply first_match_None. intros d Hd%elem_of_delete_first.
      by apply (first_match_None analysis_id (churn_analyses w0)).
    + by rewrite (delete_analysis_refused _ _ _ _ Hdel).
  - left. destruct (task_start_world pd_read_csv t (set_scheduled (λ _, q1 ++ q2) w0))
      as [(s & _ & ->)|(fields & Hf & ->)]; [done|].
    cbn [snd churn_analyses set_churn_analyses set_scheduled].
    destruct (decide (analysis_id = task_analysis_id t)) as [->|Hne].
    + by rewrite update_first_no_match.
    + rewrite first_match_set_other; [done | apply Hf | done].
  - left. destruct (task_resume_world s answer (set_awaiting (λ _, q1 ++ q2) w0))
      as (fields & Hf & ->).
    cbn [snd churn_analyses set_churn_analyses set_awaiting].
    destruct (decide (analysis_id = task_analysis_id (susp_task s))) as [->|Hne].
    + by rewrite update_first_no_match.
    + rewrite first_match_set_other; [done | apply Hf | done].
  - by left.
Qed.

End MovesOnDisk.
(** ** The path of an upload *)












(** ** Uploads and the directory of the uploads *)





(** ** Start-up *)

Lemma startup_world (w w1 : World) :
  startup w = (Ok tt, w1) →
  w1 = set_fs (λ f, <[UPLOAD_DIR := Directory]> f) w
  ∧ ∀ c, fs w !! UPLOAD_DIR ≠ Some (File c).
Proof.
  unfold startup, mkdir_exist_ok.
  change (dirname UPLOAD_DIR) with (py "/app").
  destruct (fs w !! py "/app") as [[c|]|]; [done| |done].
  destruct (fs w !! UPLOAD_DIR) as [[c|]|] eqn:Hu; [done| |].
  - intros [= <-]. split; [|done]. destruct w. unfold set_fs. simpl in *.
    by rewrite insert_id.
  - by intros [= <-].
Qed.

(** X7. Start-up can be repeated: when it succeeds the directory of the
    uploads is there, every other path holds what it held (the files of
    earlier uploads are kept), the collection and the tasks are untouched,
    and running it again succeeds and changes nothing. *)
Theorem startup_keeps_what_is_there (w w1 : World) :
  startup w = (Ok tt, w1) →
  fs w1 !! UPLOAD_DIR = Some Directory
  ∧ (∀ p, p ≠ UPLOAD_DIR → fs w1 !! p = fs w !! p)
  ∧ churn_analyses w1 = churn_analyses w
  ∧ scheduled w1 = scheduled w ∧ awaiting w1 = awaiting w
  ∧ startup w1 = (Ok tt, w1).
Proof.
  intros H. pose proof H as [-> _]%startup_world.
  split; [apply lookup_insert_eq|].
  split; [intros p Hp; by apply lookup_insert_ne|].
  repeat split. revert H. unfold startup, mkdir_exist_ok.
  change (dirname UPLOAD_DIR) with (py "/app").
  cbn [fs set_fs]. rewrite lookup_insert_eq.
  rewrite lookup_insert_ne by done.
  by destruct (fs w !! py "/app") as [[c|]|].
Qed.

Section AfterStartup.

Variable pd_read_csv : option node → exn + N.


End AfterStartup.
(** ** More answers of the model *)


Section MoreAnswers.

Variable pd_read_csv : option node → exn + N.
Variable send_message : World → ChatRequest → exn + str.

(** The analyzer when its body raised [e] outside the parse. *)
Lemma analyze_failed_record (analysis_id : str) (e : exn) (d : document) (w : World) :
  first_match analysis_id (churn_analyses w) = Some d →
  ∃ h, analyze_failed analysis_id e = Some h ∧
  ∃ w' d',
    h w = (Ok tt, w')
    ∧ first_match analysis_id (churn_analyses w') = Some d'
    ∧ d' !! "status" = Some (PStr (py "failed"))
    ∧ d' !! "error" = Some (PStr (exn_text e))
    ∧ d' !! "completed_at" = Some (PDatetime (clock w))
    ∧ ∀ k, k ∉ ["status"; "error"; "completed_at"] → d' !! k = d !! k.
Proof.
  intros Hd. destruct (analyze_failed_world analysis_id e w) as (h & Hh & Hw).
  exists h. split; [done|]. rewrite Hw. eexists _, _. split; [reflexivity|].
  split; [apply first_match_set; [done | reflexivity]|].
  repeat split; try (apply set_field; reflexivity).
  intros k Hk. by apply set_other_field.
Qed.


(** X10. When the key is set, an exception of the reader of the table or
    of the call to the model ends the job as [failed] with the text of
    that exception and the time of completion; the analyzer itself
    returns normally. *)
Theorem reader_or_model_failure_fails_job (analysis_id file_path name key : str)
    (e : exn) (d : document) (w : World) :
  environ w !! "GEMINI_API_KEY" = Some key →
  truthy (Some key) = true →
  first_match analysis_id (churn_analyses w) = Some d →
  pd_read_csv (fs w !! file_path) = inl e
  ∨ (∃ n, pd_read_csv (fs w !! file_path) = inr n
          ∧ send_message w (chat_request key analysis_id n file_path) = inl e) →
  ∃ w' d',
    analyze_churn_data pd_read_csv send_message analysis_id file_path name w
    = (Ok tt, w')
    ∧ first_match analysis_id (churn_analyses w') = Some d'
    ∧ d' !! "status" = Some (PStr (py "failed"))
    ∧ d' !! "error" = Some (PStr (exn_text e))
    ∧ d' !! "completed_at" = Some (PDatetime (clock w))
    ∧ ∀ k, k ∉ ["status"; "error"; "completed_at"] → d' !! k = d !! k.
Proof.
  intros Hkey Ht Hd H.
  destruct (analyze_failed_record analysis_id e d w Hd)
    as (h & Hh & w' & d' & Hw & Hrest).
  exists w', d'. split; [|exact Hrest]. rewrite <- Hw.
  unfold analyze_churn_data, try_except, bind.
  destruct H as [Hcsv|(n & Hcsv & Hsend)].
  - rewrite (analyze_prepare_csv_fails _ _ _ _ e Hcsv). by rewrite Hh.
  - rewrite (analyze_prepare_ok _ _ _ key _ n Hcsv Hkey) by (by destruct key).
    unfold chat_send_message. cbn [fst snd]. rewrite Hsend. unfold lift, raise.
    by rewrite Hh.
Qed.

End MoreAnswers.
(** ** What fence stripping leaves *)

(** A pattern found in a part of a text is found in the text. *)
Lemma contains_spec (sub s : str) :
  Str.contains sub s = true ↔ ∃ a b, s = a ++ sub ++ b.
Proof.
  induction s as [|c s IH]; simpl.
  - rewrite orb_false_r, startswith_prefix. split.
    + intros [k Hk]. by exists [], k.
    + intros ([|? a] & b & H); [by exists b | done].
  - rewrite orb_true_iff, startswith_prefix, IH. split.
    + intros [[k Hk]|(a & b & ->)]; [by exists [], k | by exists (c :: a), b].
    + intros ([|x a] & b & H); [left; by exists b|].
      right. injection H as _ ->. by exists a, b.
Qed.

Lemma lstrip_suffix (s : str) : ∃ l, s = l ++ Str.lstrip s.
Proof.
  induction s as [|c s [l IH]]; [by exists []|]. simpl.
  destruct (Str.isspace c); [|by exists []].
  exists (c :: l). simpl. by rewrite <- IH.
Qed.

Lemma rstrip_prefix (s : str) : ∃ r, s = Str.rstrip s ++ r.
Proof.
  induction s as [|c s [r IH]]; [by exists []|]. simpl.
  destruct (Str.rstrip s) as [|x t] eqn:E.
  - destruct (Str.isspace c); [exists (c :: s) | exists r]; simpl in *; congruence.
  - exists r. simpl in *. congruence.
Qed.

Lemma contains_strip (sub s : str) :
  Str.contains sub s = false → Str.contains sub (Str.strip s) = false.
Proof.
  intros H. destruct (Str.contains sub (Str.strip s)) eqn:E; [|done].
  apply contains_spec in E as (a & b & E). rewrite <- H. symmetry.
  apply contains_spec. unfold Str.strip in E.
  destruct (rstrip_prefix s) as [r Hr]. destruct (lstrip_suffix (Str.rstrip s)) as [l Hl].
  exists (l ++ a), (b ++ r). rewrite Hr at 1. rewrite Hl at 1. rewrite E.
  by rewrite <- !app_assoc.
Qed.

Lemma startswith_cons (p c : N) (old s : str) :
  Str.startswith (p :: old) (c :: s) = (p =? c) && Str.startswith old s.
Proof. reflexivity. Qed.

Lemma startswith_other (p c : N) (old s : str) :
  p ≠ c → Str.startswith (p :: old) (c :: s) = false.
Proof. intros H. by rewrite startswith_cons, (proj2 (N.eqb_neq p c)). Qed.

(** Three backticks in a row do not survive the removal of every run of
    three. *)
Lemma replace_fences_clean (skip : nat) (s : str) :
  Str.contains [96; 96; 96] (Str.replace_scan [96; 96; 96] [] skip s) = false.
Proof.
  revert skip. induction s as [|c s IH]; intros skip; [by destruct skip|].
  destruct skip as [|k]; [|apply IH]. cbn [Str.replace_scan].
  destruct (Str.startswith [96; 96; 96] (c :: s)) eqn:Hm; [apply IH|].
  cbn [Str.contains]. rewrite IH, orb_false_r.
  destruct (decide (c = 96)) as [->|Hc]; [|by apply startswith_other].
  rewrite startswith_cons. cbn [N.eqb Pos.eqb andb].
  destruct s as [|x s]; [done|]. cbn [Str.replace_scan].
  destruct (decide (x = 96)) as [->|Hx].
  2: { rewrite (startswith_other 96 x) by done. by apply startswith_other. }
  destruct s as [|y s]; [done|].
  assert (96 ≠ y) as Hy.
  { intros <-. change (96 :: 96 :: 96 :: s) with ([96; 96; 96] ++ s) in Hm.
    by rewrite startswith_app in Hm. }
  rewrite (startswith_cons 96 96 _ (y :: s)), (startswith_other 96 y) by done.
  cbn [N.eqb Pos.eqb andb Str.replace_scan].
  rewrite (startswith_other 96 y) by done.
  rewrite startswith_cons. cbn [N.eqb Pos.eqb andb]. by apply startswith_other.
Qed.

(** X11. When the answer, stripped, opens with a fence, what is handed to
    [json.loads] holds no fence marker at all: every run of three
    backticks is taken out, the closing fence as well as any marker
    inside the text. *)
Theorem no_fence_left (response : str) :
  Str.startswith (py "```") (Str.strip response) = true →
  Str.contains (py "```") (extract_json response) = false.
Proof.
  intros H. unfold extract_json. rewrite H.
  destruct (Str.startswith (py "```json") (Str.strip response));
    apply contains_strip, (replace_fences_clean 0).
Qed.
(** ** An answer that opens with prose *)

(** A text whose first character is a letter that opens no literal is
    rejected at its first character. *)
Lemma loads_letter_first (c : N) (rest : str) :
  65 ≤ c ≤ 90 ∨ 97 ≤ c ≤ 122 →
  c ∉ [73; 78; 102; 110; 116] →
  Json.loads (c :: rest)
  = Json.DecodeError (py "Expecting value: line 1 column 1 (char 0)").
Proof.
  intros Hc Hl.
  repeat (apply not_elem_of_cons in Hl as [? Hl]).
  assert (Json.step Json.start 0 c = (Json.MErr "Expecting value" 0, [])) as Hstep.
  { unfold Json.step, Json.start, Json.step_value, Json.is_ws, Json.is_digit.
    repeat match goal with
    | |- context [c =? ?k] => rewrite (proj2 (N.eqb_neq c k)) by lia
    end.
    replace (c <=? 57) with false by (symmetry; apply N.leb_gt; lia).
    by rewrite andb_false_r. }
  unfold Json.loads.
  rewrite startswith_other by lia.
  rewrite run_cons, Hstep, run_rejected. reflexivity.
Qed.

Lemma extract_json_letter_first (response rest : str) (c : N) :
  65 ≤ c ≤ 90 ∨ 97 ≤ c ≤ 122 →
  Str.strip response = c :: rest →
  extract_json response = c :: rest.
Proof.
  intros Hc Hs. unfold extract_json. rewrite Hs.
  change (py "```json") with (96 :: py "``json").
  change (py "```") with (96 :: py "``").
  by rewrite !startswith_other by lia.
Qed.

Section Prose.

Variable pd_read_csv : option node → exn + N.
Variable send_message : World → ChatRequest → exn + str.

(** X12. An answer that opens with prose is not searched for JSON: when
    the first character of the answer, blanks aside, is a letter other
    than those that open [true], [false], [null], [NaN] and [Infinity],
    the job ends as [completed_with_errors] with the error text
    [JSON parsing error: Expecting value: line 1 column 1 (char 0)],
    whatever follows, a fenced JSON object included. *)
Theorem prose_answer_recorded (analysis_id file_path name key response rest : str)
    (c n : N) (d : document) (w : World) :
  pd_read_csv (fs w !! file_path) = inr n →
  environ w !! "GEMINI_API_KEY" = Some key →
  truthy (Some key) = true →
  send_message w (chat_request key analysis_id n file_path) = inr response →
  Str.strip response = c :: rest →
  65 ≤ c ≤ 90 ∨ 97 ≤ c ≤ 122 →
  c ∉ [73; 78; 102; 110; 116] →
  first_match analysis_id (churn_analyses w) = Some d →
  ∃ w' d',
    analyze_churn_data pd_read_csv send_message analysis_id file_path name w
    = (Ok tt, w')
    ∧ first_match analysis_id (churn_analyses w') = Some d'
    ∧ d' !! "status" = Some (PStr (py "completed_with_errors"))
    ∧ d' !! "error"
      = Some (PStr (py "JSON parsing error: Expecting value: line 1 column 1 (char 0)"))
    ∧ d' !! "raw_response" = Some (PStr response).
Proof.
  intros Hcsv Hkey Ht Hsend Hstrip Hc Hl Hd.
  rewrite (analyze_churn_data_answered _ _ _ _ _ key response n w) by auto.
  unfold try_except.
  rewrite (analyze_response_unparsable _ _ _
             (py "Expecting value: line 1 column 1 (char 0)")).
  2: { rewrite (extract_json_letter_first response rest c) by done.
       by apply loads_letter_first. }
  eexists _, _. split; [reflexivity|]. split.
  { apply first_match_set; [done | reflexivity]. }
  repeat split; apply set_field; reflexivity.
Qed.

End Prose.
(** ** The listing and the status of a new job *)

(** X13. [get_all_analyses] leaves no job out while there are at most
    twenty: the listing has as many records as the collection, up to
    twenty; each is a stored record without its [_id]; and with twenty or
    fewer stored, every stored record is listed once. *)
Theorem listing_complete (w : World) :
  ∃ rs,
    get_all_analyses w = (Ok rs, w)
    ∧ length rs = (length (churn_analyses w) `min` 20)%nat
    ∧ (∀ r, r ∈ rs → ∃ d, d ∈ churn_analyses w ∧ r = strip_id d)
    ∧ ((length (churn_analyses w) ≤ 20)%nat →
       rs ≡ₚ strip_id <$> churn_analyses w).
Proof.
  pose proof (merge_sort_Permutation newest_first (churn_analyses w)) as Hperm.
  eexists. split; [reflexivity|]. split; [|split].
  - rewrite length_fmap, length_take, (Permutation_length Hperm). lia.
  - intros r (d & -> & Hd)%list_elem_of_fmap. exists d. split; [|done].
    rewrite <- Hperm. apply (subseteq_take 20). exact Hd.
  - intros Hlen. rewrite take_ge by (rewrite (Permutation_length Hperm); lia).
    by rewrite Hperm.
Qed.

(** X14. A job can be read back as soon as its upload is accepted: under
    an identifier no earlier record has, [get_analysis_status] returns
    the record of the upload without [_id], with status [processing], the
    name of the file, the date of the upload, [None] for each of the five
    result fields, no [error] and no [completed_at], and a [file_path]
    at which the disk holds the uploaded bytes. *)
Theorem uploaded_job_is_processing (uuid4 : str) (file : UploadFile)
    (answer : document) (w w1 : World) :
  upload_csv uuid4 file w = (Ok answer, w1) →
  first_match uuid4 (churn_analyses w) = None →
  ∃ r p,
    get_analysis_status uuid4 w1 = (Ok r, w1)
    ∧ r !! "_id" = None
    ∧ r !! "analysis_id" = Some (PStr uuid4)
    ∧ r !! "status" = Some (PStr (py "processing"))
    ∧ r !! "filename" = Some (PStr (filename file))
    ∧ r !! "created_at" = Some (PDatetime (clock w))
    ∧ Forall (λ k, r !! k = Some PNone)
        ["total_customers"; "high_risk_customers"; "predictions"; "insights";
         "recommendations"]
    ∧ r !! "error" = None ∧ r !! "completed_at" = None
    ∧ r !! "file_path" = Some (PStr p)
    ∧ fs w1 !! p = Some (File (file_contents file)).
Proof.
  intros Hup Hnone.
  destruct (upload_csv_cases uuid4 file w) as [(_ & _ & H)|[e H]];
    rewrite H in Hup; [|done].
  injection Hup as _ <-.
  eexists _, _. rewrite get_analysis_status_eq.
  replace (first_match uuid4 (churn_analyses _))
    with (Some (upload_record uuid4 file w)).
  2: { unfold first_match in *. cbn [churn_analyses]. rewrite filter_app.
       apply head_None in Hnone. rewrite Hnone.
       rewrite filter_cons, decide_True; [reflexivity|].
       by apply matches_spec. }
  split; [reflexivity|]. split; [apply strip_id_no_id|].
  rewrite !strip_id_lookup by done.
  repeat split; try reflexivity.
  - repeat constructor; by rewrite strip_id_lookup.
  - apply lookup_insert_eq.
Qed.
(** ** Records that are still processing *)

Lemma processing_not_terminal (d : document) :
  has_status "processing" d → terminal d → False.
Proof.
  unfold terminal, has_status. intros H [H'|[H'|H']]; rewrite H in H';
    vm_compute in H'; discriminate H'.
Qed.

Section Processing.

Variable pd_read_csv : option node → exn + N.

(** One move on the collection, with the record an upload files. *)
Lemma step_store (w w' : World) :
  step pd_read_csv w w' →
  churn_analyses w' = churn_analyses w
  ∨ (∃ uuid4 file,
       churn_analyses w' = churn_analyses w ++ [upload_record uuid4 file w])
  ∨ (∃ analysis_id fields,
       terminal_fields (clock w) fields
       ∧ churn_analyses w'
         = update_first analysis_id (λ d, fields ∪ d) (churn_analyses w))
  ∨ (∃ analysis_id,
       churn_analyses w' = delete_first analysis_id (churn_analyses w)).
Proof.
  intros [w0 uuid4 file|w0 id|w0|w0 id|w0 q1 t q2 Hq|w0 q1 s q2 answer Hq|w0 t Ht].
  - destruct (upload_csv_cases uuid4 file w0) as [(_ & _ & ->)|[e ->]]; [|by left].
    right. left. by exists uuid4, file.
  - left. by rewrite get_analysis_status_eq; destruct (first_match _ _).
  - by left.
  - destruct (delete_analysis id w0) as [[m|e] w1] eqn:Hdel; cbn [snd].
    + right. right. right. exists id. by apply (delete_analysis_ok _ m w0).
    + left. by rewrite (delete_analysis_refused _ _ _ _ Hdel).
  - destruct (task_start_world pd_read_csv t (set_scheduled (λ _, q1 ++ q2) w0))
      as [(s & _ & ->)|(fields & Hf & ->)]; [by left|].
    right. right. left. by exists (task_analysis_id t), fields.
  - destruct (task_resume_world s answer (set_awaiting (λ _, q1 ++ q2) w0))
      as (fields & Hf & ->).
    right. right. left. by exists (task_analysis_id (susp_task s)), fields.
  - by left.
Qed.

(** X15. In every state the server can reach, a record that is still
    [processing] is as its upload filed it: each of the five result
    fields is [None], and it has no [error], no [raw_response] and no
    [completed_at]. No partial result is ever shown. *)
Theorem processing_shows_no_results (w : World) (d : document) :
  reachable pd_read_csv w →
  d ∈ churn_analyses w →
  has_status "processing" d →
  Forall (λ k, d !! k = Some PNone)
    ["total_customers"; "high_risk_customers"; "predictions"; "insights";
     "recommendations"]
  ∧ Forall (λ k, d !! k = None) ["error"; "raw_response"; "completed_at"].
Proof.
  intros Hreach. revert d.
  induction Hreach as [w (-> & _ & _)|w w' _ IH Hstep]; intros d Hd Hp.
  { by apply elem_of_nil in Hd. }
  destruct (step_store w w' Hstep)
    as [Hc|[(uuid4 & file & Hc)|[(id & fields & Hf & Hc)|(id & Hc)]]];
    rewrite Hc in Hd.
  - by apply IH.
  - apply elem_of_app in Hd as [Hd| ->%list_elem_of_singleton]; [by apply IH|].
    split; repeat constructor.
  - apply elem_of_update_first in Hd as [Hd|(d0 & Hd0 & ->)]; [by apply IH|].
    exfalso. apply (processing_not_terminal _ Hp), terminal_set, Hf.
  - apply IH; [|done]. by eapply elem_of_delete_first.
Qed.

End Processing.

(** ** The answers of the upload *)

(** X16. An upload is answered with 400 exactly when the name of the file
    does not end in [.csv] (in lower case: the test is that of
    [str.endswith]); with such a name it is accepted or answered with 500,
    and whatever is raised while the file is written and the record filed
    comes back as 500 with the text [File upload failed: ] before the text
    of the exception. *)
Theorem upload_400_iff_not_csv (uuid4 : str) (file : UploadFile) (w : World) :
  ((∃ detail, (upload_csv uuid4 file w).1 = Raise (HTTPException 400 detail))
   ↔ Str.endswith (py ".csv") (filename file) = false)
  ∧ (Str.endswith (py ".csv") (filename file) = true →
     (∃ answer, (upload_csv uuid4 file w).1 = Ok answer)
     ∨ ∃ text,
         upload_csv uuid4 file w
         = (Raise (HTTPException 500 (py "File upload failed: " ++ text)), w)).
Proof.
  assert (Str.endswith (py ".csv") (filename file) = true →
          (∃ answer, (upload_csv uuid4 file w).1 = Ok answer)
          ∨ ∃ text,
              upload_csv uuid4 file w
              = (Raise (HTTPException 500 (py "File upload failed: " ++ text)), w))
    as Hcsv.
  { intros Hcsv. unfold upload_csv. rewrite Hcsv. cbn [negb].
    unfold try_except, bind. cbv zeta.
    destruct (open_write_cases
                (path_join UPLOAD_DIR (uuid4 ++ py "_" ++ filename file))
                (file_contents file) w) as [-> | [e ->]].
    - left. by eexists.
    - right. by exists (exn_text e). }
  split; [|exact Hcsv]. split.
  - intros [detail H]. destruct (Str.endswith _ _) eqn:E; [|done].
    destruct (Hcsv eq_refl) as [[a Ha]|[text Ht]].
    + by rewrite Ha in H.
    + rewrite Ht in H. by injection H.
  - intros E. unfold upload_csv. rewrite E. by eexists.
Qed.

(** ** The end points that only read *)

(** X17. The [GET] end points only read: [root], [health_check],
    [download_sample_csv], [get_analysis_status] and [get_all_analyses] leave the disk, the
    collection, the environment and the tasks exactly as they were,
    whether they succeed or answer 404; and [health_check] answers
    [healthy] with the current time in every state of the collection, the
    empty one included. *)
Theorem get_end_points_only_read (analysis_id : str) (w : World) :
  (root w).2 = w
  ∧ (download_sample_csv w).2 = w
  ∧ (get_analysis_status analysis_id w).2 = w
  ∧ (get_all_analyses w).2 = w
  ∧ health_check w
    = (Ok (list_to_map
             [("status", PStr (py "healthy")); ("timestamp", PDatetime (clock w))]),
       w).
Proof.
  split; [done|]. split; [done|]. split; [|split; done].
  rewrite get_analysis_status_eq. by destruct (first_match _ _).
Qed.
(** ** The properties above on the sample data *)

Lemma delete_affects_one_job_witness :
  py "Analysis deleted successfully" = py "Analysis deleted successfully"
  ∧ S (length (churn_analyses deleted_world))
    = length (churn_analyses uploaded_world)
  ∧ (∀ other, other ≠ sample_id →
       first_match other (churn_analyses deleted_world)
       = first_match other (churn_analyses uploaded_world))
  ∧ (∀ d p, first_match sample_id (churn_analyses uploaded_world) = Some d →
            d !! "file_path" = Some (PStr p) →
            fs deleted_world !! p = None
            ∧ ∀ q, q ≠ p → fs deleted_world !! q = fs uploaded_world !! q)
  ∧ scheduled deleted_world = scheduled uploaded_world
  ∧ awaiting deleted_world = awaiting uploaded_world.
Proof.
  apply (delete_affects_one_job sample_id (py "Analysis deleted successfully")
           uploaded_world deleted_world).
  reflexivity.
Defined.

Lemma deleted_job_is_unknown_witness :
  get_analysis_status sample_id deleted_world
  = (Raise (HTTPException 404 (py "Analysis not found")), deleted_world)
  ∧ delete_analysis sample_id deleted_world
    = (Raise (HTTPException 404 (py "Analysis not found")), deleted_world).
Proof.
  apply (deleted_job_is_unknown sample_id (py "Analysis deleted successfully")
           sample_record uploaded_world deleted_world); reflexivity.
Defined.

Lemma directories_stay_witness :
  fs uploaded_world !! UPLOAD_DIR = Some Directory
  ↔ fs keyed_world !! UPLOAD_DIR = Some Directory.
Proof.
  apply (directories_stay five_rows keyed_world uploaded_world UPLOAD_DIR).
  apply rtc_once.
  exact (step_upload five_rows keyed_world sample_id sample_file).
Defined.

Lemma records_appear_by_upload_only_witness :
  first_match sample_id (churn_analyses uploaded_world) = None
  ∨ ∃ file answer,
      upload_csv sample_id file keyed_world = (Ok answer, uploaded_world).
Proof.
  apply (records_appear_by_upload_only five_rows sample_id keyed_world
           uploaded_world).
  - exact (step_upload five_rows keyed_world sample_id sample_file).
  - reflexivity.
Defined.



Lemma startup_keeps_what_is_there_witness :
  fs (startup bare_world).2 !! UPLOAD_DIR = Some Directory
  ∧ (∀ p, p ≠ UPLOAD_DIR → fs (startup bare_world).2 !! p = fs bare_world !! p)
  ∧ churn_analyses (startup bare_world).2 = churn_analyses bare_world
  ∧ scheduled (startup bare_world).2 = scheduled bare_world
  ∧ awaiting (startup bare_world).2 = awaiting bare_world
  ∧ startup (startup bare_world).2 = (Ok tt, (startup bare_world).2).
Proof.
  apply (startup_keeps_what_is_there bare_world (startup bare_world).2).
  reflexivity.
Defined.




Lemma reader_or_model_failure_fails_job_witness :
  ∃ w' d',
    analyze_churn_data five_rows unreachable_model sample_id sample_path
      (py "test_customers.csv") uploaded_world
    = (Ok tt, w')
    ∧ first_match sample_id (churn_analyses w') = Some d'
    ∧ d' !! "status" = Some (PStr (py "failed"))
    ∧ d' !! "error"
      = Some (PStr (exn_text (Exception "ConnectionError" (py "model unreachable"))))
    ∧ d' !! "completed_at" = Some (PDatetime (clock uploaded_world))
    ∧ ∀ k, k ∉ ["status"; "error"; "completed_at"] → d' !! k = sample_record !! k.
Proof.
  apply (reader_or_model_failure_fails_job five_rows unreachable_model
           sample_id sample_path (py "test_customers.csv") (py "secret")
           (Exception "ConnectionError" (py "model unreachable"))
           sample_record uploaded_world); try reflexivity.
  right. exists 5. split; reflexivity.
Defined.

Lemma no_fence_left_witness :
  Str.contains (py "```") (extract_json (fenced (py "json") fence_inside)) = false.
Proof.
  apply (no_fence_left (fenced (py "json") fence_inside)). reflexivity.
Defined.

Lemma prose_answer_recorded_witness :
  ∃ w' d',
    analyze_churn_data five_rows (answers (py "Here is the analysis: {}"))
      sample_id sample_path (py "test_customers.csv") uploaded_world
    = (Ok tt, w')
    ∧ first_match sample_id (churn_analyses w') = Some d'
    ∧ d' !! "status" = Some (PStr (py "completed_with_errors"))
    ∧ d' !! "error"
      = Some (PStr (py "JSON parsing error: Expecting value: line 1 column 1 (char 0)"))
    ∧ d' !! "raw_response" = Some (PStr (py "Here is the analysis: {}")).
Proof.
  apply (prose_answer_recorded five_rows (answers (py "Here is the analysis: {}"))
           sample_id sample_path (py "test_customers.csv") (py "secret")
           (py "Here is the analysis: {}") (py "ere is the analysis: {}")
           72 5 sample_record uploaded_world); try reflexivity.
  - left. lia.
  - apply (bool_decide_unpack _). vm_compute. exact I.
Defined.

Lemma uploaded_job_is_processing_witness :
  ∃ r p,
    get_analysis_status sample_id uploaded_world = (Ok r, uploaded_world)
    ∧ r !! "_id" = None
    ∧ r !! "analysis_id" = Some (PStr sample_id)
    ∧ r !! "status" = Some (PStr (py "processing"))
    ∧ r !! "filename" = Some (PStr (filename sample_file))
    ∧ r !! "created_at" = Some (PDatetime (clock keyed_world))
    ∧ Forall (λ k, r !! k = Some PNone)
        ["total_customers"; "high_risk_customers"; "predictions"; "insights";
         "recommendations"]
    ∧ r !! "error" = None ∧ r !! "completed_at" = None
    ∧ r !! "file_path" = Some (PStr p)
    ∧ fs uploaded_world !! p = Some (File (file_contents sample_file)).
Proof.
  apply (uploaded_job_is_processing sample_id sample_file
           (list_to_map
              [("analysis_id", PStr sample_id);
               ("message", PStr (py "File uploaded successfully. Analysis started."));
               ("status", PStr (py "processing"))])
           keyed_world uploaded_world); reflexivity.
Defined.

Lemma processing_shows_no_results_witness :
  Forall (λ k, sample_record !! k = Some PNone)
    ["total_customers"; "high_risk_customers"; "predictions"; "insights";
     "recommendations"]
  ∧ Forall (λ k, sample_record !! k = None)
      ["error"; "raw_response"; "completed_at"].
Proof.
  apply (processing_shows_no_results five_rows uploaded_world sample_record).
  - apply uploaded_world_reachable.
  - left.
  - reflexivity.
Defined.

(** ** The paths the server touches *)

Section Paths.

Variable pd_read_csv : option node → exn + N.


End Paths.

(** * The tester *)

Section TesterFacts.

Variable o : Outside.

(** [run_test], case by case. *)
Lemma run_test_eq (name method endpoint : str) (expected_status : Z)
    (data : pyval) (files : Files) (t : Tester) (n : Net o) :
  let ran := mkTester (base_url t) (S (tests_run t)) (tests_passed t)
                      (self_analysis_id t) in
  let passed := mkTester (base_url t) (S (tests_run t)) (S (tests_passed t))
                         (self_analysis_id t) in
  run_test o name method endpoint expected_status data files (t, n)
  = match request_for o method (base_url t ++ py "/" ++ endpoint) data files with
    | None => (Ok (false, PDict []), (ran, n))
    | Some request =>
        match requests_send o request n with
        | (inl _, n') => (Ok (false, PDict []), (ran, n'))
        | (inr response, n') =>
            if (status_code response =? expected_status)%Z
            then (Ok (true, default (PDict []) (response_json response)),
                  (passed, n'))
            else (Ok (false, PDict []), (ran, n'))
        end
    end.
Proof.
  intros ran passed. unfold run_test, tbind, ttry, self, set_self, send.
  cbn [fst snd].
  destruct (request_for _ _ _ _ _) as [request|]; [|done].
  cbn [fst snd]. destruct (requests_send o request n) as [[e|response] n']; [done|].
  by destruct (status_code response =? expected_status)%Z.
Qed.

(** X19. [run_test] never raises and counts every call: the counter of
    the tests goes up by one, that of the passed tests by one exactly
    when the verdict is success, and the verdict is success exactly when
    the method is [GET], [POST] or [DELETE] and the request was answered
    (no exception of [requests]) with the expected status. A failed test
    returns the empty [dict], whatever the body; the address of the
    server and the stored identifier are left alone. *)
Theorem run_test_verdict (name method endpoint : str) (expected_status : Z)
    (data : pyval) (files : Files) (s : Tester * Net o) :
  ∃ success body s',
    run_test o name method endpoint expected_status data files s
    = (Ok (success, body), s')
    ∧ tests_run s'.1 = S (tests_run s.1)
    ∧ tests_passed s'.1
      = (if success then S (tests_passed s.1) else tests_passed s.1)
    ∧ base_url s'.1 = base_url s.1
    ∧ self_analysis_id s'.1 = self_analysis_id s.1
    ∧ (success = true
       ↔ ∃ request response,
           request_for o method (base_url s.1 ++ py "/" ++ endpoint) data files
           = Some request
           ∧ requests_send o request s.2 = (inr response, s'.2)
           ∧ status_code response = expected_status)
    ∧ (success = false → body = PDict []).
Proof.
  destruct s as [t n]. rewrite run_test_eq. cbn [fst snd].
  destruct (request_for _ _ _ _ _) as [request|] eqn:Hreq.
  2: { eexists _, _, _. split; [reflexivity|]. repeat split; try done.
       by intros (? & ? & ? & _). }
  destruct (requests_send o request n) as [[e|response] n'] eqn:Hsend.
  { eexists _, _, _. split; [reflexivity|]. repeat split; try done.
    intros (r & resp & [= <-] & H & _). by rewrite Hsend in H. }
  destruct (status_code response =? expected_status)%Z eqn:Hst.
  - eexists _, _, _. split; [reflexivity|]. repeat split; try done.
    intros _. exists request, response. repeat split; try done.
    by apply Z.eqb_eq.
  - eexists _, _, _. split; [reflexivity|]. repeat split; try done.
    intros (r & resp & [= <-] & H & Hc). rewrite Hsend in H.
    assert (resp = response) as -> by congruence.
    apply Z.eqb_neq in Hst. by destruct Hst.
Qed.

(** One call of [run_test] counts as one test. *)
Lemma run_test_counted (name method endpoint : str) (expected_status : Z)
    (data : pyval) (files : Files) (s : Tester * Net o) :
  ∃ r s',
    run_test o name method endpoint expected_status data files s = (Ok r, s')
    ∧ counted 1 1 s s'
    ∧ self_analysis_id s'.1 = self_analysis_id s.1.
Proof.
  destruct s as [t n]. rewrite run_test_eq. cbn [fst snd]. unfold counted.
  destruct (request_for _ _ _ _ _) as [request|];
    [destruct (requests_send o request n) as [[e|response] n'];
     [|destruct (status_code response =? expected_status)%Z]|];
    eexists _, _; (split; [reflexivity|]); cbn [fst snd tests_run tests_passed];
    repeat split; lia.
Qed.

End TesterFacts.

(** ** Counting the tests *)

Lemma counted_refl {N : Type} (s : Tester * N) : counted 0 0 s s.
Proof. unfold counted. repeat split; lia. Qed.

Lemma counted_trans {N : Type} (a b c d : nat) (s s1 s2 : Tester * N) :
  counted a b s s1 → counted c d s1 s2 → counted (a + c) (b + d) s s2.
Proof.
  unfold counted. intros (? & ? & ? & ? & ?) (? & ? & ? & ? & ?).
  repeat split; try lia. congruence.
Qed.

Lemma counted_weaken {N : Type} (a b a' b' : nat) (s s' : Tester * N) :
  counted a b s s' → (a' ≤ a)%nat → (b ≤ b')%nat → counted a' b' s s'.
Proof. unfold counted. intros (? & ? & ? & ? & ?) ? ?. repeat split; try lia. done. Qed.

Lemma spec_weaken {N A : Type} (lo hi lo' hi' : nat) (Q Q' : A → Prop)
    (m : Tester * N → result A * (Tester * N)) :
  spec lo hi Q m → (lo' ≤ lo)%nat → (hi ≤ hi')%nat → (∀ a, Q a → Q' a) →
  spec lo' hi' Q' m.
Proof.
  intros H Hlo Hhi HQ s r s' Hm. destruct (H s r s' Hm) as [Hc Hok]. split.
  - by apply (counted_weaken 0 hi).
  - intros a Ha. destruct (Hok a Ha) as [Hc' Hq]. split; [|by apply HQ].
    by apply (counted_weaken lo hi).
Qed.

Section Counting.

Variable o : Outside.

Lemma spec_tret {A} (Q : A → Prop) (a : A) : Q a → spec 0 0 Q (tret o a).
Proof.
  intros Hq s r s' [= <- <-]. split; [apply counted_refl|].
  intros a' [= <-]. split; [apply counted_refl | done].
Qed.

Lemma spec_tlift {A} (r : exn + A) : spec 0 0 (λ a, r = inr a) (tlift o r).
Proof.
  intros s r' s' H. destruct r as [e|a]; injection H as <- <-;
    (split; [apply counted_refl|]); [done|].
  intros a' [= <-]. split; [apply counted_refl | done].
Qed.

Lemma spec_self : spec 0 0 (λ _, True) (self o).
Proof.
  intros s r s' [= <- <-]. split; [apply counted_refl|].
  intros a _. split; [apply counted_refl | done].
Qed.

Lemma spec_tbind {A B} (a b c d : nat) (Q : A → Prop) (R : B → Prop)
    (m : T o A) (k : A → T o B) :
  spec a b Q m → (∀ x, Q x → spec c d R (k x)) →
  spec (a + c) (b + d) R (tbind o m k).
Proof.
  intros Hm Hk s r s' H. unfold tbind in H.
  destruct (m s) as [[x|e] s1] eqn:Em.
  - destruct (Hm s _ _ Em) as [_ Hx]. destruct (Hx x eq_refl) as [Hc Hq].
    destruct (Hk x Hq s1 r s' H) as [Hc' Hok]. split.
    + apply (counted_weaken 0 (b + d)); [|lia..].
      apply (counted_trans 0 b 0 d _ s1); [|done].
      apply (counted_weaken a b); [done|lia..].
    + intros y Hy. destruct (Hok y Hy) as [Hc2 Hr]. split; [|done].
      by apply (counted_trans a b c d _ s1).
  - injection H as <- <-. destruct (Hm s _ _ Em) as [Hc _]. split; [|done].
    apply (counted_weaken 0 b); [done|lia..].
Qed.

Lemma spec_run_test (name method endpoint : str) (expected_status : Z)
    (data : pyval) (files : Files) :
  spec 1 1 (λ _, True)
    (run_test o name method endpoint expected_status data files).
Proof.
  intros s r s' H.
  destruct (run_test_counted o name method endpoint expected_status data files s)
    as (r0 & s0 & H0 & Hc & _).
  rewrite H0 in H. injection H as <- <-. split.
  - apply (counted_weaken 1 1); [done|lia..].
  - intros a _. done.
Qed.

End Counting.

(** ** Polling *)

Section Polling.

Variable o : Outside.

(** The clock does not go back while a request is out, and [time.sleep]
    lasts at least as long as asked. *)
Hypothesis requests_take_time :
  ∀ request n, (time_time o n ≤ time_time o (requests_send o request n).2)%Z.
Hypothesis sleep_lasts :
  ∀ d n, (time_time o n + d ≤ time_time o (time_sleep o d n))%Z.

Lemma test_analysis_status_step (analysis_id : pyval) (s : Tester * Net o) :
  ∃ r s1,
    test_analysis_status o analysis_id s = (Ok r, s1)
    ∧ counted 0 1 s s1
    ∧ (time_time o s.2 ≤ time_time o s1.2)%Z.
Proof.
  unfold test_analysis_status. destruct (py_bool o analysis_id); cbn [negb].
  2: { eexists _, _. split; [reflexivity|]. split; [|done].
       apply (counted_weaken 0 0); [apply counted_refl|lia..]. }
  destruct s as [t n]. rewrite run_test_eq. cbn [fst snd].
  destruct (request_for _ _ _ _ _) as [request|].
  2: { eexists _, _. split; [reflexivity|]. split; [|done].
       unfold counted. cbn. repeat split; lia. }
  pose proof (requests_take_time request n) as Ht.
  destruct (requests_send o request n) as [[e|response] n'];
    [|destruct (status_code response =? 200)%Z];
    eexists _, _; (split; [reflexivity|]); (split; [|exact Ht]);
    unfold counted; cbn; repeat split; lia.
Qed.

Lemma is_text_eq (v : pyval) (text : string) :
  is_text v text = true → v = PStr (py text).
Proof.
  destruct v; try done. unfold is_text. intros H%bool_decide_eq_true. by subst.
Qed.

Lemma poll_spec (fuel : nat) (analysis_id : pyval) (start_time max_wait_time : Z)
    (s : Tester * Net o) (r : result (option (bool * pyval))) (s' : Tester * Net o) :
  (1 ≤ fuel)%nat →
  (max_wait_time * 1000000 - (time_time o s.2 - start_time)
   ≤ 5000000 * (Z.of_nat fuel - 1))%Z →
  poll o fuel analysis_id start_time max_wait_time s = (r, s') →
  counted 0 (fuel - 1) s s' ∧ ∀ c, r = Ok c → polled c.
Proof.
  revert s. induction fuel as [|fuel IH]; intros s Hfuel Htime; [lia|].
  cbn [poll]. unfold tbind at 1, now. cbn [fst snd].
  destruct (time_time o s.2 - start_time <? max_wait_time * 1000000)%Z eqn:Hc.
  2: { intros [= <- <-]. split.
       - apply (counted_weaken 0 0); [apply counted_refl|lia..].
       - intros c [= <-]. by exists false, (PDict []). }
  apply Z.ltb_lt in Hc.
  assert (∀ s1, counted 0 1 s s1 → (time_time o s.2 ≤ time_time o s1.2)%Z →
            tbind o (sleep o 5)
              (λ _, poll o fuel analysis_id start_time max_wait_time) s1 = (r, s') →
            counted 0 (S fuel - 1) s s' ∧ ∀ c, r = Ok c → polled c) as Hagain.
  { intros s1 Hc1 Ht1. unfold tbind, sleep. cbn [fst snd]. intros Hp.
    pose proof (sleep_lasts (5 * 1000000) s1.2) as Hs.
    apply IH in Hp as [Hc2 Hq]; [|lia|cbn [snd]; lia]. split; [|done].
    apply (counted_weaken (0 + 0) (1 + (fuel - 1))); [|lia..].
    apply (counted_trans 0 1 0 (fuel - 1) _ (s1.1, time_sleep o (5 * 1000000) s1.2));
      [|done].
    destruct Hc1 as (? & ? & ? & ? & ?). by repeat split. }
  unfold tbind at 1.
  destruct (test_analysis_status_step analysis_id s) as (r1 & s1 & -> & Hc1 & Ht1).
  destruct (r1.1 && py_bool o r1.2) eqn:Hsucc; [|by apply Hagain].
  unfold tbind at 1.
  destruct (r1.2) as [| | | | | |pairs| |] eqn:Hbody;
    try (intros [= <- <-]; split; [by apply (counted_weaken 0 1); [|lia..]|done]).
  cbn [dict_get tlift tret].
  destruct (is_text (default (PStr (py "unknown")) (Dict.lookup (py "status") pairs))
              "completed") eqn:Hst.
  - apply is_text_eq in Hst.
    assert (Dict.lookup (py "status") pairs = Some (PStr (py "completed"))) as Hstatus.
    { destruct (Dict.lookup (py "status") pairs); [by simpl in Hst; subst|].
      simpl in Hst. by injection Hst. }
    unfold tbind at 1. unfold all_in, py_contains.
    destruct (Dict.lookup (py "total_customers") pairs) as [tc|] eqn:Htc.
    2: { rewrite bool_decide_eq_false_2 by (by intros [? ?]).
         intros [= <- <-]. split; [by apply (counted_weaken 0 1); [|lia..]|].
         intros c [= <-]. by exists false, (PDict pairs). }
    rewrite bool_decide_eq_true_2 by by eexists.
    destruct (Dict.lookup (py "predictions") pairs) as [pr|] eqn:Hpr.
    2: { rewrite bool_decide_eq_false_2 by (by intros [? ?]).
         intros [= <- <-]. split; [by apply (counted_weaken 0 1); [|lia..]|].
         intros c [= <-]. by exists false, (PDict pairs). }
    rewrite bool_decide_eq_true_2 by by eexists.
    cbn [tlift tret]. unfold tbind, tret. cbn [default]. change (id pr) with pr.
    destruct (py_len pr) as [e|n] eqn:Hlen; unfold tlift, traise, tret;
      intros [= <- <-]; (split; [by apply (counted_weaken 0 1); [|lia..]|]); [done|].
    intros c [= <-]. exists true, (PDict pairs). split; [done|]. intros _.
    exists pairs, pr, n. by repeat split.
  - destruct (is_text _ "failed"); [|by apply Hagain].
    unfold tbind, tret. intros [= <- <-].
    split; [by apply (counted_weaken 0 1); [|lia..]|].
    intros c [= <-]. by exists false, (PDict pairs).
Qed.

Lemma completion_spec (analysis_id : pyval) (max_wait_time : Z) :
  spec 0 (Z.to_nat (max_wait_time / 5) + 1) polled
    (test_analysis_completion o analysis_id max_wait_time).
Proof.
  intros s r s'. unfold test_analysis_completion.
  destruct (py_bool o analysis_id); cbn [negb].
  2: { intros [= <- <-]. split.
       - apply (counted_weaken 0 0); [apply counted_refl|lia..].
       - intros c [= <-]. split.
         + apply (counted_weaken 0 0); [apply counted_refl|lia..].
         + by exists false, (PDict []). }
  unfold tbind, now. cbn [fst snd]. intros H.
  apply poll_spec in H as [Hc Hq]; [|lia|].
  - replace (Z.to_nat (max_wait_time / 5) + 2 - 1)%nat
      with (Z.to_nat (max_wait_time / 5) + 1)%nat in Hc by lia.
    split; [done|]. intros c Hr. split; [done | by apply Hq].
  - pose proof (Z.mul_div_le max_wait_time 5) as H1.
    pose proof (Z.mod_pos_bound max_wait_time 5) as H2.
    pose proof (Z.div_mod max_wait_time 5) as H3.
    destruct (decide (0 ≤ max_wait_time)%Z) as [Hpos|Hneg]; [|lia].
    assert (0 ≤ max_wait_time / 5)%Z by (apply Z.div_pos; lia).
    rewrite Nat2Z.inj_add, Z2Nat.id by done. lia.
Qed.

(** X20. [test_analysis_completion] comes to an end: as long as the
    clock does not go back during a request and [time.sleep] lasts as
    long as asked, the loop is left after at most [max_wait_time / 5 + 1]
    status requests (each counted as a test of its own), with a verdict
    or an exception of the body checks; and the verdict is success only
    for a body that is an object with status [completed], with
    [total_customers] and with [predictions] that have a length. *)
Theorem polling_ends (analysis_id : pyval) (max_wait_time : Z)
    (s : Tester * Net o) :
  ∃ outcome s',
    test_analysis_completion o analysis_id max_wait_time s = (outcome, s')
    ∧ outcome ≠ Ok None
    ∧ (tests_run s.1 ≤ tests_run s'.1
       ≤ tests_run s.1 + Z.to_nat (max_wait_time / 5) + 1)%nat
    ∧ (tests_passed s.1 ≤ tests_passed s'.1)%nat
    ∧ (tests_passed s'.1 - tests_passed s.1 ≤ tests_run s'.1 - tests_run s.1)%nat
    ∧ ∀ body, outcome = Ok (Some (true, body)) → accepted_body body.
Proof.
  destruct (test_analysis_completion o analysis_id max_wait_time s)
    as [outcome s'] eqn:H.
  exists outcome, s'. split; [done|].
  destruct (completion_spec analysis_id max_wait_time s outcome s' H)
    as [(H1 & H2 & H3 & H4 & _) Hq].
  split.
  { intros ->. destruct (Hq None eq_refl) as [_ (? & ? & ? & _)]. done. }
  repeat split; try lia.
  intros body ->. destruct (Hq _ eq_refl) as [_ (v & b & [= <- <-] & Hb)].
  by apply Hb.
Qed.

End Polling.

(** ** The body checks *)

Section BodyChecks.

Variable o : Outside.

Lemma is_text_refl (text : string) : is_text (PStr (py text)) text = true.
Proof. unfold is_text. by rewrite bool_decide_eq_true_2. Qed.

(** X21. A completed analysis whose [predictions] have no length stops
    the tester: when the first status request is answered with 200 and
    an object with status [completed], [total_customers] and a
    [predictions] that is [null], a number or a truth value,
    [test_analysis_completion] raises the [TypeError] of [len], after
    the request was counted as a passed test. The server stores such a
    record when the model answers with [predictions] set to [null]. *)
Theorem unsized_predictions_raise (analysis_id : pyval) (max_wait_time : Z)
    (t : Tester) (n n' : Net o) (response : Response)
    (pairs : list (str * pyval)) (predictions : pyval) (e : exn) :
  py_bool o analysis_id = true →
  (0 < max_wait_time)%Z →
  requests_send o
    (requests_get (base_url t ++ py "/" ++ py "api/analysis/"
                   ++ py_format o analysis_id) []) n
  = (inr response, n') →
  status_code response = 200%Z →
  response_json response = Some (PDict pairs) →
  Dict.lookup (py "status") pairs = Some (PStr (py "completed")) →
  is_Some (Dict.lookup (py "total_customers") pairs) →
  Dict.lookup (py "predictions") pairs = Some predictions →
  py_len predictions = inl e →
  test_analysis_completion o analysis_id max_wait_time (t, n)
  = (Raise e,
     (mkTester (base_url t) (S (tests_run t)) (S (tests_passed t))
               (self_analysis_id t), n')).
Proof.
  intros Hid Hmax Hsend Hcode Hjson Hstatus [tc Htc] Hpr Hlen.
  unfold test_analysis_completion. rewrite Hid. cbn [negb].
  unfold tbind at 1, now. cbn [fst snd].
  replace (Z.to_nat (max_wait_time / 5) + 2)%nat
    with (S (Z.to_nat (max_wait_time / 5) + 1)) by lia.
  cbn [poll]. unfold tbind at 1, now. cbn [fst snd].
  rewrite (proj2 (Z.ltb_lt _ _)) by lia.
  unfold tbind at 1, test_analysis_status. rewrite Hid. cbn [negb].
  rewrite run_test_eq. unfold request_for. cbn [py_bool andb].
  rewrite bool_decide_eq_true_2 by done.
  rewrite Hsend, Hcode, Hjson. cbn [Z.eqb Pos.eqb default fst snd].
  unfold id.
  assert (py_bool o (PDict pairs) = true) as ->.
  { unfold py_bool. destruct pairs; [done|]. by rewrite bool_decide_eq_false_2. }
  cbn [andb]. unfold tbind at 1. cbn [dict_get tlift tret]. unfold tret at 1.
  rewrite Hstatus. cbn [default].
  unfold id. rewrite is_text_refl.
  unfold tbind at 1, all_in, py_contains.
  rewrite Htc, Hpr, !bool_decide_eq_true_2 by by eexists.
  cbn [tlift tret]. unfold tbind, tret. cbn [default]. unfold id.
  by rewrite Hlen.
Qed.

(** The field check of the sample and the search for the identifier in
    the answer to the upload come after the verdict of [run_test]. *)
Lemma test_sample_csv_download_state (s : Tester * Net o) :
  (test_sample_csv_download o s).2
  = (run_test o (py "Sample CSV Download") (py "GET") (py "api/sample-csv")
       200 PNone [] s).2.
Proof.
  unfold test_sample_csv_download, tbind.
  destruct (run_test o _ _ _ _ _ _ s) as [[r|e] s1]; [|done].
  destruct (r.1 && py_bool o r.2); [|done]. cbn [snd].
  by destruct (all_in _ _) as [e|[]].
Qed.

Lemma test_csv_upload_state (s : Tester * Net o) :
  let after :=
    (run_test o (py "CSV Upload") (py "POST") (py "api/upload-csv") 200 PNone
       [(py "file", (py "test_customers.csv", csv_content, py "text/csv"))] s).2 in
  let s' := (test_csv_upload o s).2 in
  tests_run s'.1 = tests_run after.1
  ∧ tests_passed s'.1 = tests_passed after.1
  ∧ base_url s'.1 = base_url after.1
  ∧ s'.2 = after.2.
Proof.
  unfold test_csv_upload, tbind. cbv zeta.
  destruct (run_test o _ _ _ _ _ _ s) as [[r|e] s1]; [|done].
  destruct r.1; [|done]. cbn [snd].
  destruct (py_contains _ _) as [e|[]]; try done. cbn [tlift tret].
  by destruct (py_getitem _ _) as [e|id].
Qed.

(** X22. The checks the tester makes on a body never reach its counters:
    [test_sample_csv_download] leaves the tester and the network exactly
    as the one [run_test] it makes does, also when it returns [False]
    for a sample without the expected fields or raises; and
    [test_csv_upload] differs from its [run_test] in the stored
    identifier at most. A test counted as passed is one whose request
    was answered with the expected status, whatever the body. *)
Theorem body_checks_are_not_counted (s : Tester * Net o) :
  (test_sample_csv_download o s).2
  = (run_test o (py "Sample CSV Download") (py "GET") (py "api/sample-csv")
       200 PNone [] s).2
  ∧ (let after :=
       (run_test o (py "CSV Upload") (py "POST") (py "api/upload-csv") 200 PNone
          [(py "file", (py "test_customers.csv", csv_content, py "text/csv"))] s).2 in
     let s' := (test_csv_upload o s).2 in
     tests_run s'.1 = tests_run after.1
     ∧ tests_passed s'.1 = tests_passed after.1
     ∧ base_url s'.1 = base_url after.1
     ∧ s'.2 = after.2).
Proof.
  split; [apply test_sample_csv_download_state | apply test_csv_upload_state].
Qed.

End BodyChecks.

(** ** The run of all tests *)

Section Main.

Variable o : Outside.

Hypothesis requests_take_time :
  ∀ request n, (time_time o n ≤ time_time o (requests_send o request n).2)%Z.
Hypothesis sleep_lasts :
  ∀ d n, (time_time o n + d ≤ time_time o (time_sleep o d n))%Z.

Lemma spec_test_sample_csv_download :
  spec 1 1 (λ _, True) (test_sample_csv_download o).
Proof.
  apply (spec_tbind o 1 1 0 0 (λ _, True)); [apply spec_run_test|].
  intros r _. cbv zeta. destruct (r.1 && py_bool o r.2); [|by apply spec_tret].
  apply (spec_tbind o 0 0 0 0 (λ _, True)).
  - eapply spec_weaken; [apply spec_tlift|lia..|done].
  - intros [] _; by apply spec_tret.
Qed.

Lemma spec_store_identifier (id response : pyval) :
  spec 0 0 (λ _ : bool * pyval, True)
    (tbind o (self o) (λ t,
       tbind o (set_self o (mkTester (base_url t) (tests_run t) (tests_passed t) id))
         (λ _, tret o (true, response)))).
Proof.
  intros s r s' [= <- <-]. unfold counted. cbn.
  split; [repeat split; lia|]. intros a _. repeat split; lia.
Qed.

Lemma spec_test_csv_upload : spec 1 1 (λ _, True) (test_csv_upload o).
Proof.
  apply (spec_tbind o 1 1 0 0 (λ _, True)); [apply spec_run_test|].
  intros r _. cbv zeta. destruct r.1; [|by apply spec_tret].
  apply (spec_tbind o 0 0 0 0 (λ _, True)).
  { eapply spec_weaken; [apply spec_tlift|lia..|done]. }
  intros [] _; [|by apply spec_tret].
  apply (spec_tbind o 0 0 0 0 (λ _, True)).
  { eapply spec_weaken; [apply spec_tlift|lia..|done]. }
  intros id _. apply spec_store_identifier.
Qed.

Lemma spec_test_delete_analysis (analysis_id : pyval) :
  spec 0 1 (λ _, True) (test_delete_analysis o analysis_id).
Proof.
  unfold test_delete_analysis. destruct (py_bool o analysis_id); cbn [negb].
  - eapply spec_weaken; [apply spec_run_test|lia..|done].
  - eapply spec_weaken; [by apply (spec_tret o (λ _, True))|lia..|done].
Qed.

Lemma spec_run_all : spec 6 33 (λ r, r = Some tt) (run_all o).
Proof.
  unfold run_all.
  apply (spec_tbind o 1 1 5 32 (λ _, True)); [apply spec_run_test|]. intros _ _.
  apply (spec_tbind o 1 1 4 31 (λ _, True)); [apply spec_run_test|]. intros _ _.
  apply (spec_tbind o 1 1 3 30 (λ _, True));
    [apply spec_test_sample_csv_download|]. intros _ _.
  apply (spec_tbind o 1 1 2 29 (λ _, True)); [apply spec_run_test|]. intros _ _.
  apply (spec_tbind o 1 1 1 28 (λ _, True)); [apply spec_test_csv_upload|].
  intros upload _. cbv zeta.
  apply (spec_tbind o 0 0 1 28 (λ _, True)); [apply spec_self|]. intros tester _.
  apply (spec_tbind o 0 27 1 1 (λ r, r = Some tt)).
  - destruct (upload.1 && py_bool o (self_analysis_id tester)).
    2: { eapply spec_weaken; [by apply (spec_tret o (λ r, r = Some tt))|lia..|done]. }
    apply (spec_tbind o 0 25 0 2 polled).
    { apply (completion_spec o requests_take_time sleep_lasts _ 120). }
    intros c (verdict & body & -> & _).
    apply (spec_weaken 1 2 0 2 (λ r, r = Some tt) (λ r, r = Some tt));
      [|lia|lia|done].
    apply (spec_tbind o 1 1 0 1 (λ _, True)); [apply spec_run_test|]. intros _ _.
    apply (spec_tbind o 0 1 0 0 (λ _, True)); [apply spec_test_delete_analysis|].
    intros _ _. by apply spec_tret.
  - intros finished ->.
    apply (spec_tbind o 1 1 0 0 (λ _, True)); [apply spec_run_test|]. intros _ _.
    by apply spec_tret.
Qed.

(** X23. [main()] comes to an end: as long as the clock does not go back
    during a request and [time.sleep] lasts as long as asked, it returns
    or is stopped by an exception of a body check after at most
    thirty-three tests, never with more passed tests than tests; when it
    returns, at least six tests were run, and the exit status is 0 when
    the two counters are equal and 1 when fewer tests passed than were
    run. *)
Theorem main_exit_status (net : Net o) :
  ∃ outcome s',
    main o net = (outcome, s')
    ∧ outcome ≠ Ok None
    ∧ (tests_passed s'.1 ≤ tests_run s'.1 ≤ 33)%nat
    ∧ ∀ code, outcome = Ok (Some code) →
        (6 ≤ tests_run s'.1)%nat
        ∧ ((code = 0%Z ∧ tests_passed s'.1 = tests_run s'.1)
           ∨ (code = 1%Z ∧ (tests_passed s'.1 < tests_run s'.1)%nat)).
Proof.
  unfold main, tbind.
  destruct (run_all o (new_tester, net)) as [[finished|e] s1] eqn:Hrun.
  - destruct (spec_run_all _ _ _ Hrun) as [_ Hok].
    destruct (Hok finished eq_refl) as [(H1 & H2 & H3 & H4 & _) ->].
    cbn in H1, H2, H3, H4. unfold self, tret. cbn [fst snd].
    eexists _, _. split; [reflexivity|]. split; [done|]. split; [cbn; lia|].
    intros code [= <-]. split; [cbn; lia|]. cbn [fst].
    destruct (decide (tests_passed s1.1 = tests_run s1.1)) as [Heq|Hne].
    + left. by rewrite bool_decide_eq_true_2.
    + right. rewrite bool_decide_eq_false_2 by done. split; [done | lia].
  - destruct (spec_run_all _ _ _ Hrun) as [(H1 & H2 & H3 & H4 & _) _].
    cbn in H1, H2, H3, H4.
    eexists _, _. split; [reflexivity|]. split; [done|]. split; [cbn; lia|].
    intros code [=].
Qed.

End Main.

(** ** The tester on two outsides *)

Lemma polling_ends_witness :
  ∃ outcome s',
    test_analysis_completion quiet_outside (PStr (py "1b9d6bcd")) 60
      (new_tester, 0%Z : Net quiet_outside)
    = (outcome, s')
    ∧ outcome ≠ Ok None
    ∧ (tests_run new_tester ≤ tests_run s'.1
       ≤ tests_run new_tester + Z.to_nat (60 / 5) + 1)%nat
    ∧ (tests_passed new_tester ≤ tests_passed s'.1)%nat
    ∧ (tests_passed s'.1 - tests_passed new_tester
       ≤ tests_run s'.1 - tests_run new_tester)%nat
    ∧ ∀ body, outcome = Ok (Some (true, body)) → accepted_body body.
Proof.
  apply (polling_ends quiet_outside); intros; simpl; lia.
Defined.

Lemma unsized_predictions_raise_witness :
  test_analysis_completion null_outside (PStr (py "1b9d6bcd")) 60
    (new_tester, 0%Z : Net null_outside)
  = (Raise (Exception "TypeError" (py "object of type 'NoneType' has no len()")),
     (mkTester (base_url new_tester) (S (tests_run new_tester))
               (S (tests_passed new_tester)) (self_analysis_id new_tester),
      1%Z : Net null_outside)).
Proof.
  apply (unsized_predictions_raise null_outside (PStr (py "1b9d6bcd")) 60
           new_tester (0%Z : Net null_outside) (1%Z : Net null_outside)
           {| status_code := 200;
              response_json :=
                Some (PDict [(py "status", PStr (py "completed"));
                             (py "total_customers", PInt 5);
                             (py "predictions", PNone)]) |}
           [(py "status", PStr (py "completed"));
            (py "total_customers", PInt 5);
            (py "predictions", PNone)]
           PNone); try reflexivity.
  by eexists.
Defined.

Lemma main_exit_status_witness :
  ∃ outcome s',
    main quiet_outside (0%Z : Net quiet_outside) = (outcome, s')
    ∧ outcome ≠ Ok None
    ∧ (tests_passed s'.1 ≤ tests_run s'.1 ≤ 33)%nat
    ∧ ∀ code, outcome = Ok (Some code) →
        (6 ≤ tests_run s'.1)%nat
        ∧ ((code = 0%Z ∧ tests_passed s'.1 = tests_run s'.1)
           ∨ (code = 1%Z ∧ (tests_passed s'.1 < tests_run s'.1)%nat)).
Proof.
  apply (main_exit_status quiet_outside); intros; simpl; lia.
Defined.

(** On the quiet outside the upload is answered without an identifier:
    six tests are run, four pass (the upload of the text file expects
    400 and the unknown identifier 404), and the exit status is 1. *)
Example main_on_quiet_outside :
  (main quiet_outside (0%Z : Net quiet_outside)).1 = Ok (Some 1%Z)
  ∧ tests_run (main quiet_outside (0%Z : Net quiet_outside)).2.1 = 6%nat
  ∧ tests_passed (main quiet_outside (0%Z : Net quiet_outside)).2.1 = 4%nat.
Proof. repeat split; reflexivity. Qed.

(** * Runs with identifiers drawn afresh *)

Lemma filed_under_update_first (analysis_id tid : str) (fields : document)
    (c : list document) :
  fields !! "analysis_id" = None →
  length (filed_under analysis_id (update_first tid (λ d, fields ∪ d) c))
  = length (filed_under analysis_id c).
Proof.
  intros Hf. unfold filed_under. induction c as [|d c IH]; [done|]. simpl.
  destruct (matches tid d).
  - rewrite !filter_cons, matches_set by done.
    by destruct (decide (matches analysis_id d = true)).
  - rewrite !filter_cons.
    destruct (decide (matches analysis_id d = true)); simpl; by rewrite IH.
Qed.

Lemma filed_under_delete_other (analysis_id other : str) (c : list document) :
  other ≠ analysis_id →
  filed_under other (delete_first analysis_id c) = filed_under other c.
Proof.
  intros Hne. unfold filed_under. induction c as [|d c IH]; [done|]. simpl.
  destruct (matches analysis_id d) eqn:Hm.
  - rewrite filter_cons, decide_False; [done|].
    intros Ho. destruct Hne. by apply (matches_two _ _ d).
  - rewrite !filter_cons. by rewrite IH.
Qed.

Lemma length_filed_under_delete (analysis_id other : str) (c : list document) :
  (length (filed_under other (delete_first analysis_id c))
   ≤ length (filed_under other c))%nat.
Proof.
  destruct (decide (other = analysis_id)) as [->|Hne].
  - unfold filed_under. rewrite filter_delete_first.
    destruct (filter _ c); simpl; lia.
  - by rewrite filed_under_delete_other.
Qed.

(** Where an identifier is filed once, the record found under it is the
    only one. *)
Lemma only_record (analysis_id : str) (c : list document) (d d' : document) :
  (length (filed_under analysis_id c) ≤ 1)%nat →
  first_match analysis_id c = Some d →
  d' ∈ c → matches analysis_id d' = true → d' = d.
Proof.
  unfold first_match, filed_under. intros Hlen Hd Hin Hm.
  assert (d' ∈ filter (λ d, matches analysis_id d = true) c) as Hf
    by by apply list_elem_of_filter.
  destruct (filter _ c) as [|d0 [|d1 l]]; simpl in *; [done| |lia].
  injection Hd as ->. by apply list_elem_of_singleton in Hf.
Qed.

Lemma first_match_app_l (analysis_id : str) (c : list document) (d r : document) :
  first_match analysis_id c = Some d → first_match analysis_id (c ++ [r]) = Some d.
Proof.
  unfold first_match. rewrite filter_app. by destruct (filter _ c).
Qed.

Lemma first_match_app_other (analysis_id : str) (c : list document) (r : document) :
  matches analysis_id r = false →
  first_match analysis_id (c ++ [r]) = first_match analysis_id c.
Proof.
  intros Hr. unfold first_match. rewrite filter_app, filter_cons.
  rewrite decide_False by congruence. by rewrite filter_nil, app_nil_r.
Qed.

Lemma upload_record_matches (uuid4 other : str) (file : UploadFile) (w : World) :
  matches other (upload_record uuid4 file w) = bool_decide (uuid4 = other).
Proof. reflexivity. Qed.

Lemma terminal_fields_keep_id (now : Z) (fields : document) :
  terminal_fields now fields → fields !! "analysis_id" = None.
Proof. by intros (_ & _ & H & _). Qed.

(** ** What keeps the collection and the tasks well kept *)

Lemma well_kept_same (w w' : World) :
  churn_analyses w' = churn_analyses w → pending w' ≡ₚ pending w →
  well_kept w → well_kept w'.
Proof.
  intros Hc Hp (Ha & Hb & Hcd & Hd). unfold well_kept. rewrite Hc, Hp.
  repeat split; try done.
  - intros id d. rewrite Hp. apply Hcd.
  - intros d Hin Hpr. destruct (Hd d Hin Hpr) as (id & ? & ?).
    exists id. by rewrite Hp.
Qed.

Lemma well_kept_upload (uuid4 : str) (file : UploadFile) (w w' : World) :
  churn_analyses w' = churn_analyses w ++ [upload_record uuid4 file w] →
  pending w' ≡ₚ uuid4 :: pending w →
  fresh uuid4 w →
  well_kept w → well_kept w'.
Proof.
  intros Hc Hp [Hnone Hnew] (Ha & Hb & Hcd & Hd). unfold well_kept.
  rewrite Hc, Hp. repeat split.
  - intros id. unfold filed_under. rewrite filter_app, length_app, filter_cons.
    rewrite upload_record_matches.
    destruct (decide (bool_decide (uuid4 = id) = true)) as [Hid|Hid].
    + apply bool_decide_eq_true in Hid as ->.
      unfold first_match in Hnone. apply head_None in Hnone.
      rewrite Hnone. simpl. lia.
    + specialize (Ha id). unfold filed_under in Ha. simpl. lia.
  - by apply NoDup_cons.
  - intros id d. rewrite Hp. intros Hin Hfound.
    destruct (decide (id = uuid4)) as [->|Hne].
    + unfold first_match in *. rewrite filter_app in Hfound.
      apply head_None in Hnone. rewrite Hnone in Hfound.
      rewrite filter_cons, upload_record_matches, bool_decide_eq_true_2 in Hfound
        by done.
      rewrite decide_True in Hfound by done. by injection Hfound as <-.
    + apply elem_of_cons in Hin as [?|Hin]; [done|].
      rewrite first_match_app_other in Hfound.
      * by apply (Hcd id).
      * rewrite upload_record_matches. by apply bool_decide_eq_false_2.
  - intros d [Hin| ->%list_elem_of_singleton]%elem_of_app Hpr.
    + destruct (Hd d Hin Hpr) as (id & ? & ?). exists id.
      split; [done|]. rewrite Hp. by right.
    + exists uuid4. split; [done|]. rewrite Hp. left.
Qed.

Lemma well_kept_delete (analysis_id : str) (w w' : World) :
  churn_analyses w' = delete_first analysis_id (churn_analyses w) →
  pending w' = pending w →
  well_kept w → well_kept w'.
Proof.
  intros Hc Hp (Ha & Hb & Hcd & Hd). unfold well_kept. rewrite Hc, Hp.
  repeat split; try done.
  - intros id. specialize (Ha id).
    pose proof (length_filed_under_delete analysis_id id (churn_analyses w)). lia.
  - intros id d Hin Hfound. destruct (decide (id = analysis_id)) as [->|Hne].
    + exfalso. unfold first_match in Hfound. rewrite filter_delete_first in Hfound.
      specialize (Ha analysis_id). unfold filed_under in Ha.
      destruct (filter _ (churn_analyses w)) as [|d0 [|d1 l]]; simpl in *;
        [done|done|lia].
    + rewrite first_match_delete_other in Hfound by done. by apply (Hcd id).
  - intros d Hin%elem_of_delete_first Hpr. by apply Hd.
Qed.

(** The task of [tid] is over and has ended the job of its record. *)
Lemma well_kept_finished (tid : str) (now : Z) (fields : document) (w w' : World) :
  terminal_fields now fields →
  churn_analyses w' = update_first tid (λ d, fields ∪ d) (churn_analyses w) →
  pending w ≡ₚ tid :: pending w' →
  well_kept w → well_kept w'.
Proof.
  intros Hf Hc Hp (Ha & Hb & Hcd & Hd).
  pose proof (terminal_fields_keep_id _ _ Hf) as Hid.
  rewrite Hp in Hb. apply NoDup_cons in Hb as [Htid Hb].
  assert (∀ id, (length (filed_under id (churn_analyses w')) ≤ 1)%nat) as Ha'.
  { intros id. rewrite Hc, filed_under_update_first by done. apply Ha. }
  unfold well_kept. repeat split; try done.
  - intros id d Hin Hfound.
    assert (id ≠ tid) as Hne by (intros ->; done).
    rewrite Hc, first_match_set_other in Hfound by done.
    apply (Hcd id); [|done]. rewrite Hp. by right.
  - intros d' Hin' Hpr. pose proof Hin' as Hin. rewrite Hc in Hin.
    apply elem_of_update_first in Hin as [Hin|(d0 & Hd0 & ->)].
    2: { exfalso. apply (processing_not_terminal _ Hpr), terminal_set, Hf. }
    destruct (Hd d' Hin Hpr) as (id & Hdid & Hpend). exists id. split; [done|].
    rewrite Hp in Hpend. apply elem_of_cons in Hpend as [->|?]; [|done].
    exfalso. apply matches_spec in Hdid.
    destruct (first_match tid (churn_analyses w)) as [d0|] eqn:Hfound.
    + assert (first_match tid (churn_analyses w') = Some (fields ∪ d0)) as Hnew
        by (rewrite Hc; by apply first_match_set).
      assert (d' = fields ∪ d0) as Heq
        by by apply (only_record tid (churn_analyses w')).
      apply (processing_not_terminal _ Hpr). rewrite Heq. apply terminal_set, Hf.
    + apply (proj1 (first_match_None tid (churn_analyses w)) Hfound d' Hin).
      by apply matches_spec.
Qed.

Lemma pending_without_scheduled (w : World) (q1 q2 : list task) (t : task) :
  scheduled w = q1 ++ t :: q2 →
  pending w ≡ₚ task_analysis_id t :: pending (set_scheduled (λ _, q1 ++ q2) w).
Proof.
  intros H. unfold pending. rewrite H. cbn [scheduled awaiting set_scheduled].
  rewrite !fmap_app, fmap_cons.
  rewrite <- !app_assoc. symmetry. apply Permutation_middle.
Qed.

Lemma pending_without_awaiting (w : World) (q1 q2 : list suspended) (s : suspended) :
  awaiting w = q1 ++ s :: q2 →
  pending w
  ≡ₚ task_analysis_id (susp_task s) :: pending (set_awaiting (λ _, q1 ++ q2) w).
Proof.
  intros H. unfold pending. rewrite H. cbn [scheduled awaiting set_awaiting].
  rewrite !fmap_app, fmap_cons, !app_assoc.
  symmetry. apply Permutation_middle.
Qed.

Section FreshFacts.

Variable pd_read_csv : option node → exn + N.

Lemma step_fresh_well_kept (w w' : World) :
  step_fresh pd_read_csv w w' → well_kept w → well_kept w'.
Proof.
  intros [w0 uuid4 file Hfresh|w0 w1 Hstep Hlen] Hw.
  - destruct (upload_csv_cases uuid4 file w0) as [(_ & _ & ->)|[e ->]]; [|done].
    apply (well_kept_upload uuid4 file w0); try done.
    unfold pending. cbn [snd scheduled awaiting]. rewrite fmap_app, <- app_assoc.
    symmetry. apply Permutation_middle.
  - destruct Hstep
      as [w0 uuid4 file|w0 id|w0|w0 id|w0 q1 t q2 Hq|w0 q1 s q2 answer Hq|w0 t Ht].
    + destruct (upload_csv_cases uuid4 file w0) as [(_ & _ & Hup)|[e ->]]; [|done].
      rewrite Hup in Hlen. cbn [snd churn_analyses] in Hlen.
      rewrite length_app in Hlen. simpl in Hlen. lia.
    + rewrite get_analysis_status_eq. by destruct (first_match id _).
    + done.
    + destruct (delete_analysis id w0) as [[m|e] w1] eqn:Hdel; cbn [snd].
      * apply (well_kept_delete id w0); [|
          by apply delete_analysis_world in Hdel
            as (_ & d & _ & [[-> _]|(p & c & _ & _ & ->)])|done].
        by apply (delete_analysis_ok id m).
      * by rewrite (delete_analysis_refused _ _ _ _ Hdel).
    + pose proof (pending_without_scheduled w0 q1 q2 t Hq) as Hp.
      destruct (task_start_world pd_read_csv t (set_scheduled (λ _, q1 ++ q2) w0))
        as [(s & <- & ->)|(fields & Hf & ->)]; cbn [snd].
      * apply (well_kept_same w0); [done| |done]. rewrite Hp.
        unfold pending. cbn [scheduled awaiting set_scheduled set_awaiting].
        rewrite (fmap_app _ (awaiting w0)), app_assoc. symmetry.
        apply Permutation_cons_append.
      * by apply (well_kept_finished (task_analysis_id t)
                    (clock (set_scheduled (λ _, q1 ++ q2) w0)) fields w0).
    + pose proof (pending_without_awaiting w0 q1 q2 s Hq) as Hp.
      destruct (task_resume_world s answer (set_awaiting (λ _, q1 ++ q2) w0))
        as (fields & Hf & ->); cbn [snd].
      by apply (well_kept_finished (task_analysis_id (susp_task s))
                  (clock (set_awaiting (λ _, q1 ++ q2) w0)) fields w0).
    + by apply (well_kept_same w0).
Qed.

Lemma reachable_fresh_well_kept (w : World) :
  reachable_fresh pd_read_csv w → well_kept w.
Proof.
  induction 1 as [w (Hc & Hs & Ha)|w w' _ IH Hstep].
  - unfold well_kept, pending. rewrite Hc, Hs, Ha. repeat split.
    + intros id. simpl. lia.
    + constructor.
    + by intros id d Hin%elem_of_nil.
    + by intros d Hin%elem_of_nil.
  - by apply (step_fresh_well_kept w).
Qed.

(** X24. A finished job stays as it is. With identifiers drawn afresh, a
    record that is [completed], [completed_with_errors] or [failed] is
    found unchanged under its identifier after every move of the server,
    or is not found any more (it was deleted): no task and no request
    writes to it again, and its status never goes back. *)
Theorem finished_jobs_stay_finished (analysis_id : str) (d : document)
    (w w' : World) :
  reachable_fresh pd_read_csv w →
  step_fresh pd_read_csv w w' →
  first_match analysis_id (churn_analyses w) = Some d →
  terminal d →
  first_match analysis_id (churn_analyses w') = Some d
  ∨ first_match analysis_id (churn_analyses w') = None.
Proof.
  intros (Ha & Hb & Hcd & Hd)%reachable_fresh_well_kept Hstep Hfound Hterm.
  assert (∀ tid now fields w1,
            tid ∈ pending w → terminal_fields now fields →
            churn_analyses w1 = update_first tid (λ d, fields ∪ d) (churn_analyses w) →
            first_match analysis_id (churn_analyses w1) = Some d) as Htask.
  { intros tid now fields w1 Hin Hf ->.
    destruct (decide (analysis_id = tid)) as [->|Hne].
    - destruct (processing_not_terminal d); [|done]. by apply (Hcd tid).
    - rewrite first_match_set_other; [done|by apply (terminal_fields_keep_id now)|done]. }
  destruct Hstep as [w0 uuid4 file Hfresh|w0 w1 Hstep Hlen].
  - left. destruct (upload_csv_cases uuid4 file w0) as [(_ & _ & ->)|[e ->]]; [|done].
    by apply first_match_app_l.
  - destruct Hstep
      as [w0 uuid4 file|w0 id|w0|w0 id|w0 q1 t q2 Hq|w0 q1 s q2 answer Hq|w0 t Ht].
    + left. destruct (upload_csv_cases uuid4 file w0) as [(_ & _ & ->)|[e ->]];
        [|done]. by apply first_match_app_l.
    + left. rewrite get_analysis_status_eq. by destruct (first_match id _).
    + by left.
    + destruct (delete_analysis id w0) as [[m|e] w1] eqn:Hdel; cbn [snd].
      2: { left. by rewrite (delete_analysis_refused _ _ _ _ Hdel). }
      rewrite (delete_analysis_ok _ _ _ _ Hdel).
      destruct (decide (analysis_id = id)) as [->|Hne].
      * right. unfold first_match. rewrite filter_delete_first.
        specialize (Ha id). unfold filed_under in Ha.
        destruct (filter _ (churn_analyses w0)) as [|d0 [|d1 l]]; simpl in *;
          [done|done|lia].
      * left. by rewrite first_match_delete_other.
    + left. pose proof (pending_without_scheduled w0 q1 q2 t Hq) as Hp.
      destruct (task_start_world pd_read_csv t (set_scheduled (λ _, q1 ++ q2) w0))
        as [(s & _ & ->)|(fields & Hf & ->)]; cbn [snd]; [done|].
      apply (Htask (task_analysis_id t)
               (clock (set_scheduled (λ _, q1 ++ q2) w0)) fields); [|done|done].
      rewrite Hp. left.
    + left. pose proof (pending_without_awaiting w0 q1 q2 s Hq) as Hp.
      destruct (task_resume_world s answer (set_awaiting (λ _, q1 ++ q2) w0))
        as (fields & Hf & ->); cbn [snd].
      apply (Htask (task_analysis_id (susp_task s))
               (clock (set_awaiting (λ _, q1 ++ q2) w0)) fields); [|done|done].
      rewrite Hp. left.
    + by left.
Qed.


End FreshFacts.

(** ** The shape of a record *)

Lemma analyzer_update_terminal (now : Z) (fields : document) :
  analyzer_update now fields → terminal_fields now fields.
Proof.
  intros [(e & ->)|[(e & raw & n & ->)|(v1 & v2 & v3 & v4 & v5 & ->)]];
    solve_terminal_fields.
Qed.

Lemma analyze_failed_kind (analysis_id : str) (e : exn) (w : World) :
  ∃ h fields,
    analyze_failed analysis_id e = Some h
    ∧ analyzer_update (clock w) fields
    ∧ h w = (Ok tt,
             set_churn_analyses (update_first analysis_id (λ d, fields ∪ d)) w).
Proof.
  eexists _, _. split; [reflexivity|]. split; [|reflexivity].
  left. by eexists.
Qed.

Lemma analyze_response_kind (analysis_id response : str) (n : N) (w : World) :
  (∃ fields,
     analyzer_update (clock w) fields
     ∧ analyze_response analysis_id n response w
       = (Ok tt,
          set_churn_analyses (update_first analysis_id (λ d, fields ∪ d)) w))
  ∨ (∃ e, analyze_response analysis_id n response w = (Raise e, w)).
Proof.
  destruct (Json.loads (extract_json response)) as [v|text] eqn:Hparse.
  - destruct v;
      try (right; unfold analyze_response, try_except, bind, json_loads;
           rewrite Hparse; eexists; reflexivity).
    left. rewrite (analyze_response_object _ _ _ pairs) by done.
    eexists. split; [|reflexivity]. right. right. by eexists _, _, _, _, _.
  - left. rewrite (analyze_response_unparsable _ _ _ text) by done.
    eexists. split; [|reflexivity]. right. left. by eexists _, _, _.
Qed.

Section Kinds.

Variable pd_read_csv : option node → exn + N.

Lemma task_resume_kind (s : suspended) (answer : exn + str) (w : World) :
  ∃ fields,
    analyzer_update (clock w) fields
    ∧ task_resume s answer w
      = (Ok tt,
         set_churn_analyses
           (update_first (task_analysis_id (susp_task s)) (λ d, fields ∪ d)) w).
Proof.
  unfold task_resume, try_except, bind.
  destruct answer as [e|response]; unfold lift, raise, ret.
  - destruct (analyze_failed_kind (task_analysis_id (susp_task s)) e w)
      as (h & fields & -> & Hf & ->). by exists fields.
  - destruct (analyze_response_kind (task_analysis_id (susp_task s)) response
                (susp_total_customers s) w) as [(fields & Hf & ->)|[e ->]].
    + by exists fields.
    + destruct (analyze_failed_kind (task_analysis_id (susp_task s)) e w)
        as (h & fields & -> & Hf & ->). by exists fields.
Qed.

Lemma task_start_kind (t : task) (w : World) :
  (∃ s, susp_task s = t
        ∧ task_start pd_read_csv t w = (Ok tt, set_awaiting (λ q, q ++ [s]) w))
  ∨ (∃ fields,
       analyzer_update (clock w) fields
       ∧ task_start pd_read_csv t w
         = (Ok tt,
            set_churn_analyses
              (update_first (task_analysis_id t) (λ d, fields ∪ d)) w)).
Proof.
  unfold task_start, try_except, bind.
  pose proof (analyze_prepare_world pd_read_csv (task_analysis_id t)
                (task_file_path t) w) as Hw.
  destruct (analyze_prepare _ _ _ w) as [[a|e] w']; simpl in Hw; subst w'.
  - left. by eexists (Suspended t a.1 a.2).
  - right. destruct (analyze_failed_kind (task_analysis_id t) e w)
      as (h & fields & -> & Hf & ->). by exists fields.
Qed.

End Kinds.

Lemma elem_of_update_first_found (analysis_id : str) (f : document → document)
    (c : list document) (d' : document) :
  d' ∈ update_first analysis_id f c →
  d' ∈ c ∨ ∃ d, first_match analysis_id c = Some d ∧ d' = f d.
Proof.
  unfold first_match. induction c as [|d0 c IH]; simpl; [by left|].
  rewrite filter_cons. destruct (matches analysis_id d0) eqn:Hm.
  - rewrite decide_True by done.
    intros [->|H]%elem_of_cons; [right; by exists d0 | left; by right].
  - rewrite decide_False by congruence.
    intros [->|H]%elem_of_cons; [left; left|].
    destruct (IH H) as [?|(d & ? & ?)]; [left; by right | right; by exists d].
Qed.

Lemma shaped_processing (d : document) :
  shaped d → has_status "processing" d →
  Forall (λ k, d !! k = Some PNone)
    ["total_customers"; "high_risk_customers"; "predictions"; "insights";
     "recommendations"]
  ∧ Forall (λ k, d !! k = None) ["error"; "raw_response"; "completed_at"].
Proof.
  intros [(_ & H1 & H2)|[(Hs & _)|[(Hs & _)|(Hs & _)]]] Hp; [done|..];
    exfalso; apply (processing_not_terminal d Hp); unfold terminal; auto.
Qed.

(** A [processing] record after one of the three [$set]s. *)
Lemma shaped_update (now : Z) (fields d : document) :
  analyzer_update now fields → shaped d → has_status "processing" d →
  shaped (fields ∪ d).
Proof.
  intros Hf Hd Hp. destruct (shaped_processing d Hd Hp) as [Hres Hdiag].
  repeat (apply Forall_cons in Hres as [? Hres]).
  repeat (apply Forall_cons in Hdiag as [? Hdiag]).
  assert (∀ l k, k ∉ l.*1 → ((list_to_map l : document) ∪ d) !! k = d !! k) as Hkeep
    by (intros l k; apply set_other_field).
  destruct Hf as [(e & ->)|[(e & raw & n & ->)|(v1 & v2 & v3 & v4 & v5 & ->)]].
  - right. left. split; [by apply set_field|].
    split; [repeat constructor; rewrite Hkeep; try done;
            vm_compute; repeat (apply not_elem_of_cons; split; [discriminate|]);
            apply not_elem_of_nil|].
    split; [exists e; by apply set_field|].
    split; [|eexists; by apply set_field].
    rewrite Hkeep; [done|].
    vm_compute; repeat (apply not_elem_of_cons; split; [discriminate|]);
      apply not_elem_of_nil.
  - right. right. left. split; [by apply set_field|].
    split; [exists n; by apply set_field|].
    split; [repeat constructor; rewrite Hkeep; try done;
            vm_compute; repeat (apply not_elem_of_cons; split; [discriminate|]);
            apply not_elem_of_nil|].
    split; [exists e; by apply set_field|].
    split; [exists raw; by apply set_field|].
    eexists; by apply set_field.
  - right. right. right. split; [by apply set_field|].
    split; [repeat constructor; eexists; by apply set_field|].
    split; [|split; [|eexists; by apply set_field]];
      (rewrite Hkeep; [done|]);
      vm_compute; repeat (apply not_elem_of_cons; split; [discriminate|]);
      apply not_elem_of_nil.
Qed.

Lemma shaped_upload_record (uuid4 : str) (file : UploadFile) (w : World) :
  shaped (upload_record uuid4 file w).
Proof.
  left. split; [reflexivity|]. split; repeat constructor.
Qed.

Section ShapeFacts.

Variable pd_read_csv : option node → exn + N.

Lemma step_fresh_shaped (w w' : World) :
  well_kept w →
  (∀ d, d ∈ churn_analyses w → shaped d) →
  step_fresh pd_read_csv w w' →
  ∀ d, d ∈ churn_analyses w' → shaped d.
Proof.
  intros (Ha & Hb & Hcd & Hd) Hall Hstep.
  assert (∀ tid now fields w1,
            tid ∈ pending w → analyzer_update now fields →
            churn_analyses w1
            = update_first tid (λ d, fields ∪ d) (churn_analyses w) →
            ∀ d, d ∈ churn_analyses w1 → shaped d) as Htask.
  { intros tid now fields w1 Hin Hf -> d'
      [Hold|(d & Hfound & ->)]%elem_of_update_first_found; [by apply Hall|].
    apply (shaped_update now); [done| |by apply (Hcd tid)].
    apply Hall. unfold first_match in Hfound.
    assert (d ∈ filter (λ x, matches tid x = true) (churn_analyses w)) as Hin'.
    { destruct (filter _ (churn_analyses w)) as [|d0 l]; [done|].
      injection Hfound as ->. left. }
    by apply list_elem_of_filter in Hin' as [_ ?]. }
  assert (∀ uuid4 file d,
            d ∈ churn_analyses (upload_csv uuid4 file w).2 → shaped d) as Hup.
  { intros uuid4 file d.
    destruct (upload_csv_cases uuid4 file w) as [(_ & _ & ->)|[e ->]];
      cbn [snd churn_analyses]; [|by apply Hall].
    intros [Hold|Hnew%list_elem_of_singleton]%elem_of_app; [by apply Hall|].
    subst d. apply shaped_upload_record. }
  destruct Hstep as [w0 uuid4 file Hfresh|w0 w1 Hstep Hlen]; [by apply Hup|].
  destruct Hstep
    as [w0 uuid4 file|w0 id|w0|w0 id|w0 q1 t q2 Hq|w0 q1 s q2 answer Hq|w0 t Ht].
  - by apply Hup.
  - rewrite get_analysis_status_eq. by destruct (first_match id _).
  - done.
  - destruct (delete_analysis id w0) as [[m|e] w1] eqn:Hdel; cbn [snd].
    + rewrite (delete_analysis_ok _ _ _ _ Hdel).
      intros d Hin%elem_of_delete_first. by apply Hall.
    + by rewrite (delete_analysis_refused _ _ _ _ Hdel).
  - pose proof (pending_without_scheduled w0 q1 q2 t Hq) as Hp.
    destruct (task_start_kind pd_read_csv t (set_scheduled (λ _, q1 ++ q2) w0))
      as [(s & _ & ->)|(fields & Hf & ->)]; cbn [snd]; [done|].
    apply (Htask (task_analysis_id t)
             (clock (set_scheduled (λ _, q1 ++ q2) w0)) fields); [|done|done].
    rewrite Hp. left.
  - pose proof (pending_without_awaiting w0 q1 q2 s Hq) as Hp.
    destruct (task_resume_kind s answer (set_awaiting (λ _, q1 ++ q2) w0))
      as (fields & Hf & ->); cbn [snd].
    apply (Htask (task_analysis_id (susp_task s))
             (clock (set_awaiting (λ _, q1 ++ q2) w0)) fields); [|done|done].
    rewrite Hp. left.
  - done.
Qed.

(** X26. The fields of a record go with its status. With identifiers
    drawn afresh, every record the server holds is in one of four shapes:
    [processing] with the five results null and no [error], [raw_response]
    or [completed_at]; [failed] with the text of the error, the date and
    the five results still null; [completed_with_errors] with the text of
    the error, the raw answer, an integer row count, the date and the
    other four results null; [completed] with the five results, the date
    and no [error] or [raw_response]. *)
Theorem records_have_the_shape_of_their_status (w : World) (d : document) :
  reachable_fresh pd_read_csv w →
  d ∈ churn_analyses w →
  shaped d.
Proof.
  intros Hr. revert d.
  induction Hr as [w (Hc & _ & _)|w w' Hr IH Hstep].
  - rewrite Hc. by intros d Hin%elem_of_nil.
  - apply (step_fresh_shaped w); [|done|done].
    by apply (reachable_fresh_well_kept pd_read_csv).
Qed.

End ShapeFacts.

(** ** The sample upload, with identifiers drawn afresh *)

Lemma uploaded_world_reachable_fresh : reachable_fresh five_rows uploaded_world.
Proof.
  eapply reachable_fresh_step;
    [|apply (fresh_upload five_rows keyed_world sample_id sample_file)].
  - by apply reachable_fresh_initial.
  - split; [reflexivity|apply not_elem_of_nil].
Qed.

Lemma finished_world_reachable_fresh : reachable_fresh five_rows finished_world.
Proof.
  eapply reachable_fresh_step;
    [|apply fresh_other;
      [apply (step_answer five_rows started_world [] sample_suspended []);
       reflexivity|]].
  - eapply reachable_fresh_step;
      [|apply fresh_other;
        [apply (step_start five_rows uploaded_world [] sample_task []);
         reflexivity|]].
    + apply uploaded_world_reachable_fresh.
    + change (length (churn_analyses started_world)
              ≤ length (churn_analyses uploaded_world))%nat.
      assert (length (churn_analyses started_world) = 1%nat) as -> by reflexivity.
      assert (length (churn_analyses uploaded_world) = 1%nat) as -> by reflexivity.
      done.
  - change (length (churn_analyses finished_world)
            ≤ length (churn_analyses started_world))%nat.
    assert (length (churn_analyses finished_world) = 1%nat) as -> by reflexivity.
    assert (length (churn_analyses started_world) = 1%nat) as -> by reflexivity.
    done.
Qed.

Lemma completed_record_found :
  first_match sample_id (churn_analyses finished_world) = Some completed_record.
Proof. reflexivity. Qed.

Lemma finished_jobs_stay_finished_witness :
  first_match sample_id (churn_analyses (get_all_analyses finished_world).2)
  = Some completed_record
  ∨ first_match sample_id (churn_analyses (get_all_analyses finished_world).2)
    = None.
Proof.
  apply (finished_jobs_stay_finished five_rows sample_id completed_record
           finished_world (get_all_analyses finished_world).2).
  - exact finished_world_reachable_fresh.
  - apply fresh_other; [apply step_list|reflexivity].
  - exact completed_record_found.
  - left. reflexivity.
Defined.



Lemma completed_record_stored : completed_record ∈ churn_analyses finished_world.
Proof.
  assert (churn_analyses finished_world = [completed_record]) as -> by reflexivity.
  left.
Qed.

Lemma records_have_the_shape_of_their_status_witness : shaped completed_record.
Proof.
  apply (records_have_the_shape_of_their_status five_rows finished_world
           completed_record).
  - exact finished_world_reachable_fresh.
  - exact completed_record_stored.
Defined.
